(** * us_visa_scheduler_colombia: a shallow embedding of [visa.py]

    The development follows the layout of the Python module:

    - [Py]: the few pieces of Python's runtime the program relies on
      (exceptions, JSON values as returned by [json.loads], truthiness,
      iteration, [str.join], [min] with a key, [datetime.strptime] for the
      two formats used, the [in] test on strings);
    - [Section Program]: the functions of [visa.py], written in a small
      error-and-trace monad.  Every call that leaves the program (browser
      driver, HTTP, clock, random numbers, log file, voice, notifications)
      is a request answered by an environment [env]; the answer is a value
      or a raised exception, and the request is recorded in the trace;
    - the vocabulary of the statements, sample environments, and the
      theorems.

    Conventions of the embedding:

    - a Python function that returns or raises is a function into [result];
      one that also talks to the outside world is a computation in [M];
    - [print] is not recorded; [info_logger], [str_to_google_voice] and
      [send_notification] are one request each, with the message kept as the
      f-string template and its arguments ([message]);
    - the cookie read, the script run in the browser and [json.loads] of a
      slot query are one request ([FetchJson]): all three stand in the same
      [try], so whichever fails, the same handler runs;
    - [float] values (timestamps, durations of the configuration) are
      rationals; strings are byte strings, and the digits that [strptime]
      reads are the ASCII ones;
    - [for ... in range(...)] is a recursion on the list of attempts; the two
      [while] loops take fuel, and [login_loop_bounded] shows that the login
      loop never runs out of it. *)

From Stdlib Require Import String Ascii List ZArith QArith Bool Arith Lia DecimalString.
Import ListNotations.
Close Scope Q_scope.
Open Scope string_scope.

(** ** Python runtime *)

Module Py.

(** Exceptions, by class.  [ExternalError] stands for whatever a collaborator
    outside the module raises (selenium, requests, the file system ...). *)
Inductive exn : Type :=
| ValueError (msg : string)
| TypeError (msg : string)
| KeyError (key : string)
| AttributeError (msg : string)
| ExternalError (msg : string).

Inductive result (A : Type) : Type :=
| Ok (a : A)
| Raise (e : exn).
Arguments Ok {A} a.
Arguments Raise {A} e.

Definition rbind {A B} (r : result A) (f : A -> result B) : result B :=
  match r with
  | Ok a => f a
  | Raise e => Raise e
  end.

Definition raises {A} (r : result A) : Prop := exists e, r = Raise e.

(** The values [json.loads] produces.  Numbers are kept as rationals (the
    program only ever tests them for truth); objects keep their members in
    order. *)
#[warnings="-register-all"]
Inductive json : Type :=
| JNull
| JBool (b : bool)
| JNum (q : Q)
| JStr (s : string)
| JList (items : list json)
| JObject (members : list (string * json)).

(** [bool(v)]: the test behind [if v] and [not v]. *)
Definition truthy (v : json) : bool :=
  match v with
  | JNull => false
  | JBool b => b
  | JNum q => negb (Qeq_bool q 0)
  | JStr s => negb (s =? "")
  | JList items => match items with [] => false | _ => true end
  | JObject members => match members with [] => false | _ => true end
  end.

(** The sequence [for x in v] walks through. *)
Definition iterate (v : json) : result (list json) :=
  match v with
  | JList items => Ok items
  | JStr s => Ok (map (fun c => JStr (String c "")) (list_ascii_of_string s))
  | JObject members => Ok (map (fun kv => JStr (fst kv)) members)
  | _ => Raise (TypeError "object is not iterable")
  end.

(** The value under a key; [json.loads] leaves one member per key. *)
Fixpoint lookup (key : string) (members : list (string * json)) : option json :=
  match members with
  | [] => None
  | (k, v) :: rest => if k =? key then Some v else lookup key rest
  end.

(** [v.get(key)]: only a dict has the method; a missing key gives [None]. *)
Definition dict_get (v : json) (key : string) : result json :=
  match v with
  | JObject members =>
      Ok (match lookup key members with Some x => x | None => JNull end)
  | _ => Raise (AttributeError "object has no attribute 'get'")
  end.

(** [v[key]] on a value that is already known to be subscriptable by name. *)
Definition dict_item (v : json) (key : string) : result json :=
  match v with
  | JObject members =>
      match lookup key members with
      | Some x => Ok x
      | None => Raise (KeyError key)
      end
  | _ => Raise (TypeError "object is not subscriptable")
  end.

(** [", ".join(xs)] succeeds exactly when every element is a [str]; the
    joined text is only ever printed, so the strings themselves are kept. *)
Fixpoint all_str (xs : list json) : result (list string) :=
  match xs with
  | [] => Ok []
  | JStr s :: rest => rbind (all_str rest) (fun l => Ok (s :: l))
  | _ :: _ => Raise (TypeError "sequence item: expected str instance")
  end.

Definition join_strings (v : json) : result (list string) :=
  rbind (iterate v) all_str.

(** [min(xs, key=f)]: keys are computed left to right, the held element is
    replaced only by a strictly smaller key, an empty sequence raises. *)
Fixpoint min_loop {A} (key : A -> result Z) (best : A) (kbest : Z)
  (rest : list A) : result A :=
  match rest with
  | [] => Ok best
  | x :: rest' =>
      match key x with
      | Raise e => Raise e
      | Ok k =>
          if (k <? kbest)%Z then min_loop key x k rest'
          else min_loop key best kbest rest'
      end
  end.

Definition min_by {A} (key : A -> result Z) (xs : list A) : result A :=
  match xs with
  | [] => Raise (ValueError "min() arg is an empty sequence")
  | x :: rest =>
      match key x with
      | Raise e => Raise e
      | Ok k => min_loop key x k rest
      end
  end.

(** [sub in text] on strings. *)
Fixpoint contains (sub text : string) : bool :=
  prefix sub text ||
  match text with
  | EmptyString => false
  | String _ rest => contains sub rest
  end.

(** *** [datetime.strptime]

    The format is compiled to a regular expression, matched from the start
    of the text (alternatives in order, with backtracking), and the match
    must cover the whole text.  A directive is modelled as the list of its
    possible matches in the order the regular expression tries them. *)

Definition digit (c : ascii) : Z := Z.of_nat (nat_of_ascii c - 48).

Definition in_range (lo hi : nat) (c : ascii) : bool :=
  (lo <=? nat_of_ascii c)%nat && (nat_of_ascii c <=? hi)%nat.

Definition matcher (A : Type) : Type := list ascii -> list (A * list ascii).

Definition when {A} (b : bool) (l : list A) : list A := if b then l else [].

(** One digit out of [lo..hi] (character codes) followed by one out of
    [lo'..hi']. *)
Definition two (lo hi lo' hi' : nat) : matcher Z :=
  fun s =>
    match s with
    | c1 :: c2 :: rest =>
        when (in_range lo hi c1 && in_range lo' hi' c2)
             [((10 * digit c1 + digit c2)%Z, rest)]
    | _ => []
    end.

Definition one (lo hi : nat) : matcher Z :=
  fun s =>
    match s with
    | c1 :: rest => when (in_range lo hi c1) [(digit c1, rest)]
    | _ => []
    end.

Definition alt {A} (m1 m2 : matcher A) : matcher A := fun s => (m1 s ++ m2 s)%list.

Definition lit (c : ascii) : matcher unit :=
  fun s =>
    match s with
    | c1 :: rest => when (Ascii.eqb c1 c) [(tt, rest)]
    | _ => []
    end.

Definition seq_m {A B} (m : matcher A) (k : A -> matcher B) : matcher B :=
  fun s => flat_map (fun ar => k (fst ar) (snd ar)) (m s).

Definition pure_m {A} (a : A) : matcher A := fun s => [(a, s)].

(** [%H]: [2[0-3]|[0-1]\d|\d];  [%M]: [[0-5]\d|\d]. *)
Definition re_H : matcher Z := alt (two 50 50 48 51) (alt (two 48 49 48 57) (one 48 57)).
Definition re_M : matcher Z := alt (two 48 53 48 57) (one 48 57).

(** [%Y]: [\d\d\d\d];  [%m]: [1[0-2]|0[1-9]|[1-9]];
    [%d]: [3[01]|[12]\d|0[1-9]|[1-9]| [1-9]]. *)
Definition re_Y : matcher Z :=
  seq_m (two 48 57 48 57) (fun hi =>
  seq_m (two 48 57 48 57) (fun lo => pure_m (100 * hi + lo)%Z)).
Definition re_m : matcher Z :=
  alt (two 49 49 48 50) (alt (two 48 48 49 57) (one 49 57)).
Definition re_d : matcher Z :=
  alt (two 51 51 48 49)
 (alt (two 49 50 48 57)
 (alt (two 48 48 49 57)
 (alt (one 49 57)
      (seq_m (lit " ") (fun _ => one 49 57))))).

(** The first match decides; text left over is an error. *)
Definition first_match {A} (m : matcher A) (text : string) : result A :=
  match m (list_ascii_of_string text) with
  | [] => Raise (ValueError "time data does not match format")
  | (a, []) :: _ => Ok a
  | (_, _ :: _) :: _ => Raise (ValueError "unconverted data remains")
  end.

(** [datetime.strptime(t, "%H:%M")]: a time of day on 1900-01-01, kept as
    (hour, minute). *)
Definition strptime_HM (t : string) : result (Z * Z) :=
  first_match
    (seq_m re_H (fun h =>
     seq_m (lit ":") (fun _ =>
     seq_m re_M (fun m => pure_m (h, m))))) t.

(** Minutes since midnight: the order and the differences of two times of the
    same day are those of these numbers. *)
Definition minutes (hm : Z * Z) : Z := (60 * fst hm + snd hm)%Z.

Definition is_leap (y : Z) : bool :=
  ((y mod 4 =? 0) && (negb (y mod 100 =? 0) || (y mod 400 =? 0)))%Z.

Definition days_in_month (y m : Z) : Z :=
  (if m =? 2 then (if is_leap y then 29 else 28)
   else if (m =? 4) || (m =? 6) || (m =? 9) || (m =? 11) then 30
   else 31)%Z.

(** A calendar date, (year, month, day). *)
Definition day : Type := (Z * Z * Z)%type.

(** [datetime.strptime(t, "%Y-%m-%d")]; the fields must then form a date of
    the calendar (years 1..9999). *)
Definition strptime_Ymd (t : string) : result day :=
  rbind
    (first_match
       (seq_m re_Y (fun y =>
        seq_m (lit "-") (fun _ =>
        seq_m re_m (fun m =>
        seq_m (lit "-") (fun _ =>
        seq_m re_d (fun d => pure_m (y, m, d))))))) t)
    (fun ymd =>
       match ymd with
       | (y, m, d) =>
           if (y <? 1)%Z then Raise (ValueError "year is out of range")
           else if (days_in_month y m <? d)%Z
                then Raise (ValueError "day is out of range for month")
                else Ok ymd
       end).

(** [a <= b] on dates. *)
Definition date_leb (a b : day) : bool :=
  match a, b with
  | (y1, m1, d1), (y2, m2, d2) =>
      ((y1 <? y2) || ((y1 =? y2) && ((m1 <? m2) || ((m1 =? m2) && (d1 <=? d2)))))%Z
  end.

End Py.
Export Py.

(** ** Time selection ([closest_time_to_desired_time]) *)

(** [abs(datetime.strptime(t, "%H:%M") - target)], in minutes. *)
Definition time_distance (target : Z * Z) (t : string) : result Z :=
  rbind (strptime_HM t) (fun hm => Ok (Z.abs (minutes hm - minutes target))).

Definition closest_time_to_desired_time (available_hours : list string)
  (desired_time : string) : result string :=
  rbind (strptime_HM desired_time) (fun target =>
  min_by (time_distance target) available_hours).

(** The default of the [desired_time] argument. *)
Definition DEFAULT_DESIRED_TIME : string := "10:00".

(** ** Configuration ([config.ini], [embassy.py]) *)

(** An entry of the [embassies] table. *)
Record embassy : Type := {
  EMBASSY : string;
  FACILITY_ID : Z;
  CAS_FACILITY_ID : Z;
  REGEX_CONTINUE : string;
  REGEX_WRONG_CREDENTIALS : string
}.

(** The only entry of the table, ["es-co-bog"]. *)
Definition es_co_bog : embassy := {|
  EMBASSY := "es-co";
  FACILITY_ID := 25;
  CAS_FACILITY_ID := 26;
  REGEX_CONTINUE := "Continuar";
  REGEX_WRONG_CREDENTIALS := "Correo electrónico o contraseña inválida"
|}.

(** The values read from [config.ini] when the module is loaded, and whether
    [setup_chrome_driver] produced a driver ([DRIVER is not None]). *)
Record settings : Type := {
  USERNAME : string;
  PASSWORD : string;
  SCHEDULE_ID : string;
  PRIOD_START : string;
  PRIOD_END : string;
  YOUR_EMBASSY : embassy;
  RETRY_TIME_L_BOUND : Q;
  RETRY_TIME_U_BOUND : Q;
  WORK_LIMIT_TIME : Q;
  WORK_COOLDOWN_TIME : Q;
  BAN_COOLDOWN_TIME : Q;
  DRIVER : bool
}.

Definition MINUTE : Q := 60.
Definition HOUR : Q := 60 * MINUTE.
Definition STEP_TIME : Q := 1 # 2.
Definition REQUEST_ATTEMPTS : nat := 5.
Definition SUCCESS_PATTERNS : list string :=
  [ "Successfully Scheduled";
    "Usted ha programado exitosamente su cita de visa" ].

(** [f"{n}"] for an integer. *)
Definition str_of_Z (n : Z) : string := NilZero.string_of_int (Z.to_int n).

(** ** Requests to the outside world *)

(** How [find_element] locates an element. *)
Inductive locator : Type := By_ID | By_NAME | By_CLASS_NAME | By_XPATH.

(** A handle on a page element. *)
Inductive element : Type := Element (id : nat).

(** A value of the form sent by [reschedule]. *)
Inductive form_value : Type :=
| FormStr (s : string)
| FormInt (n : Z)
| FormNone.

(** What the program logs, says and notifies: literal texts, and the
    f-string templates with their arguments. *)
Inductive message : Type :=
| Text (s : string)
| LoginFailed (e : exn)
| CasDateError (consulate_date consulate_time : string) (e : exn)
| CasTimeError (cas_date consulate_date consulate_time : string) (e : exn)
| TimeError (date_visa : string) (e : exn)
| RescheduleRequest (url : string) (headers : list (string * string))
    (data : list (string * form_value))
| RescheduleResponse (status_code : Z) (text : string)
| Rescheduled (appointment : day) (time : string) (cas : day) (cas_time : string)
| NotRescheduled (appointment : day) (time : string)
| RequestStatus (req_count : nat)
| ProbablyBanned (hours : Q)
| AvailableDates (dates : list string)
| WorkingTime (total_time : Q)
| BreakTime (hours : Q) (req_count : nat)
| RetryWaitTime (seconds : Z)
| BreakLoop (e : exn).

(** One constructor per kind of call that leaves the module, indexed by the
    type of its answer.  [FetchJson url] is the three-line idiom shared by the
    four slot queries: read the [_yatri_session] cookie, run [JS_SCRIPT] for
    [url] in the browser, and [json.loads] the text that comes back. *)
Inductive eff : Type -> Type :=
| DriverGet (url : string) : eff unit
| FetchJson (url : string) : eff json
| WaitPresence (name : string) (timeout : Z) : eff unit
| WaitAnyXPath (xpaths : list string) (timeout : Z) : eff unit
| FindElement (by_ : locator) (value : string) : eff element
| FindElements (by_ : locator) (value : string) : eff (list element)
| SendKeys (item : element) (value : string) : eff unit
| Click (item : element) : eff unit
| UserAgent : eff string
| SessionCookie : eff string
| ElementValue (name : string) : eff (option string)
| Post (url : string) (headers : list (string * string))
    (data : list (string * form_value)) : eff (Z * string)
| Sleep (seconds : Q) : eff unit
| Now : eff Q
| RandInt (a b : Q) : eff Z
| InfoLogger (log_msg : message) : eff unit
| Voice (msg : message) : eff unit
| SendNotification (title : string) (msg : message) : eff unit
| MakeLogDirectory : eff unit.

Inductive event : Type :=
| Event (A : Type) (request : eff A).
Arguments Event {A} request.

(** The environment: its answer to the [n]-th request of a run. *)
Definition environment : Type := forall A : Type, nat -> eff A -> result A.

(** ** The program monad: exceptions and the trace of requests so far *)

Definition trace : Type := list event.
Definition M (A : Type) : Type := trace -> result A * trace.

Definition ret {A} (a : A) : M A := fun t => (Ok a, t).

Definition bind {A B} (m : M A) (k : A -> M B) : M B :=
  fun t =>
    match m t with
    | (Ok a, t') => k a t'
    | (Raise e, t') => (Raise e, t')
    end.

(** [try: m] with the outcome handed to the code after it. *)
Definition try_ {A} (m : M A) : M (result A) :=
  fun t => match m t with (r, t') => (Ok r, t') end.

Definition lift {A} (r : result A) : M A := fun t => (r, t).

Declare Scope prog_scope.
Delimit Scope prog_scope with prog.
Notation "x <- m ;; k" := (bind m (fun x => k))
  (at level 61, m at next level, right associativity) : prog_scope.
Notation "m ;; k" := (bind m (fun _ => k))
  (at level 61, right associativity) : prog_scope.
Open Scope prog_scope.

(** ** The functions of [visa.py] *)

Section Program.

Variable cfg : settings.
Variable env : environment.

(** A call: the environment answers, the request joins the trace. *)
Definition call {A} (request : eff A) : M A :=
  fun t => (env A (length t) request, (t ++ [Event request])%list).

(** *** URLs *)

Definition BASE_URL : string :=
  "https://ais.usvisa-info.com/" ++ EMBASSY (YOUR_EMBASSY cfg) ++ "/niv".
Definition SIGN_IN_LINK : string := BASE_URL ++ "/users/sign_in".
Definition SIGN_OUT_LINK : string := BASE_URL ++ "/users/sign_out".
Definition APPOINTMENT_URL : string :=
  BASE_URL ++ "/schedule/" ++ SCHEDULE_ID cfg ++ "/appointment".
Definition DATE_URL : string :=
  APPOINTMENT_URL ++ "/days/" ++ str_of_Z (FACILITY_ID (YOUR_EMBASSY cfg))
  ++ ".json?appointments[expedite]=false".
Definition TIME_URL (date : string) : string :=
  APPOINTMENT_URL ++ "/times/" ++ str_of_Z (FACILITY_ID (YOUR_EMBASSY cfg))
  ++ ".json?date=" ++ date ++ "&appointments[expedite]=false".
Definition CAS_DATE_URL (consulate_date consulate_time : string) : string :=
  APPOINTMENT_URL ++ "/days/" ++ str_of_Z (CAS_FACILITY_ID (YOUR_EMBASSY cfg))
  ++ ".json?&consulate_id=" ++ str_of_Z (FACILITY_ID (YOUR_EMBASSY cfg))
  ++ "&consulate_date=" ++ consulate_date ++ "&consulate_time=" ++ consulate_time
  ++ "&appointments[expedite]=false".
Definition CAS_TIME_URL (cas_date consulate_date consulate_time : string) : string :=
  APPOINTMENT_URL ++ "/times/" ++ str_of_Z (CAS_FACILITY_ID (YOUR_EMBASSY cfg))
  ++ ".json?date=" ++ cas_date
  ++ "&consulate_id=" ++ str_of_Z (FACILITY_ID (YOUR_EMBASSY cfg))
  ++ "&consulate_date=" ++ consulate_date ++ "&consulate_time=" ++ consulate_time
  ++ "&appointments[expedite]=false".

(** *** Notifications and form automation *)

Definition _handle_notification (msg_title : string) (msg : message) : M unit :=
  call (InfoLogger msg) ;;
  call (Voice msg) ;;
  call (SendNotification msg_title msg).

Definition lower_ascii (c : ascii) : ascii :=
  if in_range 65 90 c then ascii_of_nat (nat_of_ascii c + 32) else c.

Definition lower (s : string) : string :=
  string_of_list_ascii (map lower_ascii (list_ascii_of_string s)).

Definition find_by_locator (find_by : string) : option locator :=
  let f := lower find_by in
  if f =? "id" then Some By_ID
  else if f =? "name" then Some By_NAME
  else if f =? "class" then Some By_CLASS_NAME
  else if f =? "xpath" then Some By_XPATH
  else None.

Definition auto_action (label find_by element_type action value : string)
  (sleep_time : Q) : M unit :=
  match find_by_locator find_by with
  | None => ret tt
  | Some by_ =>
      item <- call (FindElement by_ element_type) ;;
      acted <-
        (let a := lower action in
         if a =? "send" then call (SendKeys item value) ;; ret true
         else if a =? "click" then call (Click item) ;; ret true
         else ret false) ;;
      if acted && negb (Qeq_bool sleep_time 0)
      then call (Sleep sleep_time)
      else ret tt
  end.

(** Every exception is caught inside the function. *)
Definition create_logging_file_path_if_does_not_exist : M unit :=
  _ <- try_ (call MakeLogDirectory) ;; ret tt.

(** *** Login *)

Definition XPATH_CONTINUE : string :=
  "//a[contains(text(), '" ++ REGEX_CONTINUE (YOUR_EMBASSY cfg) ++ "')]".
Definition XPATH_WRONG_CREDENTIALS : string :=
  "//*[contains(text(), '" ++ REGEX_WRONG_CREDENTIALS (YOUR_EMBASSY cfg) ++ "')]".

(** [//a[@class=...]] with the class name [down-arrow bounce] between double
    quotes. *)
Definition XPATH_BOUNCE : string :=
  let quote := String (ascii_of_nat 34) "" in
  "//a[@class=" ++ quote ++ "down-arrow bounce" ++ quote ++ "]".

Definition WRONG_CREDENTIALS_MESSAGE : message :=
  Text "Credenciales incorrectas. Por favor corregirlas e intentar nuevamente.".

(** The body of the [try] of one attempt; its value is what the attempt
    returns. *)
Definition login_attempt : M bool :=
  call (DriverGet SIGN_IN_LINK) ;;
  call (Sleep STEP_TIME) ;;
  call (WaitPresence "commit" 30) ;;
  auto_action "Click bounce" "xpath" XPATH_BOUNCE "click" "" STEP_TIME ;;
  auto_action "Email" "id" "user_email" "send" (USERNAME cfg) STEP_TIME ;;
  auto_action "Password" "id" "user_password" "send" (PASSWORD cfg) STEP_TIME ;;
  auto_action "Privacy" "class" "icheckbox" "click" "" STEP_TIME ;;
  auto_action "Enter Panel" "name" "commit" "click" "" STEP_TIME ;;
  call (Sleep STEP_TIME) ;;
  call (WaitAnyXPath [XPATH_CONTINUE; XPATH_WRONG_CREDENTIALS] 30) ;;
  found <- call (FindElements By_XPATH XPATH_WRONG_CREDENTIALS) ;;
  match found with
  | _ :: _ =>
      _handle_notification "EXCEPTION" WRONG_CREDENTIALS_MESSAGE ;;
      ret false
  | [] => ret true
  end.

(** [while attempts < REQUEST_ATTEMPTS]; [None] only when [fuel] runs out
    before the loop ends. *)
Fixpoint login_loop (fuel attempts : nat) : M (option bool) :=
  if (attempts <? REQUEST_ATTEMPTS)%nat then
    match fuel with
    | O => ret None
    | S fuel' =>
        let attempts := S attempts in
        r <- try_ login_attempt ;;
        match r with
        | Ok b => ret (Some b)
        | Raise e =>
            call (InfoLogger (LoginFailed e)) ;;
            call (Sleep STEP_TIME) ;;
            login_loop fuel' attempts
        end
    end
  else ret (Some false).

Definition start_login_process_fuel (fuel : nat) : M (option bool) :=
  create_logging_file_path_if_does_not_exist ;;
  login_loop fuel 0.

(** *** Slot queries *)

(** [range(1, REQUEST_ATTEMPTS + 1)]. *)
Definition attempts_range : list nat := seq 1 REQUEST_ATTEMPTS.

(** [[item["date"] for item in json_data if item.get("business_day")]],
    over the items already drawn from [json_data]. *)
Fixpoint business_dates (items : list json) : result (list json) :=
  match items with
  | [] => Ok []
  | item :: rest =>
      rbind (dict_get item "business_day") (fun flag =>
      if truthy flag then
        rbind (dict_item item "date") (fun d =>
        rbind (business_dates rest) (fun l => Ok (d :: l)))
      else business_dates rest)
  end.

(** The [try] body of one attempt of [get_cas_date]: [Some] is a [return]
    from the function, [None] falls through to the retry. *)
Definition cas_date_attempt (cas_date_url : string) : M (option string) :=
  json_data <- call (FetchJson cas_date_url) ;;
  items <- lift (iterate json_data) ;;
  dates <- lift (business_dates items) ;;
  match dates with
  | [] => ret None
  | _ :: _ =>
      strs <- lift (all_str dates) ;;
      ret (Some (last strs ""))
  end.

Fixpoint get_cas_date_loop (attempts : list nat)
  (consulate_date consulate_time : string) : M (option string) :=
  match attempts with
  | [] => ret None
  | _ :: rest =>
      r <- try_ (cas_date_attempt (CAS_DATE_URL consulate_date consulate_time)) ;;
      match r with
      | Ok (Some cas_date) => ret (Some cas_date)
      | Ok None =>
          call (Sleep STEP_TIME) ;;
          get_cas_date_loop rest consulate_date consulate_time
      | Raise e =>
          call (InfoLogger (CasDateError consulate_date consulate_time e)) ;;
          call (Sleep STEP_TIME) ;;
          get_cas_date_loop rest consulate_date consulate_time
      end
  end.

(** [None] is the [False] the function returns when no date was retrieved. *)
Definition get_cas_date (consulate_date consulate_time : string) : M (option string) :=
  get_cas_date_loop attempts_range consulate_date consulate_time.

Definition cas_time_attempt (cas_time_url : string) : M (option string) :=
  json_data <- call (FetchJson cas_time_url) ;;
  available_times <- lift (dict_get json_data "available_times") ;;
  if truthy available_times then
    times <- lift (join_strings available_times) ;;
    closest_time <- lift (closest_time_to_desired_time times DEFAULT_DESIRED_TIME) ;;
    ret (Some closest_time)
  else ret None.

Fixpoint get_cas_time_loop (attempts : list nat)
  (consulate_date consulate_time cas_date : string) : M (option string) :=
  match attempts with
  | [] => ret None
  | _ :: rest =>
      r <- try_ (cas_time_attempt (CAS_TIME_URL cas_date consulate_date consulate_time)) ;;
      match r with
      | Ok (Some closest_time) => ret (Some closest_time)
      | Ok None =>
          call (Sleep STEP_TIME) ;;
          get_cas_time_loop rest consulate_date consulate_time cas_date
      | Raise e =>
          call (InfoLogger (CasTimeError cas_date consulate_date consulate_time e)) ;;
          call (Sleep STEP_TIME) ;;
          get_cas_time_loop rest consulate_date consulate_time cas_date
      end
  end.

Definition get_cas_time (consulate_date consulate_time cas_date : string)
  : M (option string) :=
  get_cas_time_loop attempts_range consulate_date consulate_time cas_date.

(** The function's [False] on an exception is the JSON [false] itself. *)
Definition get_consulate_appointment_date : M json :=
  r <- try_ (call (FetchJson DATE_URL)) ;;
  match r with
  | Ok dates => ret dates
  | Raise _ => ret (JBool false)
  end.

Definition consulate_time_attempt (date_visa : string) : M string :=
  data <- call (FetchJson (TIME_URL date_visa)) ;;
  available_times <- lift (dict_get data "available_times") ;;
  times <- lift (join_strings available_times) ;;
  lift (closest_time_to_desired_time times DEFAULT_DESIRED_TIME).

Fixpoint get_consulate_appointment_time_loop (attempts : list nat)
  (date_visa : string) : M (option string) :=
  match attempts with
  | [] => ret None
  | _ :: rest =>
      r <- try_ (consulate_time_attempt date_visa) ;;
      match r with
      | Ok time_available => ret (Some time_available)
      | Raise e =>
          call (InfoLogger (TimeError date_visa e)) ;;
          call (Sleep STEP_TIME) ;;
          get_consulate_appointment_time_loop rest date_visa
      end
  end.

Definition get_consulate_appointment_time (date_visa : string) : M (option string) :=
  get_consulate_appointment_time_loop attempts_range date_visa.

(** *** Date selection *)

Definition _is_in_period (date : string) (priod_start_date_obj priod_end_date_obj : day)
  : result bool :=
  rbind (strptime_Ymd date) (fun new_date =>
  Ok (date_leb new_date priod_end_date_obj && date_leb priod_start_date_obj new_date)).

(** The [for d in dates] loop of [get_available_date]. *)
Fixpoint first_in_period (items : list json) (priod_start_date_obj priod_end_date_obj : day)
  : result (option string) :=
  match items with
  | [] => Ok None
  | d :: rest =>
      rbind (dict_get d "date") (fun date =>
      match date with
      | JStr s =>
          rbind (_is_in_period s priod_start_date_obj priod_end_date_obj) (fun b =>
          if b then Ok (Some s)
          else first_in_period rest priod_start_date_obj priod_end_date_obj)
      | _ => Raise (TypeError "strptime() argument 1 must be str")
      end)
  end.

Definition get_available_date (dates : json) : result (option string) :=
  rbind (strptime_Ymd (PRIOD_START cfg)) (fun priod_start_date_obj =>
  rbind (strptime_Ymd (PRIOD_END cfg)) (fun priod_end_date_obj =>
  rbind (iterate dates) (fun items =>
  first_in_period items priod_start_date_obj priod_end_date_obj))).

(** *** Reschedule *)

Definition form_of (v : option string) : form_value :=
  match v with Some s => FormStr s | None => FormNone end.

Definition has_success_pattern (text : string) : bool :=
  existsb (fun substring => contains substring text) SUCCESS_PATTERNS.

(** Lines 513-586 of [reschedule]: the request is built and posted, and the
    answer is read. *)
Definition reschedule_request (date time cas_date cas_time : string) : M bool :=
  user_agent <- call UserAgent ;;
  cookie <- call SessionCookie ;;
  let headers :=
    [ ("User-Agent", user_agent);
      ("Referer", APPOINTMENT_URL);
      ("Cookie", "_yatri_session=" ++ cookie);
      ("Content-Type", "application/x-www-form-urlencoded") ] in
  authenticity_token <- call (ElementValue "authenticity_token") ;;
  confirmed_limit_message <- call (ElementValue "confirmed_limit_message") ;;
  use_consulate_appointment_capacity <-
    call (ElementValue "use_consulate_appointment_capacity") ;;
  let data :=
    [ ("authenticity_token", form_of authenticity_token);
      ("confirmed_limit_message", form_of confirmed_limit_message);
      ("use_consulate_appointment_capacity", form_of use_consulate_appointment_capacity);
      ("appointments[consulate_appointment][facility_id]",
        FormInt (FACILITY_ID (YOUR_EMBASSY cfg)));
      ("appointments[consulate_appointment][date]", FormStr date);
      ("appointments[consulate_appointment][time]", FormStr time);
      ("appointments[asc_appointment][facility_id]",
        FormInt (CAS_FACILITY_ID (YOUR_EMBASSY cfg)));
      ("appointments[asc_appointment][date]", FormStr cas_date);
      ("appointments[asc_appointment][time]", FormStr cas_time) ] in
  call (InfoLogger (RescheduleRequest APPOINTMENT_URL headers data)) ;;
  r <- call (Post APPOINTMENT_URL headers data) ;;
  call (InfoLogger (RescheduleResponse (fst r) (snd r))) ;;
  appointment_readable_date <- lift (strptime_Ymd date) ;;
  cas_readable_date <- lift (strptime_Ymd cas_date) ;;
  if has_success_pattern (snd r) then
    _handle_notification "SUCCESS"
      (Rescheduled appointment_readable_date time cas_readable_date cas_time) ;;
    ret true
  else
    _handle_notification "EXCEPTION" (NotRescheduled appointment_readable_date time) ;;
    ret false.

Definition reschedule (date : string) : M bool :=
  call (DriverGet APPOINTMENT_URL) ;;
  time <- get_consulate_appointment_time date ;;
  match time with
  | Some (String c0 time') =>
      let time := String c0 time' in
      cas_date <- get_cas_date date time ;;
      match cas_date with
      | Some (String c1 cas_date') =>
          let cas_date := String c1 cas_date' in
          cas_time <- get_cas_time date time cas_date ;;
          match cas_time with
          | Some (String c2 cas_time') =>
              reschedule_request date time cas_date (String c2 cas_time')
          | _ =>
              _handle_notification "EXCEPTION"
                (Text "Error al obtener hora CAS para reagendar cita") ;;
              ret false
          end
      | _ =>
          _handle_notification "EXCEPTION"
            (Text "Error al obtener fecha CAS para reagendar cita") ;;
          ret false
      end
  | _ =>
      _handle_notification "EXCEPTION"
        (Text "Error al obtener hora para reagendar cita") ;;
      ret false
  end.

(** *** The polling loop ([start_visa_process]) *)

Definition Qgtb (a b : Q) : bool := negb (Qle_bool a b).

Definition log_request_status (req_count : nat) : M unit :=
  call (InfoLogger (RequestStatus req_count)).

Definition handle_ban_situation : M unit :=
  let msg := ProbablyBanned (BAN_COOLDOWN_TIME cfg) in
  call (InfoLogger msg) ;;
  call (SendNotification "BAN" msg) ;;
  call (DriverGet SIGN_OUT_LINK) ;;
  call (Sleep (BAN_COOLDOWN_TIME cfg * HOUR)).

Fixpoint dates_of (items : list json) : result (list json) :=
  match items with
  | [] => Ok []
  | d :: rest =>
      rbind (dict_get d "date") (fun x =>
      rbind (dates_of rest) (fun l => Ok (x :: l)))
  end.

Definition log_available_dates (dates : json) : M unit :=
  items <- lift (iterate dates) ;;
  values <- lift (dates_of items) ;;
  strs <- lift (all_str values) ;;
  call (InfoLogger (AvailableDates strs)).

Definition handle_break_time (total_time : Q) (req_count : nat) : M bool :=
  call (InfoLogger (WorkingTime (total_time / MINUTE))) ;;
  if Qgtb total_time (WORK_LIMIT_TIME cfg * HOUR) then
    let msg := BreakTime (WORK_LIMIT_TIME cfg) req_count in
    call (InfoLogger msg) ;;
    call (SendNotification "REST" msg) ;;
    call (DriverGet SIGN_OUT_LINK) ;;
    call (Sleep (WORK_COOLDOWN_TIME cfg * HOUR)) ;;
    ret true
  else ret false.

(** [random.randint] is handed the two bounds as [getfloat] read them; what it
    makes of them (a draw, or an exception) is the environment's answer. *)
Definition handle_retry_wait : M unit :=
  retry_wait_time <-
    call (RandInt (RETRY_TIME_L_BOUND cfg) (RETRY_TIME_U_BOUND cfg)) ;;
  call (InfoLogger (RetryWaitTime retry_wait_time)) ;;
  call (Sleep (inject_Z retry_wait_time)).

Definition handle_exception (e : exn) : M unit :=
  call (InfoLogger (BreakLoop e)) ;;
  call (Voice (Text "Falló la ejecución")).

(** [start_login_process]: the loop needs at most [REQUEST_ATTEMPTS] rounds
    (see [login_loop_fuel]), so the fuel never runs out. *)
Definition start_login_process : M bool :=
  r <- start_login_process_fuel REQUEST_ATTEMPTS ;;
  ret (match r with Some b => b | None => false end).

(** The local variables of [start_visa_process] that live across iterations. *)
Record loop_state : Type := {
  first_loop : bool;
  t0 : Q;
  total_time : Q;
  req_count : nat
}.

(** How an iteration of [while True] ends: [continue] (or the end of the
    body) with the new variables, or [break]. *)
Inductive control : Type :=
| Continue (st : loop_state)
| Break.

(** [first_loop = True], [req_count += 1] and [total_time = ...]. *)
Definition set_first_loop (st : loop_state) : loop_state :=
  {| first_loop := true; t0 := t0 st; total_time := total_time st;
     req_count := req_count st |}.

Definition count_request (st : loop_state) : loop_state :=
  {| first_loop := first_loop st; t0 := t0 st; total_time := total_time st;
     req_count := S (req_count st) |}.

Definition set_total_time (st : loop_state) (elapsed : Q) : loop_state :=
  {| first_loop := first_loop st; t0 := t0 st; total_time := elapsed;
     req_count := req_count st |}.

(** The [if first_loop:] block; [None] is a [break]. *)
Definition first_loop_block (st : loop_state) : M (option loop_state) :=
  if first_loop st then
    if negb (DRIVER cfg) then ret None
    else
      now <- call Now ;;
      logged_in <- start_login_process ;;
      if negb logged_in then ret None
      else ret (Some {| first_loop := false; t0 := now; total_time := 0;
                        req_count := O |})
  else ret (Some st).

(** The body of the [try] of one iteration. *)
Definition polling_cycle (st : loop_state) : M control :=
  log_request_status (req_count st) ;;
  dates <- get_consulate_appointment_date ;;
  if negb (truthy dates) then
    handle_ban_situation ;;
    ret (Continue (set_first_loop st))
  else
    log_available_dates dates ;;
    date <- lift (get_available_date dates) ;;
    rescheduled <-
      match date with
      | Some (String c d) => reschedule (String c d)
      | _ => ret false
      end ;;
    if (rescheduled : bool) then ret Break
    else
      now <- call Now ;;
      let st := set_total_time st (now - t0 st) in
      rest <- handle_break_time (total_time st) (req_count st) ;;
      if (rest : bool) then ret (Continue (set_first_loop st))
      else
        handle_retry_wait ;;
        ret (Continue st).

Definition loop_iteration (st : loop_state) : M control :=
  entered <- first_loop_block st ;;
  match entered with
  | None => ret Break
  | Some st =>
      let st := count_request st in
      r <- try_ (polling_cycle st) ;;
      match r with
      | Ok c => ret c
      | Raise e => handle_exception e ;; ret Break
      end
  end.

Definition initial_state : loop_state :=
  {| first_loop := true; t0 := 0; total_time := 0; req_count := O |}.

(** [while True], for at most [fuel] iterations; [None] when the loop is
    still running after them. *)
Fixpoint visa_loop (fuel : nat) (st : loop_state) : M (option unit) :=
  match fuel with
  | O => ret None
  | S fuel' =>
      c <- loop_iteration st ;;
      match c with
      | Break => ret (Some tt)
      | Continue st' => visa_loop fuel' st'
      end
  end.

Definition start_visa_process (fuel : nat) : M (option unit) :=
  visa_loop fuel initial_state.

End Program.


(** The URLs and the monad stay folded under [simpl]. *)
Arguments BASE_URL : simpl never.
Arguments SIGN_IN_LINK : simpl never.
Arguments SIGN_OUT_LINK : simpl never.
Arguments APPOINTMENT_URL : simpl never.
Arguments DATE_URL : simpl never.
Arguments TIME_URL : simpl never.
Arguments CAS_DATE_URL : simpl never.
Arguments CAS_TIME_URL : simpl never.
Arguments XPATH_CONTINUE : simpl never.
Arguments XPATH_WRONG_CREDENTIALS : simpl never.
Arguments XPATH_BOUNCE : simpl never.
Arguments bind : simpl never.
Arguments ret : simpl never.
Arguments call : simpl never.
Arguments lift : simpl never.
Arguments try_ : simpl never.

(** * Vocabulary of the statements *)

(** ** Candidates and their distances *)

(** Every candidate has a key: no failure inside [min]. *)
Definition all_keyed (key : string -> result Z) (xs : list string) : Prop :=
  Forall (fun x => exists k, key x = Ok k) xs.

(** All of [xs] have a key above [k] (resp. not below [k]). *)
Definition all_farther (key : string -> result Z) (k : Z) (xs : list string) : Prop :=
  Forall (fun x => exists k', key x = Ok k' /\ (k < k')%Z) xs.
Definition none_closer (key : string -> result Z) (k : Z) (xs : list string) : Prop :=
  Forall (fun x => exists k', key x = Ok k' /\ (k <= k')%Z) xs.

(** [sub] occurs in [text]. *)
Definition substring_of (sub text : string) : Prop :=
  exists before after, text = before ++ sub ++ after.

(** ** Answers of the service *)

(** An entry of a date listing, and the listing as [json.loads] returns it. *)
Record AvailableSlot : Type := {
  slot_date : string;
  business_day : bool
}.

Definition slot_json (s : AvailableSlot) : json :=
  JObject [("date", JStr (slot_date s)); ("business_day", JBool (business_day s))].

Definition date_listing (slots : list AvailableSlot) : json :=
  JList (map slot_json slots).

(** The same reading on any item of an answer: the flag counts when it is
    truthy, and the date is whatever stands under [date]. *)
Definition flagged (item : json) : bool :=
  match dict_get item "business_day" with
  | Ok flag => truthy flag
  | Raise _ => false
  end.

Definition date_field (item : json) : json :=
  match dict_item item "date" with
  | Ok d => d
  | Raise _ => JNull
  end.

(** A time listing. *)
Definition time_listing (times : list string) : json :=
  JObject [("available_times", JList (map JStr times))].

(** ** Environments *)

(** The log file, the voice, the notification channels and [time.sleep]
    never raise. *)
Definition quiet (env : environment) : Prop :=
  forall n : nat,
    (forall m, env unit n (InfoLogger m) = Ok tt) /\
    (forall m, env unit n (Voice m) = Ok tt) /\
    (forall title m, env unit n (SendNotification title m) = Ok tt) /\
    (forall seconds, env unit n (Sleep seconds) = Ok tt).

(** The browser carries out every navigation, wait, lookup and form action. *)
Definition browser_ok (env : environment) : Prop :=
  forall n : nat,
    (forall url, env unit n (DriverGet url) = Ok tt) /\
    (forall name timeout, env unit n (WaitPresence name timeout) = Ok tt) /\
    (forall xpaths timeout, env unit n (WaitAnyXPath xpaths timeout) = Ok tt) /\
    (forall by_ value, exists item, env element n (FindElement by_ value) = Ok item) /\
    (forall item value, env unit n (SendKeys item value) = Ok tt) /\
    (forall item, env unit n (Click item) = Ok tt).

(** ** Reading a trace *)

Definition is_fetch (url : string) (ev : event) : bool :=
  match ev with
  | Event request =>
      match request with
      | FetchJson u => u =? url
      | _ => false
      end
  end.

Definition is_navigation (url : string) (ev : event) : bool :=
  match ev with
  | Event request =>
      match request with
      | DriverGet u => u =? url
      | _ => false
      end
  end.

Definition is_query (ev : event) : bool :=
  match ev with
  | Event request =>
      match request with
      | FetchJson _ => true
      | _ => false
      end
  end.

Definition is_log (ev : event) : bool :=
  match ev with
  | Event request =>
      match request with
      | InfoLogger _ => true
      | _ => false
      end
  end.

(** How many events of a trace pass a test. *)
Definition count (test : event -> bool) (t : trace) : nat :=
  length (filter test t).

(** ** Sample configuration and environments *)

Definition sample : settings := {|
  USERNAME := "user@example.com";
  PASSWORD := "secret";
  SCHEDULE_ID := "12345678";
  PRIOD_START := "2024-06-01";
  PRIOD_END := "2024-06-30";
  YOUR_EMBASSY := es_co_bog;
  RETRY_TIME_L_BOUND := 10;
  RETRY_TIME_U_BOUND := 120;
  WORK_LIMIT_TIME := 3 # 2;
  WORK_COOLDOWN_TIME := 9 # 4;
  BAN_COOLDOWN_TIME := 5;
  DRIVER := true
|}.

(** A scripted environment: what the service, the browser, the clock and the
    random generator answer; every other request succeeds. *)
Record script : Type := {
  page : nat -> string -> result json;
  navigation : nat -> string -> result unit;
  wrong_credentials : list element;
  post_reply : Z * string;
  clock : nat -> Q;
  drawn : Z
}.

Definition play (s : script) : environment :=
  fun (A : Type) (n : nat) (request : eff A) =>
    match request in eff T return result T with
    | DriverGet url => navigation s n url
    | FetchJson url => page s n url
    | WaitPresence _ _ => Ok tt
    | WaitAnyXPath _ _ => Ok tt
    | FindElement _ _ => Ok (Element n)
    | FindElements _ value =>
        Ok (if value =? XPATH_WRONG_CREDENTIALS sample then wrong_credentials s else [])
    | SendKeys _ _ => Ok tt
    | Click _ => Ok tt
    | UserAgent => Ok "Mozilla/5.0"
    | SessionCookie => Ok "0123456789abcdef"
    | ElementValue name => Ok (Some ("value-of-" ++ name))
    | Post _ _ _ => Ok (post_reply s)
    | Sleep _ => Ok tt
    | Now => Ok (clock s n)
    | RandInt _ _ => Ok (drawn s)
    | InfoLogger _ => Ok tt
    | Voice _ => Ok tt
    | SendNotification _ _ => Ok tt
    | MakeLogDirectory => Ok tt
    end.

(** The scenario of the specification: one date in the window, its times, two
    dates at the linked facility, their times, a successful submission. *)
Definition scenario_pages (url : string) : result json :=
  if url =? DATE_URL sample then
    Ok (date_listing [ {| slot_date := "2024-06-10"; business_day := true |} ])
  else if url =? TIME_URL sample "2024-06-10" then
    Ok (time_listing ["09:00"; "13:00"])
  else if url =? CAS_DATE_URL sample "2024-06-10" "09:00" then
    Ok (date_listing [ {| slot_date := "2024-06-05"; business_day := true |};
                       {| slot_date := "2024-06-08"; business_day := true |} ])
  else if url =? CAS_TIME_URL sample "2024-06-08" "2024-06-10" "09:00" then
    Ok (time_listing ["08:00"; "10:15"])
  else Raise (ExternalError "404").

Definition scenario : script := {|
  page := fun _ => scenario_pages;
  navigation := fun _ _ => Ok tt;
  wrong_credentials := [];
  post_reply := (200%Z, "<html>Successfully Scheduled</html>");
  clock := fun n => inject_Z (Z.of_nat n);
  drawn := 42
|}.

(** The same, but the submission is answered with a page that carries no
    success phrase (status 200 all the same). *)
Definition scenario_rejected : script := {|
  page := fun _ => scenario_pages;
  navigation := fun _ _ => Ok tt;
  wrong_credentials := [];
  post_reply := (200%Z, "<html>Please sign in</html>");
  clock := fun n => inject_Z (Z.of_nat n);
  drawn := 42
|}.

(** Every listing comes back empty. *)
Definition scenario_empty : script := {|
  page := fun _ url =>
    if prefix (APPOINTMENT_URL sample ++ "/days/") url then Ok (JList [])
    else Ok (JObject [("available_times", JList [])]);
  navigation := fun _ _ => Ok tt;
  wrong_credentials := [];
  post_reply := (200%Z, "");
  clock := fun n => inject_Z (Z.of_nat n);
  drawn := 42
|}.

(** The service cannot be reached: every query raises. *)
Definition scenario_offline : script := {|
  page := fun _ _ => Raise (ExternalError "connection refused");
  navigation := fun _ _ => Ok tt;
  wrong_credentials := [];
  post_reply := (200%Z, "");
  clock := fun n => inject_Z (Z.of_nat n);
  drawn := 42
|}.

(** The sign-in page answers with the invalid-credentials message. *)
Definition scenario_wrong_password : script := {|
  page := fun _ => scenario_pages;
  navigation := fun _ _ => Ok tt;
  wrong_credentials := [Element 7];
  post_reply := (200%Z, "");
  clock := fun n => inject_Z (Z.of_nat n);
  drawn := 42
|}.

(** The sign-in page cannot be loaded. *)
Definition scenario_no_sign_in : script := {|
  page := fun _ => scenario_pages;
  navigation := fun _ url =>
    if url =? SIGN_IN_LINK sample then Raise (ExternalError "timeout") else Ok tt;
  wrong_credentials := [];
  post_reply := (200%Z, "");
  clock := fun n => inject_Z (Z.of_nat n);
  drawn := 42
|}.

(** ** The rounds of a query, as traces *)

(** One round of a query that found nothing: the request, then the pause. *)
Definition empty_round (url : string) : trace :=
  [Event (FetchJson url); Event (Sleep STEP_TIME)].

(** One round of a query that raised [e]: the request, the log entry, the
    pause. *)
Definition failed_round (url : string) (entry : message) : trace :=
  [Event (FetchJson url); Event (InfoLogger entry); Event (Sleep STEP_TIME)].

Definition rounds (n : nat) (round : trace) : trace := concat (repeat round n).

(** ** The cycles of the polling loop, as traces *)

(** A cycle that ends in the ban cooldown. *)
Definition ban_cycle (cfg : settings) (req_count : nat) : trace :=
  [ Event (InfoLogger (RequestStatus req_count));
    Event (FetchJson (DATE_URL cfg));
    Event (InfoLogger (ProbablyBanned (BAN_COOLDOWN_TIME cfg)));
    Event (SendNotification "BAN" (ProbablyBanned (BAN_COOLDOWN_TIME cfg)));
    Event (DriverGet (SIGN_OUT_LINK cfg));
    Event (Sleep (BAN_COOLDOWN_TIME cfg * HOUR)) ].

(** The start of a cycle whose date query returned something: the cycle
    header, the query, the dates logged. *)
Definition scan (cfg : settings) (req_count : nat) (dates : list string) : trace :=
  [ Event (InfoLogger (RequestStatus req_count));
    Event (FetchJson (DATE_URL cfg));
    Event (InfoLogger (AvailableDates dates)) ].

(** The end of a cycle past the work limit: the rest cooldown. *)
Definition rest_cooldown (cfg : settings) (elapsed : Q) (req_count : nat) : trace :=
  [ Event Now;
    Event (InfoLogger (WorkingTime (elapsed / MINUTE)));
    Event (InfoLogger (BreakTime (WORK_LIMIT_TIME cfg) req_count));
    Event (SendNotification "REST" (BreakTime (WORK_LIMIT_TIME cfg) req_count));
    Event (DriverGet (SIGN_OUT_LINK cfg));
    Event (Sleep (WORK_COOLDOWN_TIME cfg * HOUR)) ].

(** The end of a cycle within the work limit: the retry wait of [r] seconds. *)
Definition retry_wait (cfg : settings) (elapsed : Q) (r : Z) : trace :=
  [ Event Now;
    Event (InfoLogger (WorkingTime (elapsed / MINUTE)));
    Event (RandInt (RETRY_TIME_L_BOUND cfg) (RETRY_TIME_U_BOUND cfg));
    Event (InfoLogger (RetryWaitTime r));
    Event (Sleep (inject_Z r)) ].

(** The loop in the middle of a work cycle: logged in since [since], after
    [n] requests. *)
Definition polling (since : Q) (n : nat) : loop_state :=
  {| first_loop := false; t0 := since; total_time := 0; req_count := n |}.

(** What [log_available_dates] writes for a result of the date query: the
    [date] of every entry, when each is a string. *)
Definition logged_dates (dates : json) : result (list string) :=
  rbind (iterate dates) (fun items => rbind (dates_of items) all_str).

(** The only date on offer lies after the period. *)
Definition scenario_out_of_period : script := {|
  page := fun _ url =>
    if url =? DATE_URL sample then
      Ok (date_listing [ {| slot_date := "2024-07-15"; business_day := true |} ])
    else Raise (ExternalError "404");
  navigation := fun _ _ => Ok tt;
  wrong_credentials := [];
  post_reply := (200%Z, "");
  clock := fun n => inject_Z (Z.of_nat n);
  drawn := 42
|}.

(** The appointment page gives the browser's user agent, the session cookie
    and the hidden fields of the form. *)
Definition page_ok (env : environment) : Prop :=
  forall n : nat,
    (exists user_agent, env string n UserAgent = Ok user_agent) /\
    (exists cookie, env string n SessionCookie = Ok cookie) /\
    (forall name, exists value, env (option string) n (ElementValue name) = Ok value).

(** A login round that failed with [e]: the sign-in page asked for, the
    failure logged, the pause. *)
Definition failed_login (cfg : settings) (e : exn) : trace :=
  [ Event (DriverGet (SIGN_IN_LINK cfg));
    Event (InfoLogger (LoginFailed e));
    Event (Sleep STEP_TIME) ].

(** The three steps of [_handle_notification]. *)
Definition notified (title : string) (msg : message) : trace :=
  [ Event (InfoLogger msg); Event (Voice msg); Event (SendNotification title msg) ].

(** A part of the program that only adds to the trace, and adds at most [n]
    events that pass [test]. *)
Definition at_most {A} (n : nat) (test : event -> bool) (m : M A) : Prop :=
  forall t : trace, exists s : trace, snd (m t) = (t ++ s)%list /\ (count test s <= n)%nat.

(** Requests for the sign-in page in a trace. *)
Definition sign_in_visits (cfg : settings) : trace -> nat :=
  count (is_navigation (SIGN_IN_LINK cfg)).

(** ** More vocabulary *)

(** The entry carries a date, and that date lies outside the period. *)
Definition out_of_period (start end_ : day) (item : json) : Prop :=
  exists s, dict_get item "date" = Ok (JStr s) /\ _is_in_period s start end_ = Ok false.

(** A candidate reads as a time of the day. *)
Definition reads_as_time (t : string) : Prop := exists hm, strptime_HM t = Ok hm.

(** A listing whose dates are out of order and only partly in the period of
    [sample]. *)
Definition unsorted_listing : json :=
  date_listing [ {| slot_date := "2024-07-02"; business_day := true |};
                 {| slot_date := "2024-06-20"; business_day := false |};
                 {| slot_date := "2024-06-05"; business_day := true |} ].


(** The submissions of the form, and the notifications, in a trace. *)
Definition is_post (ev : event) : bool :=
  match ev with
  | Event request =>
      match request with
      | Post _ _ _ => true
      | _ => false
      end
  end.

Definition is_notification (ev : event) : bool :=
  match ev with
  | Event request =>
      match request with
      | SendNotification _ _ => true
      | _ => false
      end
  end.

(** The log file can be written, and the pauses end. *)
Definition logs_ok (env : environment) : Prop :=
  forall (n : nat) (m : message), env unit n (InfoLogger m) = Ok tt.

Definition sleeps_ok (env : environment) : Prop :=
  forall (n : nat) (seconds : Q), env unit n (Sleep seconds) = Ok tt.

(** The same environment on a machine that cannot speak: every call of
    [str_to_google_voice] raises [e]. *)
Definition without_voice (e : exn) (env : environment) : environment :=
  fun (A : Type) (n : nat) (request : eff A) =>
    match request in eff T return result T -> result T with
    | Voice _ => fun _ => Raise e
    | _ => fun answer => answer
    end (env A n request).

(** The linked facility lists its dates with slashes. *)
Definition scenario_slashed_pages (url : string) : result json :=
  if url =? TIME_URL sample "2024-06-10" then
    Ok (time_listing ["09:00"; "13:00"])
  else if url =? CAS_DATE_URL sample "2024-06-10" "09:00" then
    Ok (date_listing [ {| slot_date := "08/06/2024"; business_day := true |} ])
  else if url =? CAS_TIME_URL sample "08/06/2024" "2024-06-10" "09:00" then
    Ok (time_listing ["08:00"; "10:15"])
  else Raise (ExternalError "404").

Definition scenario_slashed : script := {|
  page := fun _ => scenario_slashed_pages;
  navigation := fun _ _ => Ok tt;
  wrong_credentials := [];
  post_reply := (200%Z, "<html>Successfully Scheduled</html>");
  clock := fun n => inject_Z (Z.of_nat n);
  drawn := 42
|}.

(** The form as [reschedule] fills it, and the headers it sends. *)
Definition reschedule_headers (cfg : settings) (user_agent cookie : string)
  : list (string * string) :=
  [ ("User-Agent", user_agent);
    ("Referer", APPOINTMENT_URL cfg);
    ("Cookie", "_yatri_session=" ++ cookie);
    ("Content-Type", "application/x-www-form-urlencoded") ].

Definition reschedule_form (cfg : settings) (token limit capacity : option string)
  (date time cas_date cas_time : string) : list (string * form_value) :=
  [ ("authenticity_token", form_of token);
    ("confirmed_limit_message", form_of limit);
    ("use_consulate_appointment_capacity", form_of capacity);
    ("appointments[consulate_appointment][facility_id]",
      FormInt (FACILITY_ID (YOUR_EMBASSY cfg)));
    ("appointments[consulate_appointment][date]", FormStr date);
    ("appointments[consulate_appointment][time]", FormStr time);
    ("appointments[asc_appointment][facility_id]",
      FormInt (CAS_FACILITY_ID (YOUR_EMBASSY cfg)));
    ("appointments[asc_appointment][date]", FormStr cas_date);
    ("appointments[asc_appointment][time]", FormStr cas_time) ].

(** What [reschedule] asks of the page and of the service once the three
    lookups are done, up to the answer to the form. *)
Definition submission (cfg : settings) (user_agent cookie : string)
  (token limit capacity : option string) (date time cas_date cas_time : string)
  (reply : Z * string) : trace :=
  let headers := reschedule_headers cfg user_agent cookie in
  let data := reschedule_form cfg token limit capacity date time cas_date cas_time in
  [ Event UserAgent;
    Event SessionCookie;
    Event (ElementValue "authenticity_token");
    Event (ElementValue "confirmed_limit_message");
    Event (ElementValue "use_consulate_appointment_capacity");
    Event (InfoLogger (RescheduleRequest (APPOINTMENT_URL cfg) headers data));
    Event (Post (APPOINTMENT_URL cfg) headers data);
    Event (InfoLogger (RescheduleResponse (fst reply) (snd reply))) ].

(** What one sign-in attempt asks of the browser, up to the look for the
    invalid-credentials message: the page, the five form steps (each with its
    pause) on the elements the browser found, and the wait for the outcome. *)
Definition sign_in (cfg : settings) (bounce email password privacy commit : element)
  : trace :=
  [ Event (DriverGet (SIGN_IN_LINK cfg));
    Event (Sleep STEP_TIME);
    Event (WaitPresence "commit" 30);
    Event (FindElement By_XPATH XPATH_BOUNCE);
    Event (Click bounce);
    Event (Sleep STEP_TIME);
    Event (FindElement By_ID "user_email");
    Event (SendKeys email (USERNAME cfg));
    Event (Sleep STEP_TIME);
    Event (FindElement By_ID "user_password");
    Event (SendKeys password (PASSWORD cfg));
    Event (Sleep STEP_TIME);
    Event (FindElement By_CLASS_NAME "icheckbox");
    Event (Click privacy);
    Event (Sleep STEP_TIME);
    Event (FindElement By_NAME "commit");
    Event (Click commit);
    Event (Sleep STEP_TIME);
    Event (Sleep STEP_TIME);
    Event (WaitAnyXPath [XPATH_CONTINUE cfg; XPATH_WRONG_CREDENTIALS cfg] 30);
    Event (FindElements By_XPATH (XPATH_WRONG_CREDENTIALS cfg)) ].

(** The invalid-credentials message is on the page after every attempt. *)
Definition always_rejected (cfg : settings) (env : environment) : Prop :=
  forall n : nat, exists item found,
    env (list element) n (FindElements By_XPATH (XPATH_WRONG_CREDENTIALS cfg))
    = Ok (item :: found).

(** How the loop reports the exception that ends it. *)
Definition loop_broken (e : exn) : trace :=
  [ Event (InfoLogger (BreakLoop e)); Event (Voice (Text "Falló la ejecución")) ].

(** A listing with an entry that carries no date, and one whose only date
    is not a date. *)
Definition dateless_listing : json :=
  JList [ JObject [("business_day", JBool true)] ].

Definition scenario_dateless : script := {|
  page := fun _ url =>
    if url =? DATE_URL sample then Ok dateless_listing else Raise (ExternalError "404");
  navigation := fun _ _ => Ok tt;
  wrong_credentials := [];
  post_reply := (200%Z, "");
  clock := fun n => inject_Z (Z.of_nat n);
  drawn := 42
|}.
(** * Properties *)

(** ** Running the program *)

Lemma quiet_log (env : environment) (n : nat) (m : message) :
  quiet env -> env unit n (InfoLogger m) = Ok tt.
Proof. intros H. apply (H n). Qed.

Lemma quiet_voice (env : environment) (n : nat) (m : message) :
  quiet env -> env unit n (Voice m) = Ok tt.
Proof. intros H. apply (H n). Qed.

Lemma quiet_notification (env : environment) (n : nat) (title : string) (m : message) :
  quiet env -> env unit n (SendNotification title m) = Ok tt.
Proof. intros H. apply (H n). Qed.

Lemma quiet_sleep (env : environment) (n : nat) (seconds : Q) :
  quiet env -> env unit n (Sleep seconds) = Ok tt.
Proof. intros H. apply (H n). Qed.

(** The equations of the monad, in the order a run meets them. *)
Lemma run_bind {A B C} (m : M A) (f : A -> M B) (g : B -> M C) (t : trace) :
  bind (bind m f) g t = bind m (fun a => bind (f a) g) t.
Proof. unfold bind. destruct (m t) as [[a|e] t']; reflexivity. Qed.

Lemma run_ret {A B} (a : A) (k : A -> M B) (t : trace) :
  bind (ret a) k t = k a t.
Proof. reflexivity. Qed.

Lemma run_call {A B} (env : environment) (request : eff A) (k : A -> M B) (t : trace) :
  bind (call env request) k t =
  match env A (length t) request with
  | Ok a => k a (t ++ [Event request])%list
  | Raise e => (Raise e, (t ++ [Event request])%list)
  end.
Proof. unfold bind, call. destruct (env A (length t) request); reflexivity. Qed.

Lemma run_last_call {A} (env : environment) (request : eff A) (t : trace) :
  call env request t = (env A (length t) request, (t ++ [Event request])%list).
Proof. reflexivity. Qed.

Lemma run_lift {A B} (r : result A) (k : A -> M B) (t : trace) :
  bind (lift r) k t =
  match r with
  | Ok a => k a t
  | Raise e => (Raise e, t)
  end.
Proof. unfold bind, lift. destruct r; reflexivity. Qed.

Lemma run_try {A B} (m : M A) (k : result A -> M B) (t : trace) :
  bind (try_ m) k t = k (fst (m t)) (snd (m t)).
Proof. unfold bind, try_. destruct (m t); reflexivity. Qed.

(** A part of the program whose run is known. *)
Lemma bind_ok {A B} (m : M A) (k : A -> M B) (t t' : trace) (a : A) :
  m t = (Ok a, t') -> bind m k t = k a t'.
Proof. intros H. unfold bind. rewrite H. reflexivity. Qed.

Lemma bind_raise {A B} (m : M A) (k : A -> M B) (t t' : trace) (e : exn) :
  m t = (Raise e, t') -> bind m k t = (Raise e, t').
Proof. intros H. unfold bind. rewrite H. reflexivity. Qed.

Lemma try_run {A B} (m : M A) (k : result A -> M B) (t t' : trace) (r : result A) :
  m t = (r, t') -> bind (try_ m) k t = k r t'.
Proof. intros H. unfold bind, try_. rewrite H. reflexivity. Qed.

(** One layer of calls at a time, by unfolding (for closed loops). *)
Ltac run := unfold bind, try_, call, ret, lift; simpl.

(** The same by the equations above (for open programs). *)
Ltac step :=
  repeat first
    [ rewrite run_bind | rewrite run_ret | rewrite run_call
    | rewrite run_lift | rewrite run_try | rewrite last_length ];
  cbv beta iota.

(** The sinks of a quiet environment answer [Ok tt]. *)
Ltac hush H :=
  repeat (first [ rewrite (quiet_log _ _ _ H)
                | rewrite (quiet_sleep _ _ _ H)
                | rewrite (quiet_voice _ _ _ H)
                | rewrite (quiet_notification _ _ _ _ H) ]; simpl).

(** A run through quiet sinks. *)
Ltac steps H :=
  repeat (step;
          first [ rewrite (quiet_log _ _ _ H)
                | rewrite (quiet_sleep _ _ _ H)
                | rewrite (quiet_voice _ _ _ H)
                | rewrite (quiet_notification _ _ _ _ H) ]);
  step.

(** Put a trace built one request at a time in the form [t ++ [e1; ...; en]]. *)
Ltac flatten_trace := repeat rewrite <- app_assoc; simpl.


(** ** Counting requests *)

Lemma count_app (test : event -> bool) (s s' : trace) :
  count test (s ++ s')%list = (count test s + count test s')%nat.
Proof. unfold count. rewrite filter_app, length_app. reflexivity. Qed.

Lemma at_most_ret {A} (test : event -> bool) (a : A) : at_most 0 test (ret a).
Proof. intros t. exists []. rewrite app_nil_r. split; [reflexivity | apply Nat.le_refl]. Qed.

Lemma at_most_lift {A} (test : event -> bool) (r : result A) : at_most 0 test (lift r).
Proof. intros t. exists []. rewrite app_nil_r. split; [reflexivity | apply Nat.le_refl]. Qed.

Lemma at_most_call {A} (env : environment) (test : event -> bool) (request : eff A) :
  at_most (if test (Event request) then 1 else 0) test (call env request).
Proof.
  intros t. exists [Event request]. split; [reflexivity|].
  unfold count. simpl. destruct (test (Event request)); apply Nat.le_refl.
Qed.

Lemma at_most_other {A} (env : environment) (test : event -> bool) (request : eff A) :
  test (Event request) = false -> at_most 0 test (call env request).
Proof.
  intros H. generalize (at_most_call env test request). rewrite H. auto.
Qed.

Lemma at_most_bind {A B} (n n' : nat) (test : event -> bool) (m : M A) (k : A -> M B) :
  at_most n test m -> (forall a, at_most n' test (k a)) ->
  at_most (n + n') test (bind m k).
Proof.
  intros Hm Hk t. destruct (Hm t) as [s [Hs Hn]]. unfold bind.
  destruct (m t) as [[a|e] t1]; simpl in Hs; subst t1.
  - destruct (Hk a (t ++ s)%list) as [s' [Hs' Hn']].
    exists (s ++ s')%list. rewrite app_assoc, count_app. split; [exact Hs' | lia].
  - exists s. split; [reflexivity | lia].
Qed.

Lemma at_most_try {A} (n : nat) (test : event -> bool) (m : M A) :
  at_most n test m -> at_most n test (try_ m).
Proof.
  intros Hm t. destruct (Hm t) as [s [Hs Hn]]. exists s. split; [|exact Hn].
  unfold try_. destruct (m t) as [r t1]. exact Hs.
Qed.

Lemma at_most_weaken {A} (n n' : nat) (test : event -> bool) (m : M A) :
  (n <= n')%nat -> at_most n test m -> at_most n' test m.
Proof.
  intros Hle Hm t. destruct (Hm t) as [s [Hs Hn]]. exists s. split; [exact Hs | lia].
Qed.


(** ** [closest_time_to_desired_time] *)

Section ClosestTime.

Variable key : string -> result Z.

Lemma all_farther_weaken (k k' : Z) (xs : list string) :
  (k' <= k)%Z -> all_farther key k xs -> all_farther key k' xs.
Proof.
  intros Hle H. induction H as [|x xs [d [Hd Hlt]] _ IH]; constructor; auto.
  exists d. split; [assumption | lia].
Qed.

Lemma none_closer_weaken (k k' : Z) (xs : list string) :
  (k' <= k)%Z -> none_closer key k xs -> none_closer key k' xs.
Proof.
  intros Hle H. induction H as [|x xs [d [Hd Hlt]] _ IH]; constructor; auto.
  exists d. split; [assumption | lia].
Qed.

(** The loop of [min]: the held element stays when nothing later is strictly
    closer, otherwise the first of the strictly closest later elements
    replaces it. *)
Lemma min_loop_first_minimum (rest : list string) :
  forall (best : string) (kbest : Z),
    all_keyed key rest ->
    (min_loop key best kbest rest = Ok best /\ none_closer key kbest rest) \/
    (exists before chosen after k,
        rest = (before ++ chosen :: after)%list /\
        min_loop key best kbest rest = Ok chosen /\
        key chosen = Ok k /\ (k < kbest)%Z /\
        all_farther key k before /\ none_closer key k after).
Proof.
  induction rest as [|x rest IH]; intros best kbest Hall.
  - left. split; [reflexivity | constructor].
  - inversion Hall as [|? ? [k Hk] Hrest]; subst.
    simpl. rewrite Hk.
    destruct (Z.ltb_spec k kbest) as [Hlt | Hge].
    + destruct (IH x k Hrest) as [[Hmin Hnc] | (b & c & a & k' & Heq & Hmin & Hc & Hlt' & Hb & Ha)].
      * right. exists [], x, rest, k. repeat split; auto. constructor.
      * right. exists (x :: b), c, a, k'. subst rest. repeat split; auto; try lia.
        constructor; [exists k; split; [assumption | lia] | assumption].
    + destruct (IH best kbest Hrest) as [[Hmin Hnc] | (b & c & a & k' & Heq & Hmin & Hc & Hlt' & Hb & Ha)].
      * left. split; [assumption|]. constructor; [exists k; split; [assumption | lia] | assumption].
      * right. exists (x :: b), c, a, k'. subst rest. repeat split; auto.
        constructor; [exists k; split; [assumption | lia] | assumption].
Qed.

Lemma min_by_first_minimum (xs : list string) :
  xs <> [] ->
  all_keyed key xs ->
  exists before chosen after k,
    xs = (before ++ chosen :: after)%list /\
    min_by key xs = Ok chosen /\
    key chosen = Ok k /\
    all_farther key k before /\ none_closer key k after.
Proof.
  destruct xs as [|x rest]; [congruence|]. intros _ Hall.
  inversion Hall as [|? ? [k Hk] Hrest]; subst.
  simpl. rewrite Hk.
  destruct (min_loop_first_minimum rest x k Hrest)
    as [[Hmin Hnc] | (b & c & a & k' & Heq & Hmin & Hc & Hlt' & Hb & Ha)].
  - exists [], x, rest, k. repeat split; auto. constructor.
  - exists (x :: b), c, a, k'. subst rest. repeat split; auto.
    constructor; [exists k; split; [assumption | lia] | assumption].
Qed.

End ClosestTime.

(** C5. For a desired time and a non-empty list of candidates that all read
    as hour:minute, [closest_time_to_desired_time] returns a candidate whose
    distance to the desired time (absolute difference in minutes) is minimal;
    among several at that distance the first in input order is returned: all
    candidates before it are strictly farther, none after it is closer.  On
    09:00, 11:30, 14:00 with 10:00 desired it returns 09:00. *)
Theorem closest_time_is_first_minimum :
  (forall (available_hours : list string) (desired_time : string) (target : Z * Z),
      available_hours <> [] ->
      strptime_HM desired_time = Ok target ->
      Forall (fun t => exists hm, strptime_HM t = Ok hm) available_hours ->
      exists before chosen after hm,
        available_hours = (before ++ chosen :: after)%list /\
        closest_time_to_desired_time available_hours desired_time = Ok chosen /\
        strptime_HM chosen = Ok hm /\
        all_farther (time_distance target) (Z.abs (minutes hm - minutes target)) before /\
        none_closer (time_distance target) (Z.abs (minutes hm - minutes target)) after)
  /\ closest_time_to_desired_time ["09:00"; "11:30"; "14:00"] "10:00" = Ok "09:00".
Proof.
  split; [|reflexivity].
  intros available_hours desired_time target Hne Htarget Hall.
  assert (Hkeyed : all_keyed (time_distance target) available_hours).
  { unfold all_keyed. eapply Forall_impl; [|exact Hall].
    intros t [hm Hhm]. unfold time_distance. rewrite Hhm. simpl. eauto. }
  destruct (min_by_first_minimum (time_distance target) available_hours Hne Hkeyed)
    as (b & c & a & k & Heq & Hmin & Hc & Hb & Ha).
  unfold time_distance in Hc.
  destruct (strptime_HM c) as [hm|e] eqn:Hhm; simpl in Hc; [|discriminate].
  injection Hc as Hk. subst k.
  exists b, c, a, hm. repeat split; auto.
  unfold closest_time_to_desired_time. rewrite Htarget. exact Hmin.
Qed.

Lemma closest_time_is_first_minimum_witness :
  exists before chosen after hm,
    ["09:00"; "11:00"; "14:00"] = (before ++ chosen :: after)%list /\
    closest_time_to_desired_time ["09:00"; "11:00"; "14:00"] "10:00" = Ok chosen /\
    strptime_HM chosen = Ok hm /\
    all_farther (time_distance (10, 0)%Z) (Z.abs (minutes hm - minutes (10, 0)%Z)) before /\
    none_closer (time_distance (10, 0)%Z) (Z.abs (minutes hm - minutes (10, 0)%Z)) after.
Proof.
  apply (proj1 closest_time_is_first_minimum ["09:00"; "11:00"; "14:00"] "10:00" (10, 0)%Z).
  - discriminate.
  - reflexivity.
  - repeat constructor; eexists; reflexivity.
Defined.

(** C10. On the empty list of candidates [closest_time_to_desired_time]
    raises, whatever the desired time: [min] has no default.  So a value is
    returned only for a non-empty list, and it is one of the candidates. *)
Theorem closest_time_raises_on_empty :
  (forall desired_time : string,
      raises (closest_time_to_desired_time [] desired_time))
  /\ (forall (available_hours : list string) (desired_time chosen : string),
      closest_time_to_desired_time available_hours desired_time = Ok chosen ->
      available_hours <> [] /\ In chosen available_hours).
Proof.
  split.
  - intros desired_time. unfold raises, closest_time_to_desired_time.
    destruct (strptime_HM desired_time) as [target|e]; simpl; eauto.
  - intros available_hours desired_time chosen.
    unfold closest_time_to_desired_time.
    destruct (strptime_HM desired_time) as [target|e]; simpl; [|discriminate].
    destruct available_hours as [|x rest]; simpl; [discriminate|].
    intros H. split; [discriminate|].
    destruct (time_distance target x) as [k|e]; [|discriminate].
    revert x k H. induction rest as [|y rest IH]; intros x k H; simpl in H.
    + injection H as ->. now left.
    + destruct (time_distance target y) as [k'|e]; [|discriminate].
      destruct (k' <? k)%Z.
      * apply IH in H. destruct H as [<- | H]; [right; now left | right; now right].
      * apply IH in H. destruct H as [<- | H]; [now left | right; now right].
Qed.

Lemma closest_time_raises_on_empty_witness :
  [ "09:00" ] <> [] /\ In "09:00" [ "09:00" ].
Proof.
  apply (proj2 closest_time_raises_on_empty ["09:00"] "10:00" "09:00").
  reflexivity.
Defined.

(** ** Slot queries *)

Lemma business_dates_listing (slots : list AvailableSlot) :
  business_dates (map slot_json slots) =
  Ok (map (fun s => JStr (slot_date s)) (filter business_day slots)).
Proof.
  induction slots as [|[d b] slots IH]; [reflexivity|].
  simpl. destruct b; simpl; rewrite IH; reflexivity.
Qed.

Lemma all_str_map (l : list string) : all_str (map JStr l) = Ok l.
Proof. induction l as [|x l IH]; simpl; [|rewrite IH]; reflexivity. Qed.

(** The comprehension of [get_cas_date] is a filter followed by a map. *)
Lemma business_dates_filter (items dates : list json) :
  business_dates items = Ok dates ->
  dates = map date_field (filter flagged items).
Proof.
  revert dates. induction items as [|item items IH]; intros dates H; simpl in H.
  - injection H as <-. reflexivity.
  - cbn [filter]. unfold flagged at 1.
    destruct (dict_get item "business_day") as [flag|e]; [|discriminate]. simpl in H.
    destruct (truthy flag).
    + destruct (dict_item item "date") as [d|e] eqn:Hd; [|discriminate]. simpl in H.
      destruct (business_dates items) as [l|e]; [|discriminate]. simpl in H.
      injection H as <-. cbn [map]. unfold date_field at 1. rewrite Hd.
      rewrite (IH l eq_refl). reflexivity.
    + apply IH. exact H.
Qed.

Lemma all_str_last (dates : list json) (strs : list string) :
  dates <> [] ->
  all_str dates = Ok strs ->
  last dates JNull = JStr (last strs "").
Proof.
  revert strs. induction dates as [|d dates IH]; intros strs Hne H; [congruence|].
  simpl in H. destruct d as [| | |s| |]; try discriminate.
  destruct (all_str dates) as [l|e] eqn:Hl; [|discriminate]. simpl in H.
  injection H as <-.
  destruct dates as [|d' dates'].
  - simpl in Hl. injection Hl as <-. reflexivity.
  - assert (Hl' : l <> []).
    { simpl in Hl. destruct d'; try discriminate.
      destruct (all_str dates'); [|discriminate]. injection Hl as <-. discriminate. }
    destruct l as [|s' l']; [congruence|].
    change (last (JStr s :: d' :: dates') JNull) with (last (d' :: dates') JNull).
    change (last (s :: s' :: l') "") with (last (s' :: l') "").
    apply IH; [discriminate | reflexivity].
Qed.

(** A date returned by the query loop is the last flagged date of an answer
    that the service gave to this query. *)
Lemma get_cas_date_loop_sound (cfg : settings) (env : environment)
  (consulate_date consulate_time : string) (attempts : list nat) :
  forall (t t' : trace) (cas_date : string),
    get_cas_date_loop cfg env attempts consulate_date consulate_time t
      = (Ok (Some cas_date), t') ->
    exists (n : nat) (json_data : json) (items : list json),
      env json n (FetchJson (CAS_DATE_URL cfg consulate_date consulate_time)) = Ok json_data /\
      iterate json_data = Ok items /\
      filter flagged items <> [] /\
      last (map date_field (filter flagged items)) JNull = JStr cas_date.
Proof.
  induction attempts as [|a rest IH]; intros t t' cas_date H; simpl in H.
  - discriminate.
  - rewrite run_try in H.
    destruct (cas_date_attempt env (CAS_DATE_URL cfg consulate_date consulate_time) t)
      as [[[chosen|]|e] t1] eqn:Hattempt; simpl in H.
    + injection H as <- _.
      unfold cas_date_attempt in Hattempt. rewrite run_call in Hattempt.
      destruct (env json (length t) (FetchJson (CAS_DATE_URL cfg consulate_date consulate_time)))
        as [json_data|e] eqn:Hreply; [|discriminate].
      rewrite run_lift in Hattempt.
      destruct (iterate json_data) as [items|e] eqn:Hitems; [|discriminate].
      rewrite run_lift in Hattempt.
      destruct (business_dates items) as [dates|e] eqn:Hdates; [|discriminate].
      destruct dates as [|d dates]; [discriminate|].
      rewrite run_lift in Hattempt.
      destruct (all_str (d :: dates)) as [strs|e] eqn:Hstrs; [|discriminate].
      injection Hattempt as <- _.
      exists (length t), json_data, items.
      pose proof (business_dates_filter _ _ Hdates) as Hfilter.
      split; [exact Hreply|]. split; [exact Hitems|]. split.
      * intros Hnil. rewrite Hnil in Hfilter. discriminate.
      * rewrite <- Hfilter. apply all_str_last; [discriminate | exact Hstrs].
    + rewrite run_call in H.
      destruct (env unit (length t1) (Sleep STEP_TIME)); [|discriminate].
      exact (IH _ _ _ H).
    + rewrite run_call in H.
      destruct (env unit (length t1)
                  (InfoLogger (CasDateError consulate_date consulate_time e)));
        [|discriminate].
      rewrite run_call in H.
      destruct (env unit _ (Sleep STEP_TIME)); [|discriminate].
      exact (IH _ _ _ H).
Qed.

(** C2. When the secondary-facility date query is answered with a listing
    that has at least one business day, [get_cas_date] returns at once the
    last date of the listing filtered to its business days (not the first);
    for the listing 2024-06-05, 2024-06-08 that is 2024-06-08.  And whatever
    the answers, a date that [get_cas_date] returns is the last one of the
    flagged items of an answer to this query. *)
Theorem cas_date_is_last_business_day :
  (forall (cfg : settings) (env : environment) (consulate_date consulate_time : string)
      (t : trace) (slots : list AvailableSlot),
      env json (length t) (FetchJson (CAS_DATE_URL cfg consulate_date consulate_time))
        = Ok (date_listing slots) ->
      filter business_day slots <> [] ->
      get_cas_date cfg env consulate_date consulate_time t =
        (Ok (Some (last (map slot_date (filter business_day slots)) "")),
         (t ++ [Event (FetchJson (CAS_DATE_URL cfg consulate_date consulate_time))])%list))
  /\
  (forall (cfg : settings) (env : environment) (consulate_date consulate_time : string)
      (t t' : trace) (cas_date : string),
      get_cas_date cfg env consulate_date consulate_time t = (Ok (Some cas_date), t') ->
      exists (n : nat) (json_data : json) (items : list json),
        env json n (FetchJson (CAS_DATE_URL cfg consulate_date consulate_time))
          = Ok json_data /\
        iterate json_data = Ok items /\
        filter flagged items <> [] /\
        last (map date_field (filter flagged items)) JNull = JStr cas_date)
  /\
  last (map slot_date
          (filter business_day
             [ {| slot_date := "2024-06-05"; business_day := true |};
               {| slot_date := "2024-06-08"; business_day := true |} ])) ""
  = "2024-06-08".
Proof.
  split; [|split; [|reflexivity]].
  - intros cfg env cd ct t slots Hreply Hne.
    unfold get_cas_date, attempts_range. simpl.
    unfold cas_date_attempt. run. rewrite Hreply. simpl.
    rewrite business_dates_listing.
    rewrite <- (map_map slot_date JStr).
    destruct (filter business_day slots) as [|s rest] eqn:Hf; [congruence|].
    simpl map at 1. cbv iota beta.
    rewrite all_str_map. reflexivity.
  - intros cfg env cd ct t t' cas_date.
    apply (get_cas_date_loop_sound cfg env cd ct attempts_range).
Qed.

Lemma cas_date_is_last_business_day_witness :
  get_cas_date sample (play scenario) "2024-06-10" "09:00" [] =
    (Ok (Some "2024-06-08"),
     [Event (FetchJson (CAS_DATE_URL sample "2024-06-10" "09:00"))]).
Proof.
  apply (proj1 cas_date_is_last_business_day sample (play scenario) "2024-06-10" "09:00" []
           [ {| slot_date := "2024-06-05"; business_day := true |};
             {| slot_date := "2024-06-08"; business_day := true |} ]).
  - reflexivity.
  - discriminate.
Defined.

(** C1 does not hold as stated: the secondary-facility date query of the
    sample configuration is answered with an empty list, successfully, every
    time; [get_cas_date] does not return after the first answer: it asks five
    times, pausing after each, and returns [False]. *)
Lemma empty_cas_date_listing_is_retried :
  play scenario_empty json 0 (FetchJson (CAS_DATE_URL sample "2024-06-10" "09:00"))
    = Ok (JList []) /\
  get_cas_date sample (play scenario_empty) "2024-06-10" "09:00" [] =
    (Ok None, rounds 5 (empty_round (CAS_DATE_URL sample "2024-06-10" "09:00"))) /\
  count (is_fetch (CAS_DATE_URL sample "2024-06-10" "09:00"))
    (snd (get_cas_date sample (play scenario_empty) "2024-06-10" "09:00" [])) = 5%nat.
Proof. repeat split; vm_compute; reflexivity. Qed.

(** C1, amended.  The primary date query asks once and returns what was
    parsed, an empty list included, so that the polling loop alone reads it
    as a ban.  The secondary date query and the secondary time query treat an
    answer with nothing in it as "not found": while the answers stay empty
    they pause and ask again, five times in all, and then return [False]. *)
Theorem empty_answers_of_the_queries :
  (forall (cfg : settings) (env : environment) (t : trace) (dates : json),
      env json (length t) (FetchJson (DATE_URL cfg)) = Ok dates ->
      get_consulate_appointment_date cfg env t =
        (Ok dates, (t ++ [Event (FetchJson (DATE_URL cfg))])%list))
  /\
  (forall (cfg : settings) (env : environment) (consulate_date consulate_time : string)
      (t : trace) (slots : list AvailableSlot),
      quiet env ->
      filter business_day slots = [] ->
      (forall n, env json n (FetchJson (CAS_DATE_URL cfg consulate_date consulate_time))
                 = Ok (date_listing slots)) ->
      get_cas_date cfg env consulate_date consulate_time t =
        (Ok None,
         (t ++ rounds REQUEST_ATTEMPTS
                 (empty_round (CAS_DATE_URL cfg consulate_date consulate_time)))%list))
  /\
  (forall (cfg : settings) (env : environment)
      (consulate_date consulate_time cas_date : string) (t : trace),
      quiet env ->
      (forall n, env json n (FetchJson (CAS_TIME_URL cfg cas_date consulate_date consulate_time))
                 = Ok (time_listing [])) ->
      get_cas_time cfg env consulate_date consulate_time cas_date t =
        (Ok None,
         (t ++ rounds REQUEST_ATTEMPTS
                 (empty_round (CAS_TIME_URL cfg cas_date consulate_date consulate_time)))%list)).
Proof.
  split; [|split].
  - intros cfg env t dates Hreply.
    unfold get_consulate_appointment_date. run. rewrite Hreply. reflexivity.
  - intros cfg env cd ct t slots Hq Hnone Hreply.
    unfold get_cas_date, attempts_range. simpl.
    unfold cas_date_attempt. run.
    repeat (rewrite Hreply; simpl; rewrite business_dates_listing, Hnone; simpl; hush Hq).
    flatten_trace. reflexivity.
  - intros cfg env cd ct cas t Hq Hreply.
    unfold get_cas_time, attempts_range. simpl.
    unfold cas_time_attempt. run.
    repeat (rewrite Hreply; simpl; hush Hq).
    flatten_trace. reflexivity.
Qed.

Lemma empty_answers_of_the_queries_witness :
  get_consulate_appointment_date sample (play scenario_empty) [] =
    (Ok (JList []), [Event (FetchJson (DATE_URL sample))])
  /\ get_cas_date sample (play scenario_empty) "2024-06-10" "09:00" [] =
    (Ok None, rounds 5 (empty_round (CAS_DATE_URL sample "2024-06-10" "09:00")))
  /\ get_cas_time sample (play scenario_empty) "2024-06-10" "09:00" "2024-06-08" [] =
    (Ok None, rounds 5 (empty_round (CAS_TIME_URL sample "2024-06-08" "2024-06-10" "09:00"))).
Proof.
  destruct empty_answers_of_the_queries as [Hdate [Hcas_date Hcas_time]].
  split; [|split].
  - apply (Hdate sample (play scenario_empty) [] (JList [])). reflexivity.
  - apply (Hcas_date sample (play scenario_empty) "2024-06-10" "09:00" [] []).
    + intros n. repeat split.
    + reflexivity.
    + intros n. reflexivity.
  - apply (Hcas_time sample (play scenario_empty) "2024-06-10" "09:00" "2024-06-08" []).
    + intros n. repeat split.
    + intros n. reflexivity.
Defined.

(** *** At most five requests per query *)

Lemma cas_date_attempt_queries (env : environment) (url : string) :
  at_most 1 is_query (cas_date_attempt env url).
Proof.
  unfold cas_date_attempt.
  apply (at_most_bind 1 0); [apply (at_most_call env is_query (FetchJson url))|].
  intros json_data. apply (at_most_bind 0 0); [apply at_most_lift|].
  intros items. apply (at_most_bind 0 0); [apply at_most_lift|].
  intros [|d dates]; [apply at_most_ret|].
  apply (at_most_bind 0 0); [apply at_most_lift|]. intros strs. apply at_most_ret.
Qed.

Lemma cas_time_attempt_queries (env : environment) (url : string) :
  at_most 1 is_query (cas_time_attempt env url).
Proof.
  unfold cas_time_attempt.
  apply (at_most_bind 1 0); [apply (at_most_call env is_query (FetchJson url))|].
  intros json_data. apply (at_most_bind 0 0); [apply at_most_lift|].
  intros available_times. destruct (truthy available_times); [|apply at_most_ret].
  apply (at_most_bind 0 0); [apply at_most_lift|].
  intros times. apply (at_most_bind 0 0); [apply at_most_lift|].
  intros closest_time. apply at_most_ret.
Qed.

Lemma consulate_time_attempt_queries (cfg : settings) (env : environment)
  (date_visa : string) :
  at_most 1 is_query (consulate_time_attempt cfg env date_visa).
Proof.
  unfold consulate_time_attempt.
  apply (at_most_bind 1 0);
    [apply (at_most_call env is_query (FetchJson (TIME_URL cfg date_visa)))|].
  intros data. apply (at_most_bind 0 0); [apply at_most_lift|].
  intros available_times. apply (at_most_bind 0 0); [apply at_most_lift|].
  intros times. apply at_most_lift.
Qed.

(** The pause, and the log entry with the pause, ask nothing of the service. *)
Lemma pause_then (env : environment) {A} (n : nat) (m : M A) :
  at_most n is_query m ->
  at_most n is_query (call env (Sleep STEP_TIME) ;; m).
Proof.
  intros Hm. apply (at_most_bind 0 n); [apply at_most_other; reflexivity|].
  intros _. exact Hm.
Qed.

Lemma log_pause_then (env : environment) {A} (entry : message) (n : nat) (m : M A) :
  at_most n is_query m ->
  at_most n is_query (call env (InfoLogger entry) ;; call env (Sleep STEP_TIME) ;; m).
Proof.
  intros Hm. apply (at_most_bind 0 n); [apply at_most_other; reflexivity|].
  intros _. apply pause_then. exact Hm.
Qed.

Lemma get_cas_date_loop_queries (cfg : settings) (env : environment)
  (consulate_date consulate_time : string) (attempts : list nat) :
  at_most (length attempts) is_query
    (get_cas_date_loop cfg env attempts consulate_date consulate_time).
Proof.
  induction attempts as [|a rest IH]; [apply at_most_ret|].
  cbn [get_cas_date_loop length].
  apply (at_most_bind 1 (length rest));
    [apply at_most_try, cas_date_attempt_queries|].
  intros [[cas_date|]|e].
  - eapply at_most_weaken; [|apply at_most_ret]. lia.
  - apply pause_then, IH.
  - apply log_pause_then, IH.
Qed.

Lemma get_cas_time_loop_queries (cfg : settings) (env : environment)
  (consulate_date consulate_time cas_date : string) (attempts : list nat) :
  at_most (length attempts) is_query
    (get_cas_time_loop cfg env attempts consulate_date consulate_time cas_date).
Proof.
  induction attempts as [|a rest IH]; [apply at_most_ret|].
  cbn [get_cas_time_loop length].
  apply (at_most_bind 1 (length rest));
    [apply at_most_try, cas_time_attempt_queries|].
  intros [[closest_time|]|e].
  - eapply at_most_weaken; [|apply at_most_ret]. lia.
  - apply pause_then, IH.
  - apply log_pause_then, IH.
Qed.

Lemma get_consulate_appointment_time_loop_queries (cfg : settings) (env : environment)
  (date_visa : string) (attempts : list nat) :
  at_most (length attempts) is_query
    (get_consulate_appointment_time_loop cfg env attempts date_visa).
Proof.
  induction attempts as [|a rest IH]; [apply at_most_ret|].
  cbn [get_consulate_appointment_time_loop length].
  apply (at_most_bind 1 (length rest));
    [apply at_most_try, consulate_time_attempt_queries|].
  intros [time_available|e].
  - eapply at_most_weaken; [|apply at_most_ret]. lia.
  - apply log_pause_then, IH.
Qed.

(** C6 does not hold as stated: the service is out of reach and the primary
    date query raises.  [get_consulate_appointment_date] asks once, writes
    nothing to the log, does not pause, and hands [False] to its caller. *)
Lemma failed_date_query_is_not_retried :
  play scenario_offline json 0 (FetchJson (DATE_URL sample))
    = Raise (ExternalError "connection refused") /\
  get_consulate_appointment_date sample (play scenario_offline) [] =
    (Ok (JBool false), [Event (FetchJson (DATE_URL sample))]) /\
  count (is_fetch (DATE_URL sample))
    (snd (get_consulate_appointment_date sample (play scenario_offline) [])) = 1%nat /\
  count is_log
    (snd (get_consulate_appointment_date sample (play scenario_offline) [])) = 0%nat.
Proof. repeat split; vm_compute; reflexivity. Qed.

(** C6, amended.  The primary time query, the secondary date query and the
    secondary time query are tried [REQUEST_ATTEMPTS] (5) times while they
    raise: each failed attempt is logged with the parameters of the query and
    the exception, and followed by a sleep of [STEP_TIME]; after the fifth the
    function returns [False].  The primary date query is tried once: when it
    raises, [False] is returned at once, with no log entry and no pause.
    Whatever the answers, none of the three retried queries asks the service
    more than [REQUEST_ATTEMPTS] times. *)
Theorem failing_queries_are_retried :
  (forall (cfg : settings) (env : environment) (date_visa : string) (t : trace) (e : exn),
      quiet env ->
      (forall n, env json n (FetchJson (TIME_URL cfg date_visa)) = Raise e) ->
      get_consulate_appointment_time cfg env date_visa t =
        (Ok None,
         (t ++ rounds REQUEST_ATTEMPTS
                 (failed_round (TIME_URL cfg date_visa) (TimeError date_visa e)))%list))
  /\
  (forall (cfg : settings) (env : environment) (consulate_date consulate_time : string)
      (t : trace) (e : exn),
      quiet env ->
      (forall n, env json n (FetchJson (CAS_DATE_URL cfg consulate_date consulate_time))
                 = Raise e) ->
      get_cas_date cfg env consulate_date consulate_time t =
        (Ok None,
         (t ++ rounds REQUEST_ATTEMPTS
                 (failed_round (CAS_DATE_URL cfg consulate_date consulate_time)
                    (CasDateError consulate_date consulate_time e)))%list))
  /\
  (forall (cfg : settings) (env : environment)
      (consulate_date consulate_time cas_date : string) (t : trace) (e : exn),
      quiet env ->
      (forall n, env json n (FetchJson (CAS_TIME_URL cfg cas_date consulate_date consulate_time))
                 = Raise e) ->
      get_cas_time cfg env consulate_date consulate_time cas_date t =
        (Ok None,
         (t ++ rounds REQUEST_ATTEMPTS
                 (failed_round (CAS_TIME_URL cfg cas_date consulate_date consulate_time)
                    (CasTimeError cas_date consulate_date consulate_time e)))%list))
  /\
  (forall (cfg : settings) (env : environment) (t : trace) (e : exn),
      env json (length t) (FetchJson (DATE_URL cfg)) = Raise e ->
      get_consulate_appointment_date cfg env t =
        (Ok (JBool false), (t ++ [Event (FetchJson (DATE_URL cfg))])%list))
  /\
  (forall (cfg : settings) (env : environment) (date time cas_date : string),
      at_most REQUEST_ATTEMPTS is_query (get_consulate_appointment_time cfg env date) /\
      at_most REQUEST_ATTEMPTS is_query (get_cas_date cfg env date time) /\
      at_most REQUEST_ATTEMPTS is_query (get_cas_time cfg env date time cas_date)).
Proof.
  split; [|split; [|split; [|split]]].
  - intros cfg env date_visa t e Hq Hreply.
    unfold get_consulate_appointment_time, attempts_range. simpl.
    unfold consulate_time_attempt. run.
    repeat (rewrite Hreply; simpl; hush Hq).
    flatten_trace. reflexivity.
  - intros cfg env cd ct t e Hq Hreply.
    unfold get_cas_date, attempts_range. simpl.
    unfold cas_date_attempt. run.
    repeat (rewrite Hreply; simpl; hush Hq).
    flatten_trace. reflexivity.
  - intros cfg env cd ct cas t e Hq Hreply.
    unfold get_cas_time, attempts_range. simpl.
    unfold cas_time_attempt. run.
    repeat (rewrite Hreply; simpl; hush Hq).
    flatten_trace. reflexivity.
  - intros cfg env t e Hreply.
    unfold get_consulate_appointment_date. run. rewrite Hreply. reflexivity.
  - intros cfg env date time cas_date. split; [|split].
    + apply (get_consulate_appointment_time_loop_queries cfg env date attempts_range).
    + apply (get_cas_date_loop_queries cfg env date time attempts_range).
    + apply (get_cas_time_loop_queries cfg env date time cas_date attempts_range).
Qed.

Lemma failing_queries_are_retried_witness :
  get_consulate_appointment_time sample (play scenario_offline) "2024-06-10" [] =
    (Ok None,
     ([] ++ rounds 5 (failed_round (TIME_URL sample "2024-06-10")
                   (TimeError "2024-06-10" (ExternalError "connection refused"))))%list)
  /\ get_cas_date sample (play scenario_offline) "2024-06-10" "09:00" [] =
    (Ok None,
     ([] ++ rounds 5 (failed_round (CAS_DATE_URL sample "2024-06-10" "09:00")
                   (CasDateError "2024-06-10" "09:00" (ExternalError "connection refused"))))%list)
  /\ get_cas_time sample (play scenario_offline) "2024-06-10" "09:00" "2024-06-08" [] =
    (Ok None,
     ([] ++ rounds 5 (failed_round (CAS_TIME_URL sample "2024-06-08" "2024-06-10" "09:00")
                   (CasTimeError "2024-06-08" "2024-06-10" "09:00"
                      (ExternalError "connection refused"))))%list)
  /\ get_consulate_appointment_date sample (play scenario_offline) [] =
    (Ok (JBool false), ([] ++ [Event (FetchJson (DATE_URL sample))])%list).
Proof.
  destruct failing_queries_are_retried as [Htime [Hcas_date [Hcas_time [Hdate _]]]].
  split; [|split; [|split]].
  - apply (Htime sample (play scenario_offline) "2024-06-10" []
             (ExternalError "connection refused")).
    + intros n. repeat split.
    + intros n. reflexivity.
  - apply (Hcas_date sample (play scenario_offline) "2024-06-10" "09:00" []
             (ExternalError "connection refused")).
    + intros n. repeat split.
    + intros n. reflexivity.
  - apply (Hcas_time sample (play scenario_offline) "2024-06-10" "09:00" "2024-06-08" []
             (ExternalError "connection refused")).
    + intros n. repeat split.
    + intros n. reflexivity.
  - apply (Hdate sample (play scenario_offline) []
             (ExternalError "connection refused")).
    reflexivity.
Defined.

(** The primary time query has no test for an empty listing: the empty list
    reaches [min], whose exception is logged like any other failure, and the
    query is retried. *)
Example empty_time_listing_is_logged_as_an_error :
  get_consulate_appointment_time sample (play scenario_empty) "2024-06-10" [] =
    (Ok None,
     rounds 5 (failed_round (TIME_URL sample "2024-06-10")
                 (TimeError "2024-06-10" (ValueError "min() arg is an empty sequence")))).
Proof. vm_compute. reflexivity. Qed.

(** ** The polling loop *)

Lemma Qgtb_lt (a b : Q) : Qgtb a b = true <-> (b < a)%Q.
Proof.
  unfold Qgtb. rewrite negb_true_iff, <- not_true_iff_false, Qle_bool_iff.
  split; [apply Qnot_le_lt | apply Qlt_not_le].
Qed.

Lemma append_eqb_prefix (a b c : string) : (a ++ b =? a ++ c) = (b =? c).
Proof.
  induction a as [|ch a IH]; simpl; [reflexivity|].
  rewrite Ascii.eqb_refl. exact IH.
Qed.

(** Signing out is not the appointment page. *)
Lemma sign_out_is_not_appointment (cfg : settings) :
  (SIGN_OUT_LINK cfg =? APPOINTMENT_URL cfg) = false.
Proof.
  unfold SIGN_OUT_LINK, APPOINTMENT_URL. rewrite append_eqb_prefix. reflexivity.
Qed.

(** A loop that must log in again starts like a loop that never ran: the
    counters it had are not read. *)
Lemma first_loop_block_restarts (cfg : settings) (env : environment) (st : loop_state) :
  first_loop st = true ->
  first_loop_block cfg env st = first_loop_block cfg env initial_state.
Proof. intros H. unfold first_loop_block. rewrite H. reflexivity. Qed.

(** With [first_loop] set the loop reads the clock and logs in; once logged
    in it polls with the clock value as [t0] and both counters at zero. *)
Lemma first_loop_block_logs_in (cfg : settings) (env : environment) (st : loop_state)
  (t t' : trace) (now : Q) :
  first_loop st = true ->
  DRIVER cfg = true ->
  env Q (length t) Now = Ok now ->
  start_login_process cfg env (t ++ [Event Now])%list = (Ok true, t') ->
  first_loop_block cfg env st t = (Ok (Some (polling now 0)), t').
Proof.
  intros Hfirst Hdriver Hnow Hlogin. unfold first_loop_block.
  rewrite Hfirst, Hdriver. cbn [negb]. rewrite run_call, Hnow.
  rewrite (bind_ok _ _ _ _ _ Hlogin). reflexivity.
Qed.

(** The date query never raises: an exception becomes [False]. *)
Lemma get_consulate_appointment_date_run (cfg : settings) (env : environment) (t : trace) :
  get_consulate_appointment_date cfg env t =
    (Ok (match env json (length t) (FetchJson (DATE_URL cfg)) with
         | Ok dates => dates
         | Raise _ => JBool false
         end),
     (t ++ [Event (FetchJson (DATE_URL cfg))])%list).
Proof.
  unfold get_consulate_appointment_date. rewrite run_try, run_last_call.
  destruct (env json (length t) (FetchJson (DATE_URL cfg))); reflexivity.
Qed.

Lemma handle_ban_situation_run (cfg : settings) (env : environment) (t : trace) :
  quiet env ->
  env unit (2 + length t) (DriverGet (SIGN_OUT_LINK cfg)) = Ok tt ->
  handle_ban_situation cfg env t =
    (Ok tt,
     (t ++ [ Event (InfoLogger (ProbablyBanned (BAN_COOLDOWN_TIME cfg)));
             Event (SendNotification "BAN" (ProbablyBanned (BAN_COOLDOWN_TIME cfg)));
             Event (DriverGet (SIGN_OUT_LINK cfg));
             Event (Sleep (BAN_COOLDOWN_TIME cfg * HOUR)) ])%list).
Proof.
  intros Hq Hout. unfold handle_ban_situation.
  steps Hq. simpl in Hout. rewrite Hout. steps Hq.
  rewrite run_last_call, !last_length. hush Hq. flatten_trace. reflexivity.
Qed.

Lemma log_available_dates_run (env : environment) (dates : json) (listed : list string)
  (t : trace) :
  quiet env ->
  logged_dates dates = Ok listed ->
  log_available_dates env dates t =
    (Ok tt, (t ++ [Event (InfoLogger (AvailableDates listed))])%list).
Proof.
  intros Hq Hlisted. unfold log_available_dates, logged_dates in *.
  destruct (iterate dates) as [items|e]; [|discriminate]. simpl in Hlisted.
  destruct (dates_of items) as [values|e] eqn:Hvalues; [|discriminate].
  simpl in Hlisted.
  step. rewrite Hvalues. step. rewrite Hlisted.
  rewrite run_last_call. hush Hq. reflexivity.
Qed.

Lemma handle_break_time_rest (cfg : settings) (env : environment) (elapsed : Q)
  (n : nat) (t : trace) :
  quiet env ->
  Qgtb elapsed (WORK_LIMIT_TIME cfg * HOUR) = true ->
  env unit (3 + length t) (DriverGet (SIGN_OUT_LINK cfg)) = Ok tt ->
  handle_break_time cfg env elapsed n t =
    (Ok true,
     (t ++ [ Event (InfoLogger (WorkingTime (elapsed / MINUTE)));
             Event (InfoLogger (BreakTime (WORK_LIMIT_TIME cfg) n));
             Event (SendNotification "REST" (BreakTime (WORK_LIMIT_TIME cfg) n));
             Event (DriverGet (SIGN_OUT_LINK cfg));
             Event (Sleep (WORK_COOLDOWN_TIME cfg * HOUR)) ])%list).
Proof.
  intros Hq Hover Hout. unfold handle_break_time.
  steps Hq. rewrite Hover. steps Hq. simpl in Hout. rewrite Hout. steps Hq.
  flatten_trace. reflexivity.
Qed.

Lemma handle_break_time_go_on (cfg : settings) (env : environment) (elapsed : Q)
  (n : nat) (t : trace) :
  quiet env ->
  Qgtb elapsed (WORK_LIMIT_TIME cfg * HOUR) = false ->
  handle_break_time cfg env elapsed n t =
    (Ok false, (t ++ [Event (InfoLogger (WorkingTime (elapsed / MINUTE)))])%list).
Proof.
  intros Hq Hunder. unfold handle_break_time.
  steps Hq. rewrite Hunder. reflexivity.
Qed.

Lemma handle_retry_wait_run (cfg : settings) (env : environment) (r : Z) (t : trace) :
  quiet env ->
  env Z (length t) (RandInt (RETRY_TIME_L_BOUND cfg) (RETRY_TIME_U_BOUND cfg)) = Ok r ->
  handle_retry_wait cfg env t =
    (Ok tt,
     (t ++ [ Event (RandInt (RETRY_TIME_L_BOUND cfg) (RETRY_TIME_U_BOUND cfg));
             Event (InfoLogger (RetryWaitTime r));
             Event (Sleep (inject_Z r)) ])%list).
Proof.
  intros Hq Hdraw. unfold handle_retry_wait.
  step. rewrite Hdraw. steps Hq.
  rewrite run_last_call, !last_length. hush Hq. flatten_trace. reflexivity.
Qed.

(** The ban branch, for whatever the date query came to. *)
Lemma ban_branch (cfg : settings) (env : environment) (st : loop_state) (t : trace)
  (reply : result json) :
  quiet env ->
  first_loop st = false ->
  env json (S (length t)) (FetchJson (DATE_URL cfg)) = reply ->
  (forall dates, reply = Ok dates -> truthy dates = false) ->
  env unit (4 + length t) (DriverGet (SIGN_OUT_LINK cfg)) = Ok tt ->
  loop_iteration cfg env st t =
    (Ok (Continue (set_first_loop (count_request st))),
     (t ++ ban_cycle cfg (S (req_count st)))%list).
Proof.
  intros Hq Hpoll Hreply Hfalsy Hout.
  unfold loop_iteration, first_loop_block. rewrite Hpoll. rewrite run_ret.
  cbv zeta.
  assert (Hcycle : polling_cycle cfg env (count_request st) t =
    (Ok (Continue (set_first_loop (count_request st))),
     (t ++ ban_cycle cfg (S (req_count st)))%list)).
  { unfold polling_cycle, log_request_status. steps Hq.
    rewrite (bind_ok _ _ _ _ _ (get_consulate_appointment_date_run cfg env _)).
    rewrite last_length, Hreply.
    assert (Hno : truthy (match reply with Ok dates => dates | Raise _ => JBool false end) = false).
    { destruct reply; [apply Hfalsy|]; reflexivity. }
    rewrite Hno. cbn [negb]. cbv iota.
    erewrite bind_ok; [|apply handle_ban_situation_run; [exact Hq|]].
    - unfold ban_cycle. flatten_trace. reflexivity.
    - rewrite !last_length. exact Hout. }
  rewrite (try_run _ _ _ _ _ Hcycle). reflexivity.
Qed.

Lemma ban_cycle_has_no_linking (cfg : settings) (n : nat) :
  count (is_navigation (APPOINTMENT_URL cfg)) (ban_cycle cfg n) = O.
Proof.
  unfold count, ban_cycle. cbn [filter is_navigation].
  rewrite sign_out_is_not_appointment. reflexivity.
Qed.

(** C4. In the middle of a work cycle ([first_loop] false), when the primary
    date query (the second request of the iteration) returns the empty list
    and the sign-out (the fifth) goes through, the iteration is exactly:
    cycle header, the query, the ban message logged and sent as a BAN
    notification, sign-out, a sleep of [BAN_COOLDOWN_TIME] hours.  The
    appointment page is not opened (no linking), the loop goes on with
    [first_loop] set, and from there behaves like a loop that starts: it
    reads the clock and logs in again, and once logged in it polls with both
    counters at zero. *)
Theorem empty_date_list_is_a_ban :
  forall (cfg : settings) (env : environment) (st : loop_state) (t : trace),
    quiet env ->
    first_loop st = false ->
    env json (S (length t)) (FetchJson (DATE_URL cfg)) = Ok (JList []) ->
    env unit (4 + length t) (DriverGet (SIGN_OUT_LINK cfg)) = Ok tt ->
    loop_iteration cfg env st t =
      (Ok (Continue (set_first_loop (count_request st))),
       (t ++ ban_cycle cfg (S (req_count st)))%list)
    /\ count (is_navigation (APPOINTMENT_URL cfg)) (ban_cycle cfg (S (req_count st))) = O
    /\ first_loop_block cfg env (set_first_loop (count_request st))
       = first_loop_block cfg env initial_state
    /\ (forall (t1 t2 : trace) (now : Q),
          DRIVER cfg = true ->
          env Q (length t1) Now = Ok now ->
          start_login_process cfg env (t1 ++ [Event Now])%list = (Ok true, t2) ->
          first_loop_block cfg env (set_first_loop (count_request st)) t1
          = (Ok (Some (polling now 0)), t2)).
Proof.
  intros cfg env st t Hq Hpoll Hreply Hout. split; [|split; [|split]].
  - apply (ban_branch cfg env st t (Ok (JList []))); auto.
    intros dates [= <-]. reflexivity.
  - apply ban_cycle_has_no_linking.
  - apply first_loop_block_restarts. reflexivity.
  - intros t1 t2 now. apply first_loop_block_logs_in. reflexivity.
Qed.

Lemma empty_date_list_is_a_ban_witness :
  loop_iteration sample (play scenario_empty) (polling 0 3) [] =
    (Ok (Continue (set_first_loop (count_request (polling 0 3)))),
     ([] ++ ban_cycle sample 4)%list)
  /\ count (is_navigation (APPOINTMENT_URL sample)) (ban_cycle sample 4) = O
  /\ first_loop_block sample (play scenario_empty)
       (set_first_loop (count_request (polling 0 3)))
     = first_loop_block sample (play scenario_empty) initial_state
  /\ (forall (t1 t2 : trace) (now : Q),
        DRIVER sample = true ->
        play scenario_empty Q (length t1) Now = Ok now ->
        start_login_process sample (play scenario_empty) (t1 ++ [Event Now])%list
          = (Ok true, t2) ->
        first_loop_block sample (play scenario_empty)
          (set_first_loop (count_request (polling 0 3))) t1
        = (Ok (Some (polling now 0)), t2)).
Proof.
  apply (empty_date_list_is_a_ban sample (play scenario_empty) (polling 0 3) []).
  - intros n. repeat split.
  - reflexivity.
  - reflexivity.
  - reflexivity.
Defined.

(** C9. The ban branch does not tell an empty list from any other falsy
    result of [get_consulate_appointment_date]: whenever the answer to the
    date query is a falsy value (empty list, empty object, [null], [false],
    zero, empty string) or the query raises, which the function turns into
    [False], the iteration is the ban cycle of C4, with the same next state. *)
Theorem falsy_date_result_is_a_ban :
  forall (cfg : settings) (env : environment) (st : loop_state) (t : trace)
    (reply : result json),
    quiet env ->
    first_loop st = false ->
    env json (S (length t)) (FetchJson (DATE_URL cfg)) = reply ->
    match reply with
    | Ok dates => truthy dates = false
    | Raise _ => True
    end ->
    env unit (4 + length t) (DriverGet (SIGN_OUT_LINK cfg)) = Ok tt ->
    fst (get_consulate_appointment_date cfg env
           (t ++ [Event (InfoLogger (RequestStatus (S (req_count st))))])%list)
      = Ok (match reply with Ok dates => dates | Raise _ => JBool false end)
    /\ loop_iteration cfg env st t =
      (Ok (Continue (set_first_loop (count_request st))),
       (t ++ ban_cycle cfg (S (req_count st)))%list).
Proof.
  intros cfg env st t reply Hq Hpoll Hreply Hfalsy Hout. split.
  - rewrite get_consulate_appointment_date_run, last_length, Hreply. reflexivity.
  - apply (ban_branch cfg env st t reply); auto.
    intros dates ->. exact Hfalsy.
Qed.

Lemma falsy_date_result_is_a_ban_witness :
  fst (get_consulate_appointment_date sample (play scenario_offline)
         ([] ++ [Event (InfoLogger (RequestStatus 4))])%list)
    = Ok (JBool false)
  /\ loop_iteration sample (play scenario_offline) (polling 0 3) [] =
    (Ok (Continue (set_first_loop (count_request (polling 0 3)))),
     ([] ++ ban_cycle sample 4)%list).
Proof.
  apply (falsy_date_result_is_a_ban sample (play scenario_offline) (polling 0 3) []
           (Raise (ExternalError "connection refused"))).
  - intros n. repeat split.
  - reflexivity.
  - reflexivity.
  - exact I.
  - reflexivity.
Defined.

(** C7. A cycle of the polling loop in which the date query returned
    something, and either no date of it lies in the period or the reschedule
    of the first such date failed, ends by reading the clock: past
    [WORK_LIMIT_TIME] hours since login the loop logs the break, sends a REST
    notification, signs out, sleeps [WORK_COOLDOWN_TIME] hours and goes on
    with [first_loop] set (login again, counters from zero); otherwise it
    sleeps the number of seconds that [random.randint] drew for the two retry
    bounds and goes on polling.  [t_tried] is the trace when the clock is
    read: after the dates were logged, or after the failed reschedule. *)
Theorem end_of_an_unsuccessful_cycle :
  forall (cfg : settings) (env : environment) (st : loop_state) (t t_tried : trace)
    (dates : json) (listed : list string) (date : option string) (now : Q),
    quiet env ->
    first_loop st = false ->
    env json (S (length t)) (FetchJson (DATE_URL cfg)) = Ok dates ->
    truthy dates = true ->
    logged_dates dates = Ok listed ->
    get_available_date cfg dates = Ok date ->
    match date with
    | Some (String c d) =>
        reschedule cfg env (String c d) (t ++ scan cfg (S (req_count st)) listed)%list
          = (Ok false, t_tried)
    | _ => t_tried = (t ++ scan cfg (S (req_count st)) listed)%list
    end ->
    env Q (length t_tried) Now = Ok now ->
    let elapsed := (now - t0 st)%Q in
    let st' := set_total_time (count_request st) elapsed in
    (Qgtb elapsed (WORK_LIMIT_TIME cfg * HOUR) = true ->
     env unit (4 + length t_tried) (DriverGet (SIGN_OUT_LINK cfg)) = Ok tt ->
     loop_iteration cfg env st t =
       (Ok (Continue (set_first_loop st')),
        (t_tried ++ rest_cooldown cfg elapsed (S (req_count st)))%list)
     /\ forall (t1 t2 : trace) (again : Q),
         DRIVER cfg = true ->
         env Q (length t1) Now = Ok again ->
         start_login_process cfg env (t1 ++ [Event Now])%list = (Ok true, t2) ->
         first_loop_block cfg env (set_first_loop st') t1
         = (Ok (Some (polling again 0)), t2))
    /\
    (Qgtb elapsed (WORK_LIMIT_TIME cfg * HOUR) = false ->
     forall r : Z,
       env Z (2 + length t_tried)
         (RandInt (RETRY_TIME_L_BOUND cfg) (RETRY_TIME_U_BOUND cfg)) = Ok r ->
       loop_iteration cfg env st t =
         (Ok (Continue st'), (t_tried ++ retry_wait cfg elapsed r)%list)
       /\ first_loop st' = false).
Proof.
  intros cfg env st t t_tried dates listed date now
    Hq Hpoll Hreply Htruthy Hlisted Hdate Htried Hnow elapsed st'.
  assert (Hstart : forall k : bool -> M control,
    polling_cycle cfg env (count_request st) t =
    bind (match date with
          | Some (String c d) => reschedule cfg env (String c d)
          | _ => ret false
          end)
         (fun rescheduled : bool =>
            if rescheduled then ret Break
            else
              now <- call env Now ;;
              let st := set_total_time (count_request st) (now - t0 (count_request st)) in
              rest <- handle_break_time cfg env (total_time st) (req_count st) ;;
              if (rest : bool) then ret (Continue (set_first_loop st))
              else handle_retry_wait cfg env ;; ret (Continue st))
         (t ++ scan cfg (S (req_count st)) listed)%list).
  { intros _. unfold polling_cycle, log_request_status. steps Hq.
    rewrite (bind_ok _ _ _ _ _ (get_consulate_appointment_date_run cfg env _)).
    rewrite last_length, Hreply, Htruthy. cbn [negb]. cbv iota.
    rewrite (bind_ok _ _ _ _ _ (log_available_dates_run env dates listed _ Hq Hlisted)).
    rewrite run_lift, Hdate. unfold scan. flatten_trace. reflexivity. }
  specialize (Hstart (fun _ => ret Break)).
  assert (Hmiddle : polling_cycle cfg env (count_request st) t =
    bind (call env Now)
      (fun now =>
         let st := set_total_time (count_request st) (now - t0 (count_request st)) in
         rest <- handle_break_time cfg env (total_time st) (req_count st) ;;
         if (rest : bool) then ret (Continue (set_first_loop st))
         else handle_retry_wait cfg env ;; ret (Continue st)) t_tried).
  { rewrite Hstart. destruct date as [[|c d]|].
    - subst t_tried. reflexivity.
    - rewrite (bind_ok _ _ _ _ _ Htried). reflexivity.
    - subst t_tried. reflexivity. }
  clear Hstart.
  rewrite run_call, Hnow in Hmiddle. cbv zeta in Hmiddle.
  change (t0 (count_request st)) with (t0 st) in Hmiddle.
  fold elapsed in Hmiddle. fold st' in Hmiddle.
  change (total_time st') with elapsed in Hmiddle.
  change (req_count st') with (S (req_count st)) in Hmiddle.
  split.
  - intros Hover Hout.
    split; [|intros t1 t2 again; apply first_loop_block_logs_in; reflexivity].
    assert (Hcycle : polling_cycle cfg env (count_request st) t =
      (Ok (Continue (set_first_loop st')),
       (t_tried ++ rest_cooldown cfg elapsed (S (req_count st)))%list)).
    { rewrite Hmiddle.
      erewrite bind_ok;
        [|apply handle_break_time_rest;
          [exact Hq | exact Hover | rewrite last_length; exact Hout]].
      unfold rest_cooldown. flatten_trace. reflexivity. }
    unfold loop_iteration, first_loop_block. rewrite Hpoll, run_ret. cbv zeta.
    rewrite (try_run _ _ _ _ _ Hcycle). reflexivity.
  - intros Hunder r Hdraw. split; [|exact Hpoll].
    assert (Hcycle : polling_cycle cfg env (count_request st) t =
      (Ok (Continue st'), (t_tried ++ retry_wait cfg elapsed r)%list)).
    { rewrite Hmiddle.
      erewrite bind_ok; [|apply handle_break_time_go_on; [exact Hq | exact Hunder]].
      cbv iota.
      erewrite bind_ok;
        [|apply handle_retry_wait_run; [exact Hq | rewrite !last_length; exact Hdraw]].
      unfold retry_wait. flatten_trace. reflexivity. }
    unfold loop_iteration, first_loop_block. rewrite Hpoll, run_ret. cbv zeta.
    rewrite (try_run _ _ _ _ _ Hcycle). reflexivity.
Qed.

Lemma end_of_an_unsuccessful_cycle_witness :
  (let env := play scenario_rejected in
   let t_tried := snd (reschedule sample env "2024-06-10" ([] ++ scan sample 1 ["2024-06-10"])%list) in
   let elapsed := (inject_Z (Z.of_nat (length t_tried)) - 0)%Q in
   let st' := set_total_time (count_request (polling 0 0)) elapsed in
   loop_iteration sample env (polling 0 0) [] =
     (Ok (Continue st'), (t_tried ++ retry_wait sample elapsed 42)%list)
   /\ first_loop st' = false)
  /\
  (let env := play scenario_out_of_period in
   let t_tried := ([] ++ scan sample 8 ["2024-07-15"])%list in
   let elapsed := (3 - (-6000))%Q in
   let st' := set_total_time (count_request (polling (-6000) 7)) elapsed in
   loop_iteration sample env (polling (-6000) 7) [] =
     (Ok (Continue (set_first_loop st')), (t_tried ++ rest_cooldown sample elapsed 8)%list)
   /\ forall (t1 t2 : trace) (again : Q),
       DRIVER sample = true ->
       env Q (length t1) Now = Ok again ->
       start_login_process sample env (t1 ++ [Event Now])%list = (Ok true, t2) ->
       first_loop_block sample env (set_first_loop st') t1
       = (Ok (Some (polling again 0)), t2)).
Proof.
  split.
  - apply (end_of_an_unsuccessful_cycle sample (play scenario_rejected) (polling 0 0) []
             (snd (reschedule sample (play scenario_rejected) "2024-06-10"
                     ([] ++ scan sample 1 ["2024-06-10"])%list))
             (date_listing [ {| slot_date := "2024-06-10"; business_day := true |} ])
             ["2024-06-10"] (Some "2024-06-10")
             (inject_Z (Z.of_nat (length
                (snd (reschedule sample (play scenario_rejected) "2024-06-10"
                        ([] ++ scan sample 1 ["2024-06-10"])%list)))))).
    + intros n. repeat split.
    + reflexivity.
    + reflexivity.
    + reflexivity.
    + reflexivity.
    + vm_compute. reflexivity.
    + vm_compute. reflexivity.
    + reflexivity.
    + vm_compute. reflexivity.
    + reflexivity.
  - apply (end_of_an_unsuccessful_cycle sample (play scenario_out_of_period)
             (polling (-6000) 7) [] ([] ++ scan sample 8 ["2024-07-15"])%list
             (date_listing [ {| slot_date := "2024-07-15"; business_day := true |} ])
             ["2024-07-15"] None 3%Q).
    + intros n. repeat split.
    + reflexivity.
    + reflexivity.
    + reflexivity.
    + reflexivity.
    + vm_compute. reflexivity.
    + reflexivity.
    + reflexivity.
    + vm_compute. reflexivity.
    + reflexivity.
Defined.

(** The scenario of the specification, from the first iteration on: login,
    one date in the period, 09:00 at the consulate, 2024-06-08 and 10:15 at
    the linked facility, a submission answered with the English success
    phrase: the loop ends at its first iteration, on the SUCCESS
    notification. *)
Example scenario_ends_in_success :
  fst (start_visa_process sample (play scenario) 1 []) = Ok (Some tt) /\
  last (snd (start_visa_process sample (play scenario) 1 [])) (Event Now) =
    Event (SendNotification "SUCCESS"
             (Rescheduled (2024, 6, 10)%Z "09:00" (2024, 6, 8)%Z "10:15")).
Proof. split; vm_compute; reflexivity. Qed.

(** ** Reschedule *)

Lemma prefix_append (p s : string) :
  prefix p s = true <-> exists rest, s = p ++ rest.
Proof.
  revert s. induction p as [|c p IH]; intros s.
  - split; [intros _; exists s; reflexivity | intros _; destruct s; reflexivity].
  - destruct s as [|c' s]; simpl;
      [split; [discriminate | intros [rest H]; discriminate]|].
    destruct (ascii_dec c c') as [<- | Hne].
    + rewrite IH. split; intros [rest H]; exists rest; [rewrite H | injection H]; auto.
    + split; [discriminate | intros [rest H]; injection H as H _; congruence].
Qed.

(** [contains] is the [in] of Python on strings: an occurrence somewhere. *)
Lemma contains_substring (sub text : string) :
  contains sub text = true <-> substring_of sub text.
Proof.
  unfold substring_of. induction text as [|c text IH]; cbn [contains].
  - rewrite orb_false_r, prefix_append. split.
    + intros [rest H]. exists "", rest. exact H.
    + intros [[|c b] [a H]]; [exists a; exact H | discriminate].
  - rewrite orb_true_iff, IH, prefix_append. split.
    + intros [[rest H] | [b [a H]]].
      * exists "", rest. exact H.
      * exists (String c b), a. simpl. rewrite H. reflexivity.
    + intros [[|c' b] [a H]].
      * left. exists a. exact H.
      * right. injection H as _ H. exists b, a. exact H.
Qed.

Lemma has_success_pattern_markers (text : string) :
  has_success_pattern text = true <->
  substring_of "Successfully Scheduled" text \/
  substring_of "Usted ha programado exitosamente su cita de visa" text.
Proof.
  unfold has_success_pattern, SUCCESS_PATTERNS. simpl existsb.
  rewrite orb_false_r, orb_true_iff, !contains_substring. reflexivity.
Qed.

(** What [min] returns had a key. *)
Lemma min_loop_keyed {A} (key : A -> result Z) (rest : list A) :
  forall (best chosen : A) (kbest : Z),
    key best = Ok kbest ->
    min_loop key best kbest rest = Ok chosen ->
    exists k, key chosen = Ok k.
Proof.
  induction rest as [|x rest IH]; intros best chosen kbest Hbest H; simpl in H.
  - injection H as <-. eauto.
  - destruct (key x) as [k|e] eqn:Hk; [|discriminate].
    destruct (k <? kbest)%Z; eauto.
Qed.

(** The time selected reads as a time; in particular it is not empty. *)
Lemma closest_time_not_empty (available_hours : list string) (desired_time chosen : string) :
  closest_time_to_desired_time available_hours desired_time = Ok chosen ->
  chosen <> "".
Proof.
  unfold closest_time_to_desired_time.
  destruct (strptime_HM desired_time) as [target|e]; simpl; [|discriminate].
  destruct available_hours as [|x rest]; simpl; [discriminate|].
  destruct (time_distance target x) as [k|e] eqn:Hk; [|discriminate].
  intros H. destruct (min_loop_keyed _ _ _ _ _ Hk H) as [k' Hk'].
  intros ->. discriminate Hk'.
Qed.

Lemma consulate_time_not_empty (cfg : settings) (env : environment) (date_visa : string)
  (attempts : list nat) :
  forall (t t' : trace) (time : string),
    get_consulate_appointment_time_loop cfg env attempts date_visa t = (Ok (Some time), t') ->
    time <> "".
Proof.
  induction attempts as [|a rest IH]; intros t t' time H; simpl in H.
  - discriminate.
  - rewrite run_try in H.
    destruct (consulate_time_attempt cfg env date_visa t) as [[chosen|e] t1] eqn:Hattempt;
      simpl in H.
    + injection H as <- _.
      unfold consulate_time_attempt in Hattempt. rewrite run_call in Hattempt.
      destruct (env json (length t) (FetchJson (TIME_URL cfg date_visa))) as [data|e];
        [|discriminate].
      rewrite run_lift in Hattempt.
      destruct (dict_get data "available_times") as [times|e]; [|discriminate].
      rewrite run_lift in Hattempt.
      destruct (join_strings times) as [strs|e]; [|discriminate].
      unfold lift in Hattempt.
      injection Hattempt as Hchosen _.
      exact (closest_time_not_empty _ _ _ Hchosen).
    + rewrite run_call in H.
      destruct (env unit (length t1) (InfoLogger (TimeError date_visa e))); [|discriminate].
      rewrite run_call in H.
      destruct (env unit (length (t1 ++ [Event (InfoLogger (TimeError date_visa e))])%list)
                  (Sleep STEP_TIME)); [|discriminate].
      exact (IH _ _ _ H).
Qed.

Lemma cas_time_not_empty (cfg : settings) (env : environment)
  (consulate_date consulate_time cas_date : string) (attempts : list nat) :
  forall (t t' : trace) (time : string),
    get_cas_time_loop cfg env attempts consulate_date consulate_time cas_date t
      = (Ok (Some time), t') ->
    time <> "".
Proof.
  induction attempts as [|a rest IH]; intros t t' time H; simpl in H.
  - discriminate.
  - rewrite run_try in H.
    destruct (cas_time_attempt env (CAS_TIME_URL cfg cas_date consulate_date consulate_time) t)
      as [[[chosen|]|e] t1] eqn:Hattempt; simpl in H.
    + injection H as <- _.
      unfold cas_time_attempt in Hattempt. rewrite run_call in Hattempt.
      destruct (env json (length t)
                  (FetchJson (CAS_TIME_URL cfg cas_date consulate_date consulate_time)))
        as [data|e]; [|discriminate].
      rewrite run_lift in Hattempt.
      destruct (dict_get data "available_times") as [times|e]; [|discriminate].
      destruct (truthy times); [|discriminate].
      rewrite run_lift in Hattempt.
      destruct (join_strings times) as [strs|e]; [|discriminate].
      rewrite run_lift in Hattempt.
      destruct (closest_time_to_desired_time strs DEFAULT_DESIRED_TIME) as [c|e] eqn:Hc;
        [|discriminate].
      injection Hattempt as <- _.
      exact (closest_time_not_empty _ _ _ Hc).
    + rewrite run_call in H.
      destruct (env unit (length t1) (Sleep STEP_TIME)); [|discriminate].
      exact (IH _ _ _ H).
    + rewrite run_call in H.
      destruct (env unit (length t1)
                  (InfoLogger (CasTimeError cas_date consulate_date consulate_time e)));
        [|discriminate].
      rewrite run_call in H.
      destruct (env unit (length (t1 ++ [Event (InfoLogger
                  (CasTimeError cas_date consulate_date consulate_time e))])%list)
                  (Sleep STEP_TIME)); [|discriminate].
      exact (IH _ _ _ H).
Qed.

(** The submission itself: with the page readable and both dates well formed,
    the result is the presence of a success phrase in the answer. *)
Lemma reschedule_request_run (cfg : settings) (env : environment)
  (date time cas_date cas_time : string) (t : trace) (status : Z) (body : string) :
  quiet env ->
  page_ok env ->
  (exists d, strptime_Ymd date = Ok d) ->
  (exists d, strptime_Ymd cas_date = Ok d) ->
  (forall headers data,
      env (Z * string)%type (6 + length t) (Post (APPOINTMENT_URL cfg) headers data)
      = Ok (status, body)) ->
  fst (reschedule_request cfg env date time cas_date cas_time t)
  = Ok (has_success_pattern body).
Proof.
  intros Hq Hpage [d1 Hd1] [d2 Hd2] Hpost. unfold reschedule_request.
  destruct (Hpage (length t)) as [[ua Hua] _].
  destruct (Hpage (1 + length t)%nat) as [_ [[cookie Hcookie] _]].
  destruct (Hpage (2 + length t)%nat) as [_ [_ Hv1]].
  destruct (Hv1 "authenticity_token") as [v1 Hv1'].
  destruct (Hpage (3 + length t)%nat) as [_ [_ Hv2]].
  destruct (Hv2 "confirmed_limit_message") as [v2 Hv2'].
  destruct (Hpage (4 + length t)%nat) as [_ [_ Hv3]].
  destruct (Hv3 "use_consulate_appointment_capacity") as [v3 Hv3'].
  simpl in Hcookie, Hv1', Hv2', Hv3', Hpost.
  step. rewrite Hua. step. rewrite Hcookie. step. rewrite Hv1'. step. rewrite Hv2'.
  step. rewrite Hv3'. cbv zeta. steps Hq. rewrite Hpost. steps Hq.
  rewrite Hd1. step. rewrite Hd2. cbn [snd].
  destruct (has_success_pattern body); unfold _handle_notification; steps Hq; reflexivity.
Qed.

(** C3. Once the three lookups before it have given a time, a linked date
    and a linked time, [reschedule] posts the form, and its result is [True]
    exactly when the body of the answer contains one of the two success
    phrases (the English or the Spanish one); the status code [status] of
    the answer plays no part, a 200 included. *)
Theorem reschedule_result_is_the_marker :
  forall (cfg : settings) (env : environment) (date time cas_date cas_time : string)
    (t t1 t2 t3 : trace) (status : Z) (body : string),
    quiet env ->
    page_ok env ->
    env unit (length t) (DriverGet (APPOINTMENT_URL cfg)) = Ok tt ->
    get_consulate_appointment_time cfg env date
      (t ++ [Event (DriverGet (APPOINTMENT_URL cfg))])%list = (Ok (Some time), t1) ->
    get_cas_date cfg env date time t1 = (Ok (Some cas_date), t2) ->
    get_cas_time cfg env date time cas_date t2 = (Ok (Some cas_time), t3) ->
    (exists d, strptime_Ymd date = Ok d) ->
    (exists d, strptime_Ymd cas_date = Ok d) ->
    (forall headers data,
        env (Z * string)%type (6 + length t3) (Post (APPOINTMENT_URL cfg) headers data)
        = Ok (status, body)) ->
    fst (reschedule cfg env date t) = Ok (has_success_pattern body)
    /\ (has_success_pattern body = true <->
        substring_of "Successfully Scheduled" body \/
        substring_of "Usted ha programado exitosamente su cita de visa" body).
Proof.
  intros cfg env date time cas_date cas_time t t1 t2 t3 status body
    Hq Hpage Hget Htime Hcas_date Hcas_time Hd1 Hd2 Hpost.
  split; [|apply has_success_pattern_markers].
  assert (Htime_ne : time <> "") by exact (consulate_time_not_empty _ _ _ _ _ _ _ Htime).
  assert (Hcas_time_ne : cas_time <> "") by exact (cas_time_not_empty _ _ _ _ _ _ _ _ _ Hcas_time).
  assert (Hcas_date_ne : cas_date <> "").
  { intros ->. destruct Hd2 as [d Hd]. discriminate Hd. }
  unfold reschedule. rewrite run_call, Hget.
  rewrite (bind_ok _ _ _ _ _ Htime).
  destruct time as [|c0 time']; [congruence|].
  rewrite (bind_ok _ _ _ _ _ Hcas_date).
  destruct cas_date as [|c1 cas_date']; [congruence|].
  rewrite (bind_ok _ _ _ _ _ Hcas_time).
  destruct cas_time as [|c2 cas_time']; [congruence|].
  apply (reschedule_request_run cfg env _ _ _ _ t3 status body); assumption.
Qed.

Lemma reschedule_result_is_the_marker_witness :
  (fst (reschedule sample (play scenario) "2024-06-10" []) = Ok true)
  /\ (fst (reschedule sample (play scenario_rejected) "2024-06-10" []) = Ok false).
Proof.
  split.
  - refine (proj1 (reschedule_result_is_the_marker sample (play scenario)
             "2024-06-10" "09:00" "2024-06-08" "10:15" []
             [ Event (DriverGet (APPOINTMENT_URL sample));
               Event (FetchJson (TIME_URL sample "2024-06-10")) ]
             [ Event (DriverGet (APPOINTMENT_URL sample));
               Event (FetchJson (TIME_URL sample "2024-06-10"));
               Event (FetchJson (CAS_DATE_URL sample "2024-06-10" "09:00")) ]
             [ Event (DriverGet (APPOINTMENT_URL sample));
               Event (FetchJson (TIME_URL sample "2024-06-10"));
               Event (FetchJson (CAS_DATE_URL sample "2024-06-10" "09:00"));
               Event (FetchJson (CAS_TIME_URL sample "2024-06-08" "2024-06-10" "09:00")) ]
             200%Z "<html>Successfully Scheduled</html>" _ _ _ _ _ _ _ _ _)).
    + intros n. repeat split.
    + intros n. split; [|split].
      * eexists. reflexivity.
      * eexists. reflexivity.
      * intros name. eexists. reflexivity.
    + reflexivity.
    + vm_compute. reflexivity.
    + vm_compute. reflexivity.
    + vm_compute. reflexivity.
    + eexists. vm_compute. reflexivity.
    + eexists. vm_compute. reflexivity.
    + intros headers data. reflexivity.
  - refine (proj1 (reschedule_result_is_the_marker sample (play scenario_rejected)
             "2024-06-10" "09:00" "2024-06-08" "10:15" []
             [ Event (DriverGet (APPOINTMENT_URL sample));
               Event (FetchJson (TIME_URL sample "2024-06-10")) ]
             [ Event (DriverGet (APPOINTMENT_URL sample));
               Event (FetchJson (TIME_URL sample "2024-06-10"));
               Event (FetchJson (CAS_DATE_URL sample "2024-06-10" "09:00")) ]
             [ Event (DriverGet (APPOINTMENT_URL sample));
               Event (FetchJson (TIME_URL sample "2024-06-10"));
               Event (FetchJson (CAS_DATE_URL sample "2024-06-10" "09:00"));
               Event (FetchJson (CAS_TIME_URL sample "2024-06-08" "2024-06-10" "09:00")) ]
             200%Z "<html>Please sign in</html>" _ _ _ _ _ _ _ _ _)).
    + intros n. repeat split.
    + intros n. split; [|split].
      * eexists. reflexivity.
      * eexists. reflexivity.
      * intros name. eexists. reflexivity.
    + reflexivity.
    + vm_compute. reflexivity.
    + vm_compute. reflexivity.
    + vm_compute. reflexivity.
    + eexists. vm_compute. reflexivity.
    + eexists. vm_compute. reflexivity.
    + intros headers data. reflexivity.
Defined.

(** ** Login *)

Lemma auto_action_visits (cfg : settings) (env : environment)
  (label find_by element_type action value : string) (sleep_time : Q) :
  at_most 0 (is_navigation (SIGN_IN_LINK cfg))
    (auto_action env label find_by element_type action value sleep_time).
Proof.
  unfold auto_action. destruct (find_by_locator find_by) as [by_|]; [|apply at_most_ret].
  apply (at_most_bind 0 0); [apply at_most_other; reflexivity|].
  intros item. apply (at_most_bind 0 0).
  - cbv zeta. destruct (lower action =? "send").
    + apply (at_most_bind 0 0); [apply at_most_other; reflexivity|].
      intros _. apply at_most_ret.
    + destruct (lower action =? "click"); [|apply at_most_ret].
      apply (at_most_bind 0 0); [apply at_most_other; reflexivity|].
      intros _. apply at_most_ret.
  - intros acted. destruct (acted && negb (Qeq_bool sleep_time 0)).
    + apply at_most_other; reflexivity.
    + apply at_most_ret.
Qed.

Lemma handle_notification_visits (cfg : settings) (env : environment)
  (title : string) (msg : message) :
  at_most 0 (is_navigation (SIGN_IN_LINK cfg)) (_handle_notification env title msg).
Proof.
  unfold _handle_notification.
  apply (at_most_bind 0 0); [apply at_most_other; reflexivity|]. intros _.
  apply (at_most_bind 0 0); [apply at_most_other; reflexivity|]. intros _.
  apply at_most_other; reflexivity.
Qed.

(** An attempt asks for the sign-in page once. *)
Lemma login_attempt_visits (cfg : settings) (env : environment) :
  at_most 1 (is_navigation (SIGN_IN_LINK cfg)) (login_attempt cfg env).
Proof.
  unfold login_attempt.
  apply (at_most_bind 1 0).
  { eapply at_most_weaken; [|apply (at_most_call env _ (DriverGet (SIGN_IN_LINK cfg)))].
    destruct (is_navigation _ _); auto. }
  intros _. apply (at_most_bind 0 0); [apply at_most_other; reflexivity|].
  intros _. apply (at_most_bind 0 0); [apply at_most_other; reflexivity|].
  intros _. apply (at_most_bind 0 0); [apply auto_action_visits|].
  intros _. apply (at_most_bind 0 0); [apply auto_action_visits|].
  intros _. apply (at_most_bind 0 0); [apply auto_action_visits|].
  intros _. apply (at_most_bind 0 0); [apply auto_action_visits|].
  intros _. apply (at_most_bind 0 0); [apply auto_action_visits|].
  intros _. apply (at_most_bind 0 0); [apply at_most_other; reflexivity|].
  intros _. apply (at_most_bind 0 0);
    [apply at_most_other; reflexivity|].
  intros _. apply (at_most_bind 0 0);
    [apply at_most_other; reflexivity|].
  intros [|item found]; [apply at_most_ret|].
  apply (at_most_bind 0 0); [apply handle_notification_visits|].
  intros _. apply at_most_ret.
Qed.

(** The loop never runs out of fuel when given what is left of the five
    attempts, and asks for the sign-in page at most that many times. *)
Lemma login_loop_bounded (cfg : settings) (env : environment) (fuel : nat) :
  forall (attempts : nat) (t : trace),
    (REQUEST_ATTEMPTS <= attempts + fuel)%nat ->
    fst (login_loop cfg env fuel attempts t) <> Ok None /\
    exists s, snd (login_loop cfg env fuel attempts t) = (t ++ s)%list /\
              (sign_in_visits cfg s <= REQUEST_ATTEMPTS - attempts)%nat.
Proof.
  induction fuel as [|fuel IH]; intros attempts t Hfuel.
  - cbn [login_loop]. destruct (Nat.ltb_spec attempts REQUEST_ATTEMPTS) as [Hlt|Hge]; [unfold REQUEST_ATTEMPTS in *; lia|].
    split; [discriminate|]. exists []. rewrite app_nil_r. split; [reflexivity|].
    unfold sign_in_visits, count. simpl. unfold REQUEST_ATTEMPTS in *. lia.
  - cbn [login_loop]. destruct (Nat.ltb_spec attempts REQUEST_ATTEMPTS) as [Hlt|Hge].
    + rewrite run_try.
      destruct (login_attempt_visits cfg env t) as [s [Hs Hn]].
      destruct (login_attempt cfg env t) as [[b|e] t1]; simpl in Hs; subst t1; cbn [fst snd].
      * split; [discriminate|]. exists s. split; [reflexivity|].
        unfold sign_in_visits. unfold REQUEST_ATTEMPTS in *. lia.
      * rewrite run_call.
        destruct (env unit (length (t ++ s)%list) (InfoLogger (LoginFailed e))).
        -- rewrite run_call.
           destruct (env unit _ (Sleep STEP_TIME)).
           ++ destruct (IH (S attempts) (((t ++ s) ++ [Event (InfoLogger (LoginFailed e))]) ++
                                         [Event (Sleep STEP_TIME)])%list) as [Hsome [s' [Hs' Hn']]];
                [unfold REQUEST_ATTEMPTS in *; lia|].
              split; [exact Hsome|].
              exists (s ++ [Event (InfoLogger (LoginFailed e)); Event (Sleep STEP_TIME)] ++ s')%list.
              split.
              ** rewrite Hs'. repeat rewrite <- app_assoc. reflexivity.
              ** unfold sign_in_visits in *. rewrite !count_app.
                 change (count (is_navigation (SIGN_IN_LINK cfg))
                           [Event (InfoLogger (LoginFailed e)); Event (Sleep STEP_TIME)]) with O.
                 unfold REQUEST_ATTEMPTS in *. lia.
           ++ cbn [fst snd]. split; [discriminate|].
              exists (s ++ [Event (InfoLogger (LoginFailed e)); Event (Sleep STEP_TIME)])%list.
              split; [repeat rewrite <- app_assoc; reflexivity|].
              unfold sign_in_visits in *. rewrite count_app.
              change (count (is_navigation (SIGN_IN_LINK cfg))
                        [Event (InfoLogger (LoginFailed e)); Event (Sleep STEP_TIME)]) with O.
              unfold REQUEST_ATTEMPTS in *. lia.
        -- cbn [fst snd]. split; [discriminate|].
           exists (s ++ [Event (InfoLogger (LoginFailed e))])%list.
           split; [repeat rewrite <- app_assoc; reflexivity|].
           unfold sign_in_visits in *. rewrite count_app.
           change (count (is_navigation (SIGN_IN_LINK cfg))
                     [Event (InfoLogger (LoginFailed e))]) with O.
           unfold REQUEST_ATTEMPTS in *. lia.
    + split; [discriminate|]. exists []. rewrite app_nil_r. split; [reflexivity|].
      unfold sign_in_visits, count. simpl. unfold REQUEST_ATTEMPTS in *. lia.
Qed.

Lemma browser_get (env : environment) (n : nat) (url : string) :
  browser_ok env -> env unit n (DriverGet url) = Ok tt.
Proof. intros H. apply (H n). Qed.

Lemma browser_wait (env : environment) (n : nat) (name : string) (timeout : Z) :
  browser_ok env -> env unit n (WaitPresence name timeout) = Ok tt.
Proof. intros H. apply (H n). Qed.

Lemma browser_wait_any (env : environment) (n : nat) (xpaths : list string) (timeout : Z) :
  browser_ok env -> env unit n (WaitAnyXPath xpaths timeout) = Ok tt.
Proof. intros H. apply (H n). Qed.

Lemma browser_find (env : environment) (n : nat) (by_ : locator) (value : string) :
  browser_ok env -> exists item, env element n (FindElement by_ value) = Ok item.
Proof. intros H. apply (H n). Qed.

Lemma browser_send (env : environment) (n : nat) (item : element) (value : string) :
  browser_ok env -> env unit n (SendKeys item value) = Ok tt.
Proof. intros H. apply (H n). Qed.

Lemma browser_click (env : environment) (n : nat) (item : element) :
  browser_ok env -> env unit n (Click item) = Ok tt.
Proof. intros H. apply (H n). Qed.

(** A form step on a page that responds: the element is found, acted upon,
    and the pause follows. *)
Lemma auto_action_run (env : environment) (label find_by element_type action value : string)
  (by_ : locator) (t : trace) :
  quiet env ->
  browser_ok env ->
  find_by_locator find_by = Some by_ ->
  exists step_,
    auto_action env label find_by element_type action value STEP_TIME t
      = (Ok tt, (t ++ step_)%list) /\
    (lower action = "send" \/ lower action = "click" -> length step_ = 3%nat) /\
    forall url, count (is_navigation url) step_ = O.
Proof.
  intros Hq Hb Hby. unfold auto_action. rewrite Hby.
  destruct (browser_find env (length t) by_ element_type Hb) as [item Hitem].
  rewrite run_call, Hitem. cbv zeta.
  destruct (lower action =? "send") eqn:Hsend.
  - exists [Event (FindElement by_ element_type); Event (SendKeys item value);
            Event (Sleep STEP_TIME)].
    split; [|split; [reflexivity | reflexivity]].
    step. rewrite (browser_send _ _ _ _ Hb). step. cbn [andb negb].
    change (Qeq_bool STEP_TIME 0) with false. cbn [negb].
    rewrite run_last_call, (quiet_sleep _ _ _ Hq). flatten_trace. reflexivity.
  - destruct (lower action =? "click") eqn:Hclick.
    + exists [Event (FindElement by_ element_type); Event (Click item);
              Event (Sleep STEP_TIME)].
      split; [|split; [reflexivity | reflexivity]].
      step. rewrite (browser_click _ _ _ Hb). step. cbn [andb negb].
      change (Qeq_bool STEP_TIME 0) with false. cbn [negb].
      rewrite run_last_call, (quiet_sleep _ _ _ Hq). flatten_trace. reflexivity.
    + exists [Event (FindElement by_ element_type)].
      split; [step; reflexivity | split; [|reflexivity]].
      apply String.eqb_neq in Hsend, Hclick. intros [H|H]; congruence.
Qed.

(** Run the form step that comes next. *)
Ltac act Hq Hb s H L N :=
  match goal with
  | |- context [bind (auto_action ?env ?l ?f ?et ?a ?v STEP_TIME) ?k ?tr] =>
      destruct (auto_action_run env l f et a v _ tr Hq Hb eq_refl) as [s [H [L N]]];
      rewrite (bind_ok _ _ _ _ _ H)
  end.

(** An attempt on a page that responds and shows the invalid-credentials
    message: twenty requests, then the notification; the attempt returns
    [False]. *)
Lemma login_attempt_wrong_credentials (cfg : settings) (env : environment) (t : trace)
  (item : element) (found : list element) :
  quiet env ->
  browser_ok env ->
  env (list element) (20 + length t) (FindElements By_XPATH (XPATH_WRONG_CREDENTIALS cfg))
    = Ok (item :: found) ->
  exists s,
    login_attempt cfg env t =
      (Ok false, (t ++ s ++ notified "EXCEPTION" WRONG_CREDENTIALS_MESSAGE)%list) /\
    sign_in_visits cfg s = 1%nat.
Proof.
  intros Hq Hb Hfound. unfold login_attempt.
  rewrite run_call, (browser_get _ _ _ Hb).
  rewrite run_call, (quiet_sleep _ _ _ Hq).
  rewrite run_call, (browser_wait _ _ _ _ Hb).
  act Hq Hb s1 H1 L1 N1. act Hq Hb s2 H2 L2 N2. act Hq Hb s3 H3 L3 N3.
  act Hq Hb s4 H4 L4 N4. act Hq Hb s5 H5 L5 N5.
  rewrite run_call, (quiet_sleep _ _ _ Hq).
  rewrite run_call, (browser_wait_any _ _ _ _ Hb).
  rewrite run_call.
  specialize (L1 (or_intror eq_refl)). specialize (L2 (or_introl eq_refl)).
  specialize (L3 (or_introl eq_refl)). specialize (L4 (or_intror eq_refl)).
  specialize (L5 (or_intror eq_refl)).
  replace (length _) with (20 + length t)%nat
    by (repeat rewrite length_app; rewrite L1, L2, L3, L4, L5; simpl; lia).
  rewrite Hfound. unfold _handle_notification. steps Hq.
  exists ([Event (DriverGet (SIGN_IN_LINK cfg)); Event (Sleep STEP_TIME);
           Event (WaitPresence "commit" 30)] ++ s1 ++ s2 ++ s3 ++ s4 ++ s5 ++
          [Event (Sleep STEP_TIME);
           Event (WaitAnyXPath [XPATH_CONTINUE cfg; XPATH_WRONG_CREDENTIALS cfg] 30);
           Event (FindElements By_XPATH (XPATH_WRONG_CREDENTIALS cfg))])%list.
  split.
  - unfold notified. repeat rewrite <- app_assoc. reflexivity.
  - unfold sign_in_visits. rewrite !count_app, N1, N2, N3, N4, N5.
    unfold count. cbn [filter is_navigation]. rewrite String.eqb_refl. reflexivity.
Qed.

(** Five rounds of fuel are enough for [start_login_process]. *)
Lemma start_login_process_fuel_enough (cfg : settings) (env : environment) (t : trace) :
  fst (start_login_process_fuel cfg env REQUEST_ATTEMPTS t) <> Ok None.
Proof.
  unfold start_login_process_fuel, create_logging_file_path_if_does_not_exist.
  rewrite !run_bind, run_try, run_ret.
  apply (login_loop_bounded cfg env REQUEST_ATTEMPTS 0).
  unfold REQUEST_ATTEMPTS. lia.
Qed.

(** What [start_login_process] returns and leaves in the trace, from the loop. *)
Lemma start_login_process_run (cfg : settings) (env : environment) (t : trace) :
  start_login_process cfg env t =
    (let r := login_loop cfg env REQUEST_ATTEMPTS 0 (t ++ [Event MakeLogDirectory])%list in
     match fst r with
     | Ok (Some b) => (Ok b, snd r)
     | Ok None => (Ok false, snd r)
     | Raise e => (Raise e, snd r)
     end).
Proof.
  unfold start_login_process, start_login_process_fuel,
    create_logging_file_path_if_does_not_exist.
  rewrite !run_bind, run_try, run_ret. rewrite run_last_call. cbn [fst snd]. cbv zeta.
  unfold bind.
  destruct (login_loop cfg env REQUEST_ATTEMPTS 0 (t ++ [Event MakeLogDirectory])%list)
    as [[[b|]|e] t1]; reflexivity.
Qed.

Lemma login_loop_retries (cfg : settings) (env : environment) (fuel attempts : nat)
  (t t1 : trace) (e : exn) :
  quiet env ->
  (attempts < REQUEST_ATTEMPTS)%nat ->
  login_attempt cfg env t = (Raise e, t1) ->
  login_loop cfg env (S fuel) attempts t =
  login_loop cfg env fuel (S attempts)
    (t1 ++ [Event (InfoLogger (LoginFailed e)); Event (Sleep STEP_TIME)])%list.
Proof.
  intros Hq Hlt Hattempt. cbn [login_loop].
  apply Nat.ltb_lt in Hlt. rewrite Hlt.
  rewrite (try_run _ _ _ _ _ Hattempt). steps Hq. flatten_trace. reflexivity.
Qed.

Lemma login_loop_stops (cfg : settings) (env : environment) (fuel attempts : nat)
  (t t1 : trace) (b : bool) :
  (attempts < REQUEST_ATTEMPTS)%nat ->
  login_attempt cfg env t = (Ok b, t1) ->
  login_loop cfg env (S fuel) attempts t = (Ok (Some b), t1).
Proof.
  intros Hlt Hattempt. cbn [login_loop].
  apply Nat.ltb_lt in Hlt. rewrite Hlt.
  rewrite (try_run _ _ _ _ _ Hattempt). reflexivity.
Qed.

Lemma login_loop_exhausted (cfg : settings) (env : environment) (fuel : nat) (t : trace) :
  login_loop cfg env fuel REQUEST_ATTEMPTS t = (Ok (Some false), t).
Proof. destruct fuel; reflexivity. Qed.

(** C8.  [start_login_process] asks for the sign-in page at most
    [REQUEST_ATTEMPTS] (5) times, whatever happens.  An attempt that ends on
    the invalid-credentials message logs, speaks and sends the EXCEPTION
    notification and makes the function return [False] at once: that sign-in
    request was the only one, in the first attempt as in a later one.  An
    attempt that raises is logged, followed by a sleep of [STEP_TIME], and the
    loop goes on with one attempt more counted; with five attempts counted
    the loop returns [False]: when each attempt fails at the sign-in page,
    the run is five failed rounds and [False]. *)
Theorem login_attempts_and_their_outcomes :
  (forall (cfg : settings) (env : environment) (t : trace),
      exists s, snd (start_login_process cfg env t) = (t ++ s)%list /\
                (sign_in_visits cfg s <= REQUEST_ATTEMPTS)%nat)
  /\
  (forall (cfg : settings) (env : environment) (t : trace)
      (item : element) (found : list element),
      quiet env ->
      browser_ok env ->
      env (list element) (21 + length t)
        (FindElements By_XPATH (XPATH_WRONG_CREDENTIALS cfg)) = Ok (item :: found) ->
      exists s,
        start_login_process cfg env t =
          (Ok false, (t ++ s ++ notified "EXCEPTION" WRONG_CREDENTIALS_MESSAGE)%list) /\
        sign_in_visits cfg s = 1%nat)
  /\
  (forall (cfg : settings) (env : environment) (fuel attempts : nat) (t : trace)
      (item : element) (found : list element),
      quiet env ->
      browser_ok env ->
      (attempts < REQUEST_ATTEMPTS)%nat ->
      env (list element) (20 + length t)
        (FindElements By_XPATH (XPATH_WRONG_CREDENTIALS cfg)) = Ok (item :: found) ->
      exists s,
        login_loop cfg env (S fuel) attempts t =
          (Ok (Some false), (t ++ s ++ notified "EXCEPTION" WRONG_CREDENTIALS_MESSAGE)%list) /\
        sign_in_visits cfg s = 1%nat)
  /\
  (forall (cfg : settings) (env : environment) (fuel attempts : nat)
      (t t1 : trace) (e : exn),
      quiet env ->
      (attempts < REQUEST_ATTEMPTS)%nat ->
      login_attempt cfg env t = (Raise e, t1) ->
      login_loop cfg env (S fuel) attempts t =
      login_loop cfg env fuel (S attempts)
        (t1 ++ [Event (InfoLogger (LoginFailed e)); Event (Sleep STEP_TIME)])%list)
  /\
  (forall (cfg : settings) (env : environment) (fuel : nat) (t : trace),
      login_loop cfg env fuel REQUEST_ATTEMPTS t = (Ok (Some false), t))
  /\
  (forall (cfg : settings) (env : environment) (t : trace) (e : exn),
      quiet env ->
      (forall n, env unit n (DriverGet (SIGN_IN_LINK cfg)) = Raise e) ->
      start_login_process cfg env t =
        (Ok false,
         (t ++ Event MakeLogDirectory :: rounds REQUEST_ATTEMPTS (failed_login cfg e))%list)).
Proof.
  split; [|split; [|split; [|split; [|split]]]].
  - intros cfg env t. rewrite start_login_process_run. cbv zeta.
    destruct (login_loop_bounded cfg env REQUEST_ATTEMPTS 0 (t ++ [Event MakeLogDirectory])%list)
      as [_ [s [Hs Hn]]]; [unfold REQUEST_ATTEMPTS; lia|].
    exists (Event MakeLogDirectory :: s).
    split.
    + replace (t ++ Event MakeLogDirectory :: s)%list
        with ((t ++ [Event MakeLogDirectory]) ++ s)%list
        by (rewrite <- app_assoc; reflexivity).
      rewrite <- Hs.
      destruct (fst (login_loop cfg env REQUEST_ATTEMPTS 0 (t ++ [Event MakeLogDirectory])%list))
        as [[b|]|e]; reflexivity.
    + unfold sign_in_visits in *. change (Event MakeLogDirectory :: s)
        with ([Event MakeLogDirectory] ++ s)%list. rewrite count_app.
      change (count (is_navigation (SIGN_IN_LINK cfg)) [Event MakeLogDirectory]) with O.
      unfold REQUEST_ATTEMPTS in *. lia.
  - intros cfg env t item found Hq Hb Hfound.
    destruct (login_attempt_wrong_credentials cfg env (t ++ [Event MakeLogDirectory])%list
                item found Hq Hb) as [s [Hrun Hn]].
    { rewrite last_length. exact Hfound. }
    exists (Event MakeLogDirectory :: s). split.
    + rewrite start_login_process_run. cbv zeta.
      unfold REQUEST_ATTEMPTS at 1 2.
      rewrite (login_loop_stops cfg env 4 0 _ _ false (Nat.lt_0_succ 4) Hrun).
      cbn [fst snd]. rewrite <- app_assoc. reflexivity.
    + unfold sign_in_visits in *. change (Event MakeLogDirectory :: s)
        with ([Event MakeLogDirectory] ++ s)%list. rewrite count_app, Hn. reflexivity.
  - intros cfg env fuel attempts t item found Hq Hb Hlt Hfound.
    destruct (login_attempt_wrong_credentials cfg env t item found Hq Hb Hfound)
      as [s [Hrun Hn]].
    exists s. split; [|exact Hn].
    apply (login_loop_stops cfg env fuel attempts _ _ false Hlt Hrun).
  - intros cfg env fuel attempts t t1 e. apply login_loop_retries.
  - intros cfg env fuel t. apply login_loop_exhausted.
  - intros cfg env t e Hq Hdown.
    assert (Hattempt : forall t', login_attempt cfg env t' =
                                  (Raise e, (t' ++ [Event (DriverGet (SIGN_IN_LINK cfg))])%list)).
    { intros t'. unfold login_attempt. rewrite run_call, Hdown. reflexivity. }
    rewrite start_login_process_run. cbv zeta. unfold REQUEST_ATTEMPTS at 1 2.
    repeat (erewrite login_loop_retries;
            [| exact Hq | unfold REQUEST_ATTEMPTS; lia | apply Hattempt]).
    change 5%nat with REQUEST_ATTEMPTS. rewrite login_loop_exhausted. cbn [fst snd].
    unfold rounds, failed_login. repeat rewrite <- app_assoc. reflexivity.
Qed.

Lemma login_attempts_and_their_outcomes_witness :
  (exists s,
      start_login_process sample (play scenario_wrong_password) [] =
        (Ok false, ([] ++ s ++ notified "EXCEPTION" WRONG_CREDENTIALS_MESSAGE)%list) /\
      sign_in_visits sample s = 1%nat)
  /\
  (start_login_process sample (play scenario_no_sign_in) [] =
     (Ok false,
      ([] ++ Event MakeLogDirectory ::
         rounds REQUEST_ATTEMPTS (failed_login sample (ExternalError "timeout")))%list)).
Proof.
  destruct login_attempts_and_their_outcomes as [_ [Hwrong [_ [_ [_ Hdown]]]]].
  split.
  - apply (Hwrong sample (play scenario_wrong_password) [] (Element 7) []).
    + intros n. repeat split.
    + intros n. repeat split. intros by_ value. eexists. reflexivity.
    + reflexivity.
  - apply (Hdown sample (play scenario_no_sign_in) [] (ExternalError "timeout")).
    + intros n. repeat split.
    + intros n. reflexivity.
Defined.

(** * Further properties *)

(** ** Dates and the period *)

Ltac order_facts :=
  repeat match goal with
         | d : day |- _ => destruct d as [[? ?] ?]
         end;
  unfold date_leb in *;
  rewrite ?orb_true_iff, ?andb_true_iff, ?orb_false_iff, ?andb_false_iff,
    ?Z.ltb_lt, ?Z.eqb_eq, ?Z.leb_le, ?Z.ltb_ge, ?Z.eqb_neq, ?Z.leb_gt in *.

Lemma date_leb_refl (a : day) : date_leb a a = true.
Proof. order_facts. lia. Qed.

Lemma date_leb_trans (a b c : day) :
  date_leb a b = true -> date_leb b c = true -> date_leb a c = true.
Proof. order_facts. lia. Qed.

Lemma date_leb_antisym (a b : day) :
  date_leb a b = true -> date_leb b a = true -> a = b.
Proof.
  destruct a as [[y1 m1] d1], b as [[y2 m2] d2]. order_facts. intros H1 H2.
  assert (y1 = y2 /\ m1 = m2 /\ d1 = d2) as [-> [-> ->]] by lia. reflexivity.
Qed.

Lemma date_leb_total (a b : day) : date_leb a b = true \/ date_leb b a = true.
Proof. order_facts. lia. Qed.

(** X1. The period is closed at both ends and is read on the calendar: a
    date equal to one of the bounds is inside (whenever the period is not
    empty), a period whose start lies after its end holds no date, and a date
    inside a period is inside every wider one. *)
Theorem period_is_inclusive :
  forall (date : string) (d start end_ : day),
    strptime_Ymd date = Ok d ->
    (date_leb start end_ = true -> d = start \/ d = end_ ->
     _is_in_period date start end_ = Ok true)
    /\ (date_leb start end_ = false -> _is_in_period date start end_ = Ok false)
    /\ (forall start' end' : day,
           date_leb start' start = true -> date_leb end_ end' = true ->
           _is_in_period date start end_ = Ok true ->
           _is_in_period date start' end' = Ok true).
Proof.
  intros date d start end_ Hd. unfold _is_in_period. rewrite Hd. simpl.
  split; [|split].
  - intros Hwindow [-> | ->]; rewrite date_leb_refl, Hwindow; reflexivity.
  - intros Hempty. f_equal. apply andb_false_iff.
    destruct (date_leb d end_) eqn:Hend; [right | left; reflexivity].
    destruct (date_leb start d) eqn:Hstart; [|reflexivity].
    rewrite (date_leb_trans _ _ _ Hstart Hend) in Hempty. discriminate.
  - intros start' end' Hs He H. injection H as H. apply andb_true_iff in H.
    destruct H as [Hend Hstart]. f_equal. apply andb_true_iff. split.
    + exact (date_leb_trans _ _ _ Hend He).
    + exact (date_leb_trans _ _ _ Hs Hstart).
Qed.

Lemma period_is_inclusive_witness :
  _is_in_period "2024-6-1" (2024, 6, 1)%Z (2024, 6, 30)%Z = Ok true.
Proof.
  refine (proj1 (period_is_inclusive "2024-6-1" (2024, 6, 1)%Z (2024, 6, 1)%Z
                   (2024, 6, 30)%Z _) _ _).
  - reflexivity.
  - reflexivity.
  - left. reflexivity.
Defined.

(** The loop of [get_available_date], read as a search. *)
Lemma first_in_period_found (start end_ : day) (items : list json) (d : string) :
  first_in_period items start end_ = Ok (Some d) <->
  exists before entry after,
    items = (before ++ entry :: after)%list /\
    Forall (out_of_period start end_) before /\
    dict_get entry "date" = Ok (JStr d) /\
    _is_in_period d start end_ = Ok true.
Proof.
  induction items as [|item items IH]; simpl.
  - split; [discriminate|].
    intros (before & entry & after & H & _). destruct before; discriminate.
  - split.
    + destruct (dict_get item "date") as [[| | |s| |]|e] eqn:Hget; simpl; try discriminate.
      destruct (_is_in_period s start end_) as [[|]|e] eqn:Hin; simpl; try discriminate.
      * intros [= <-]. exists [], item, items. repeat split; auto.
      * intros H. apply IH in H. destruct H as (before & entry & after & -> & Hout & He & Hp).
        exists (item :: before), entry, after. repeat split; auto.
        constructor; [exists s; auto | assumption].
    + intros (before & entry & after & Heq & Hout & He & Hp).
      destruct before as [|b before]; simpl in Heq; injection Heq as -> ->.
      * rewrite He. simpl. rewrite Hp. reflexivity.
      * inversion Hout as [|? ? [s [Hs Hs']] Hout']; subst.
        rewrite Hs. simpl. rewrite Hs'. simpl. apply IH.
        exists before, entry, after. repeat split; auto.
Qed.

Lemma first_in_period_none (start end_ : day) (items : list json) :
  first_in_period items start end_ = Ok None <->
  Forall (out_of_period start end_) items.
Proof.
  induction items as [|item items IH]; simpl.
  - split; [constructor | reflexivity].
  - split.
    + destruct (dict_get item "date") as [[| | |s| |]|e] eqn:Hget; simpl; try discriminate.
      destruct (_is_in_period s start end_) as [[|]|e] eqn:Hin; simpl; try discriminate.
      intros H. constructor; [exists s; auto | apply IH; exact H].
    + intros H. inversion H as [|? ? [s [Hs Hs']] Hout']; subst.
      rewrite Hs. simpl. rewrite Hs'. simpl. apply IH. exact Hout'.
Qed.

(** X2. With a well formed period, [get_available_date] returns the date of
    the first entry, in the order received, whose date lies in the period:
    every entry before it carries a date outside the period; entries after it
    are not looked at (their dates may be earlier, or malformed).  It returns
    [None] exactly when every entry carries a date outside the period. *)
Theorem available_date_is_first_in_period :
  forall (cfg : settings) (dates : json) (items : list json) (start end_ : day),
    strptime_Ymd (PRIOD_START cfg) = Ok start ->
    strptime_Ymd (PRIOD_END cfg) = Ok end_ ->
    iterate dates = Ok items ->
    (forall d : string,
        get_available_date cfg dates = Ok (Some d) <->
        exists before entry after,
          items = (before ++ entry :: after)%list /\
          Forall (out_of_period start end_) before /\
          dict_get entry "date" = Ok (JStr d) /\
          _is_in_period d start end_ = Ok true)
    /\ (get_available_date cfg dates = Ok None <->
        Forall (out_of_period start end_) items).
Proof.
  intros cfg dates items start end_ Hstart Hend Hitems.
  unfold get_available_date. rewrite Hstart, Hend, Hitems. simpl.
  split; [intros d; apply first_in_period_found | apply first_in_period_none].
Qed.

Lemma available_date_is_first_in_period_witness :
  get_available_date sample unsorted_listing = Ok (Some "2024-06-20").
Proof.
  apply (proj1 (available_date_is_first_in_period sample unsorted_listing
                  [ slot_json {| slot_date := "2024-07-02"; business_day := true |};
                    slot_json {| slot_date := "2024-06-20"; business_day := false |};
                    slot_json {| slot_date := "2024-06-05"; business_day := true |} ]
                  (2024, 6, 1)%Z (2024, 6, 30)%Z eq_refl eq_refl eq_refl) "2024-06-20").
  exists [ slot_json {| slot_date := "2024-07-02"; business_day := true |} ],
         (slot_json {| slot_date := "2024-06-20"; business_day := false |}),
         [ slot_json {| slot_date := "2024-06-05"; business_day := true |} ].
  split; [reflexivity|]. split; [|split; reflexivity].
  constructor; [|constructor]. exists "2024-07-02". split; reflexivity.
Defined.

(** X3. [get_available_date] reads nothing but the dates of a listing: two
    listings with the same dates in the same order give the same result,
    whatever their [business_day] flags (a date flagged as no business day is
    as eligible as any other). *)
Theorem available_date_ignores_business_day :
  forall (cfg : settings) (slots slots' : list AvailableSlot),
    map slot_date slots = map slot_date slots' ->
    get_available_date cfg (date_listing slots) =
    get_available_date cfg (date_listing slots').
Proof.
  intros cfg slots slots' Hdates. unfold get_available_date.
  destruct (strptime_Ymd (PRIOD_START cfg)) as [start|e]; [|reflexivity].
  destruct (strptime_Ymd (PRIOD_END cfg)) as [end_|e]; [|reflexivity].
  simpl. revert slots' Hdates.
  induction slots as [|s slots IH]; intros [|s' slots'] Hdates;
    try discriminate; [reflexivity|].
  simpl in Hdates. injection Hdates as Hd Hrest.
  cbn [map first_in_period]. unfold slot_json at 1 3.
  change (dict_get (JObject [("date", JStr (slot_date s));
                             ("business_day", JBool (business_day s))]) "date")
    with (Ok (JStr (slot_date s))).
  change (dict_get (JObject [("date", JStr (slot_date s'));
                             ("business_day", JBool (business_day s'))]) "date")
    with (Ok (JStr (slot_date s'))).
  simpl rbind. rewrite Hd.
  destruct (_is_in_period (slot_date s') start end_) as [[|]|e]; simpl; auto.
Qed.

Lemma available_date_ignores_business_day_witness :
  get_available_date sample
    (date_listing [ {| slot_date := "2024-06-20"; business_day := false |} ]) =
  get_available_date sample
    (date_listing [ {| slot_date := "2024-06-20"; business_day := true |} ]).
Proof.
  apply (available_date_ignores_business_day sample
           [ {| slot_date := "2024-06-20"; business_day := false |} ]
           [ {| slot_date := "2024-06-20"; business_day := true |} ]).
  reflexivity.
Defined.

(** ** More on [closest_time_to_desired_time] *)

Lemma in_range_digit (lo hi : nat) (c : ascii) :
  (48 <= lo)%nat ->
  in_range lo hi c = true ->
  (Z.of_nat lo - 48 <= digit c <= Z.of_nat hi - 48)%Z.
Proof.
  unfold in_range, digit. intros Hlo H. apply andb_true_iff in H.
  destruct H as [H1 H2]. apply Nat.leb_le in H1, H2. lia.
Qed.

Lemma two_bounds (lo hi lo' hi' : nat) (s rest : list ascii) (v : Z) :
  (48 <= lo)%nat -> (48 <= lo')%nat ->
  In (v, rest) (two lo hi lo' hi' s) ->
  (10 * (Z.of_nat lo - 48) + (Z.of_nat lo' - 48) <= v
   <= 10 * (Z.of_nat hi - 48) + (Z.of_nat hi' - 48))%Z.
Proof.
  intros Hlo Hlo'. unfold two, when.
  destruct s as [|c1 [|c2 s]]; try contradiction.
  destruct (in_range lo hi c1) eqn:H1; [|contradiction].
  destruct (in_range lo' hi' c2) eqn:H2; [|contradiction].
  cbn [andb In]. intros [Heq | []].
  assert (Hv : v = (10 * digit c1 + digit c2)%Z) by congruence. clear Heq.
  pose proof (in_range_digit _ _ _ Hlo H1). pose proof (in_range_digit _ _ _ Hlo' H2). lia.
Qed.

Lemma one_bounds (lo hi : nat) (s rest : list ascii) (v : Z) :
  (48 <= lo)%nat ->
  In (v, rest) (one lo hi s) ->
  (Z.of_nat lo - 48 <= v <= Z.of_nat hi - 48)%Z.
Proof.
  intros Hlo. unfold one, when. destruct s as [|c1 s]; try contradiction.
  destruct (in_range lo hi c1) eqn:H1; [|contradiction].
  cbn [In]. intros [[= <- _] | []]. exact (in_range_digit _ _ _ Hlo H1).
Qed.

Lemma re_H_bounds (s rest : list ascii) (h : Z) :
  In (h, rest) (re_H s) -> (0 <= h <= 23)%Z.
Proof.
  unfold re_H, alt. intros H.
  apply in_app_or in H. destruct H as [H | H].
  - apply two_bounds in H; simpl in *; lia.
  - apply in_app_or in H. destruct H as [H | H].
    + apply two_bounds in H; simpl in *; lia.
    + apply one_bounds in H; simpl in *; lia.
Qed.

Lemma re_M_bounds (s rest : list ascii) (m : Z) :
  In (m, rest) (re_M s) -> (0 <= m <= 59)%Z.
Proof.
  unfold re_M, alt. intros H.
  apply in_app_or in H. destruct H as [H | H].
  - apply two_bounds in H; simpl in *; lia.
  - apply one_bounds in H; simpl in *; lia.
Qed.

(** A time that [strptime] reads is a time of the day. *)
Lemma strptime_HM_bounds (t : string) (h m : Z) :
  strptime_HM t = Ok (h, m) -> (0 <= h <= 23)%Z /\ (0 <= m <= 59)%Z.
Proof.
  unfold strptime_HM, first_match.
  destruct (seq_m re_H _ (list_ascii_of_string t)) as [|[[h' m'] [|c rest]] l] eqn:Hm;
    try discriminate.
  intros [= -> ->].
  assert (Hin : In ((h, m), []) (seq_m re_H
            (fun h => seq_m (lit ":") (fun _ => seq_m re_M (fun m => pure_m (h, m))))
            (list_ascii_of_string t))) by (rewrite Hm; now left).
  unfold seq_m in Hin. apply in_flat_map in Hin. destruct Hin as [[h1 r1] [Hh Hin]].
  apply in_flat_map in Hin. destruct Hin as [[u r2] [_ Hin]].
  apply in_flat_map in Hin. destruct Hin as [[m1 r3] [Hmin Hin]].
  simpl in Hin. destruct Hin as [[= <- <- _] | []].
  split; [exact (re_H_bounds _ _ _ Hh) | exact (re_M_bounds _ _ _ Hmin)].
Qed.

(** Two times of the day at distance zero are the same time. *)
Lemma same_minutes (a b : Z * Z) :
  (0 <= snd a <= 59)%Z -> (0 <= snd b <= 59)%Z ->
  Z.abs (minutes a - minutes b) = 0%Z -> a = b.
Proof.
  destruct a as [h m], b as [h' m']. unfold minutes. cbn [fst snd]. intros Hm Hm' H.
  assert (h = h' /\ m = m') as [-> ->] by lia. reflexivity.
Qed.

Lemma min_loop_all_keyed {A} (key : A -> result Z) (rest : list A) :
  forall (best chosen : A) (kbest : Z),
    min_loop key best kbest rest = Ok chosen ->
    Forall (fun x => exists k, key x = Ok k) rest.
Proof.
  induction rest as [|x rest IH]; intros best chosen kbest H; [constructor|].
  simpl in H. destruct (key x) as [k|e] eqn:Hk; [|discriminate].
  constructor; [eauto|]. destruct (k <? kbest)%Z; eauto.
Qed.

(** X4. [closest_time_to_desired_time] returns a value exactly when the
    desired time reads as a time, the list is not empty and every candidate
    reads as a time: one malformed candidate anywhere in the list, even after
    the closest one, makes the whole call raise. *)
Theorem closest_time_returns_iff_all_read :
  forall (available_hours : list string) (desired_time : string),
    (exists chosen, closest_time_to_desired_time available_hours desired_time = Ok chosen)
    <->
    (reads_as_time desired_time /\ available_hours <> [] /\
     Forall reads_as_time available_hours).
Proof.
  intros available_hours desired_time. unfold closest_time_to_desired_time, reads_as_time.
  split.
  - intros [chosen H].
    destruct (strptime_HM desired_time) as [target|e]; simpl in H; [|discriminate].
    split; [eauto|].
    destruct available_hours as [|x rest]; simpl in H; [discriminate|].
    split; [discriminate|].
    destruct (time_distance target x) as [k|e] eqn:Hk; [|discriminate].
    assert (Hkeyed : Forall (fun t => exists k, time_distance target t = Ok k) (x :: rest)).
    { constructor; [eauto | exact (min_loop_all_keyed _ _ _ _ _ H)]. }
    eapply Forall_impl; [|exact Hkeyed].
    intros t [k' Hk']. unfold time_distance in Hk'.
    destruct (strptime_HM t) as [hm|e]; [eauto | discriminate].
  - intros [[target Htarget] [Hne Hall]]. rewrite Htarget. simpl.
    assert (Hkeyed : all_keyed (time_distance target) available_hours).
    { eapply Forall_impl; [|exact Hall].
      intros t [hm Hhm]. unfold time_distance. rewrite Hhm. simpl. eauto. }
    destruct (min_by_first_minimum (time_distance target) available_hours Hne Hkeyed)
      as (b & c & a & k & _ & Hmin & _). eauto.
Qed.

Lemma closest_time_returns_iff_all_read_witness :
  exists chosen, closest_time_to_desired_time ["09:00"; "13:00"] "10:00" = Ok chosen.
Proof.
  apply (proj2 (closest_time_returns_iff_all_read ["09:00"; "13:00"] "10:00")).
  split; [eexists; reflexivity|].
  split; [discriminate|].
  repeat constructor; eexists; reflexivity.
Defined.

(** X5. When one of the candidates denotes the desired time, the candidate
    returned denotes it too, and it is the first one that does (09:00 and
    9:00 are the same time). *)
Theorem closest_time_takes_the_desired_time :
  forall (available_hours : list string) (desired_time offered : string) (target : Z * Z),
    strptime_HM desired_time = Ok target ->
    Forall reads_as_time available_hours ->
    In offered available_hours ->
    strptime_HM offered = Ok target ->
    exists before chosen after,
      available_hours = (before ++ chosen :: after)%list /\
      closest_time_to_desired_time available_hours desired_time = Ok chosen /\
      strptime_HM chosen = Ok target /\
      Forall (fun t => strptime_HM t <> Ok target) before.
Proof.
  intros available_hours desired_time offered target Htarget Hall Hin Hoffered.
  assert (Hne : available_hours <> []) by (intros ->; contradiction).
  assert (Hkeyed : all_keyed (time_distance target) available_hours).
  { eapply Forall_impl; [|exact Hall].
    intros t [hm Hhm]. unfold time_distance. rewrite Hhm. simpl. eauto. }
  destruct (min_by_first_minimum (time_distance target) available_hours Hne Hkeyed)
    as (b & c & a & k & Heq & Hmin & Hc & Hb & Ha).
  assert (Hzero : time_distance target offered = Ok 0%Z).
  { unfold time_distance. rewrite Hoffered. simpl. f_equal. lia. }
  assert (Hk0 : (0 <= k)%Z).
  { unfold time_distance in Hc. destruct (strptime_HM c); [|discriminate].
    simpl in Hc. injection Hc as <-. lia. }
  assert (Hk : k = 0%Z).
  { subst available_hours. apply in_app_or in Hin. destruct Hin as [Hin | [<- | Hin]].
    - unfold all_farther in Hb. rewrite Forall_forall in Hb.
      destruct (Hb _ Hin) as [k' [Hk' Hlt]]. rewrite Hzero in Hk'. injection Hk' as <-. lia.
    - rewrite Hzero in Hc. injection Hc as <-. reflexivity.
    - unfold none_closer in Ha. rewrite Forall_forall in Ha.
      destruct (Ha _ Hin) as [k' [Hk' Hle]]. rewrite Hzero in Hk'. injection Hk' as <-. lia. }
  subst k. exists b, c, a. split; [exact Heq|]. split.
  { unfold closest_time_to_desired_time. rewrite Htarget. exact Hmin. }
  destruct target as [H M].
  destruct (strptime_HM_bounds _ _ _ Htarget) as [_ HM].
  split.
  - unfold time_distance in Hc. destruct (strptime_HM c) as [[h m]|e] eqn:Hhm; [|discriminate].
    simpl in Hc. injection Hc as Hc.
    destruct (strptime_HM_bounds _ _ _ Hhm) as [_ Hm].
    f_equal. apply same_minutes; auto.
  - unfold all_farther in Hb. eapply Forall_impl; [|exact Hb].
    intros t [k' [Hk' Hlt]] Ht. unfold time_distance in Hk'. rewrite Ht in Hk'.
    simpl in Hk'. injection Hk' as <-. lia.
Qed.

Lemma closest_time_takes_the_desired_time_witness :
  exists before chosen after,
    ["08:15"; "9:30"; "09:30"; "11:00"] = (before ++ chosen :: after)%list /\
    closest_time_to_desired_time ["08:15"; "9:30"; "09:30"; "11:00"] "09:30" = Ok chosen /\
    strptime_HM chosen = Ok (9, 30)%Z /\
    Forall (fun t => strptime_HM t <> Ok (9, 30)%Z) before.
Proof.
  apply (closest_time_takes_the_desired_time
           ["08:15"; "9:30"; "09:30"; "11:00"] "09:30" "09:30" (9, 30)%Z).
  - reflexivity.
  - repeat constructor; eexists; reflexivity.
  - right. right. left. reflexivity.
  - reflexivity.
Defined.

(** ** The success test *)

Lemma substring_of_context (sub text before after : string) :
  substring_of sub text -> substring_of sub (before ++ text ++ after).
Proof.
  intros [b [a ->]]. exists (before ++ b), (a ++ after).
  induction before as [|c before IH]; simpl.
  - induction b as [|c b IHb]; simpl; [|rewrite IHb; reflexivity].
    induction sub as [|c sub IHs]; simpl; [|rewrite IHs; reflexivity].
    reflexivity.
  - rewrite IH. reflexivity.
Qed.

(** X6. The success test looks for the phrases anywhere in the text: once a
    text passes, every text that contains it passes (what stands before and
    after the phrase does not matter). *)
Theorem success_pattern_survives_context :
  forall text before after : string,
    has_success_pattern text = true ->
    has_success_pattern (before ++ text ++ after) = true.
Proof.
  intros text before after H.
  apply has_success_pattern_markers in H. apply has_success_pattern_markers.
  destruct H as [H | H]; [left | right]; apply substring_of_context; exact H.
Qed.

Lemma success_pattern_survives_context_witness :
  has_success_pattern ("<p>" ++ "Successfully Scheduled" ++ " - not really</p>") = true.
Proof.
  apply (success_pattern_survives_context "Successfully Scheduled" "<p>" " - not really</p>").
  reflexivity.
Defined.

(** ** More on the slot queries *)

Lemma join_strings_times (times : list string) :
  join_strings (JList (map JStr times)) = Ok times.
Proof. unfold join_strings. simpl. apply all_str_map. Qed.

Lemma truthy_times (times : list string) :
  truthy (JList (map JStr times)) = match times with [] => false | _ => true end.
Proof. destruct times; reflexivity. Qed.

Lemma get_consulate_appointment_time_loop_sound (cfg : settings) (env : environment)
  (date_visa : string) (attempts : list nat) :
  forall (t t' : trace) (time : string),
    get_consulate_appointment_time_loop cfg env attempts date_visa t = (Ok (Some time), t') ->
    exists (n : nat) (data available_times : json) (times : list string),
      env json n (FetchJson (TIME_URL cfg date_visa)) = Ok data /\
      dict_get data "available_times" = Ok available_times /\
      join_strings available_times = Ok times /\
      closest_time_to_desired_time times DEFAULT_DESIRED_TIME = Ok time.
Proof.
  induction attempts as [|a rest IH]; intros t t' time H; simpl in H.
  - discriminate.
  - rewrite run_try in H.
    destruct (consulate_time_attempt cfg env date_visa t) as [[chosen|e] t1] eqn:Hattempt;
      simpl in H.
    + injection H as <- _.
      unfold consulate_time_attempt in Hattempt. rewrite run_call in Hattempt.
      destruct (env json (length t) (FetchJson (TIME_URL cfg date_visa))) as [data|e] eqn:Hreply;
        [|discriminate].
      rewrite run_lift in Hattempt.
      destruct (dict_get data "available_times") as [available_times|e] eqn:Hget;
        [|discriminate].
      rewrite run_lift in Hattempt.
      destruct (join_strings available_times) as [times|e] eqn:Hjoin; [|discriminate].
      unfold lift in Hattempt. injection Hattempt as Hchosen _.
      exists (length t), data, available_times, times. auto.
    + rewrite run_call in H.
      destruct (env unit (length t1) (InfoLogger (TimeError date_visa e))); [|discriminate].
      rewrite run_call in H.
      destruct (env unit _ (Sleep STEP_TIME)); [|discriminate].
      exact (IH _ _ _ H).
Qed.

(** X7. The primary time query is [closest_time_to_desired_time] with its
    default target, 10:00, applied to an answer of the service: a time that
    [get_consulate_appointment_time] returns was selected that way from the
    [available_times] of an answer to this very query; and when the next
    answer is a listing from which a time can be selected, that time is
    returned at once, with no log entry and no pause. *)
Theorem consulate_time_is_closest_to_ten :
  (forall (cfg : settings) (env : environment) (date_visa : string)
      (t t' : trace) (time : string),
      get_consulate_appointment_time cfg env date_visa t = (Ok (Some time), t') ->
      exists (n : nat) (data available_times : json) (times : list string),
        env json n (FetchJson (TIME_URL cfg date_visa)) = Ok data /\
        dict_get data "available_times" = Ok available_times /\
        join_strings available_times = Ok times /\
        closest_time_to_desired_time times "10:00" = Ok time)
  /\
  (forall (cfg : settings) (env : environment) (date_visa : string) (t : trace)
      (times : list string) (time : string),
      env json (length t) (FetchJson (TIME_URL cfg date_visa)) = Ok (time_listing times) ->
      closest_time_to_desired_time times "10:00" = Ok time ->
      get_consulate_appointment_time cfg env date_visa t =
        (Ok (Some time), (t ++ [Event (FetchJson (TIME_URL cfg date_visa))])%list)).
Proof.
  split.
  - intros cfg env date_visa t t' time.
    apply (get_consulate_appointment_time_loop_sound cfg env date_visa attempts_range).
  - intros cfg env date_visa t times time Hreply Hclosest.
    unfold get_consulate_appointment_time, attempts_range.
    cbn [seq get_consulate_appointment_time_loop REQUEST_ATTEMPTS].
    assert (Hattempt : consulate_time_attempt cfg env date_visa t =
                       (Ok time, (t ++ [Event (FetchJson (TIME_URL cfg date_visa))])%list)).
    { unfold consulate_time_attempt. rewrite run_call, Hreply.
      rewrite run_lift. change (dict_get (time_listing times) "available_times")
        with (Ok (JList (map JStr times))). cbv iota.
      rewrite run_lift, join_strings_times.
      unfold lift. unfold DEFAULT_DESIRED_TIME. rewrite Hclosest. reflexivity. }
    rewrite (try_run _ _ _ _ _ Hattempt). reflexivity.
Qed.

Lemma consulate_time_is_closest_to_ten_witness :
  get_consulate_appointment_time sample (play scenario) "2024-06-10" [] =
    (Ok (Some "09:00"), ([] ++ [Event (FetchJson (TIME_URL sample "2024-06-10"))])%list).
Proof.
  apply (proj2 consulate_time_is_closest_to_ten sample (play scenario) "2024-06-10" []
           ["09:00"; "13:00"] "09:00").
  - reflexivity.
  - reflexivity.
Defined.

Lemma get_cas_time_loop_sound (cfg : settings) (env : environment)
  (consulate_date consulate_time cas_date : string) (attempts : list nat) :
  forall (t t' : trace) (time : string),
    get_cas_time_loop cfg env attempts consulate_date consulate_time cas_date t
      = (Ok (Some time), t') ->
    exists (n : nat) (data available_times : json) (times : list string),
      env json n (FetchJson (CAS_TIME_URL cfg cas_date consulate_date consulate_time))
        = Ok data /\
      dict_get data "available_times" = Ok available_times /\
      truthy available_times = true /\
      join_strings available_times = Ok times /\
      closest_time_to_desired_time times DEFAULT_DESIRED_TIME = Ok time.
Proof.
  induction attempts as [|a rest IH]; intros t t' time H; simpl in H.
  - discriminate.
  - rewrite run_try in H.
    destruct (cas_time_attempt env (CAS_TIME_URL cfg cas_date consulate_date consulate_time) t)
      as [[[chosen|]|e] t1] eqn:Hattempt; simpl in H.
    + injection H as <- _.
      unfold cas_time_attempt in Hattempt. rewrite run_call in Hattempt.
      destruct (env json (length t)
                  (FetchJson (CAS_TIME_URL cfg cas_date consulate_date consulate_time)))
        as [data|e] eqn:Hreply; [|discriminate].
      rewrite run_lift in Hattempt.
      destruct (dict_get data "available_times") as [available_times|e] eqn:Hget;
        [|discriminate].
      destruct (truthy available_times) eqn:Htruthy; [|discriminate].
      rewrite run_lift in Hattempt.
      destruct (join_strings available_times) as [times|e] eqn:Hjoin; [|discriminate].
      rewrite run_lift in Hattempt.
      destruct (closest_time_to_desired_time times DEFAULT_DESIRED_TIME) as [c|e] eqn:Hc;
        [|discriminate].
      injection Hattempt as <- _.
      exists (length t), data, available_times, times. auto.
    + rewrite run_call in H.
      destruct (env unit (length t1) (Sleep STEP_TIME)); [|discriminate].
      exact (IH _ _ _ H).
    + rewrite run_call in H.
      destruct (env unit (length t1)
                  (InfoLogger (CasTimeError cas_date consulate_date consulate_time e)));
        [|discriminate].
      rewrite run_call in H.
      destruct (env unit _ (Sleep STEP_TIME)); [|discriminate].
      exact (IH _ _ _ H).
Qed.

(** X8. The secondary time query selects the same way, from a listing it
    has first found not empty: a time that [get_cas_time] returns is the one
    closest to 10:00 among the [available_times], not empty, of an answer to
    this very query; and when the next answer is a listing from which a time
    can be selected, that time is returned at once. *)
Theorem cas_time_is_closest_to_ten :
  (forall (cfg : settings) (env : environment)
      (consulate_date consulate_time cas_date : string) (t t' : trace) (time : string),
      get_cas_time cfg env consulate_date consulate_time cas_date t = (Ok (Some time), t') ->
      exists (n : nat) (data available_times : json) (times : list string),
        env json n (FetchJson (CAS_TIME_URL cfg cas_date consulate_date consulate_time))
          = Ok data /\
        dict_get data "available_times" = Ok available_times /\
        truthy available_times = true /\
        join_strings available_times = Ok times /\
        closest_time_to_desired_time times "10:00" = Ok time)
  /\
  (forall (cfg : settings) (env : environment)
      (consulate_date consulate_time cas_date : string) (t : trace)
      (times : list string) (time : string),
      env json (length t) (FetchJson (CAS_TIME_URL cfg cas_date consulate_date consulate_time))
        = Ok (time_listing times) ->
      closest_time_to_desired_time times "10:00" = Ok time ->
      get_cas_time cfg env consulate_date consulate_time cas_date t =
        (Ok (Some time),
         (t ++ [Event (FetchJson
                         (CAS_TIME_URL cfg cas_date consulate_date consulate_time))])%list)).
Proof.
  split.
  - intros cfg env cd ct cas t t' time.
    apply (get_cas_time_loop_sound cfg env cd ct cas attempts_range).
  - intros cfg env cd ct cas t times time Hreply Htime.
    unfold get_cas_time, attempts_range.
    cbn [seq get_cas_time_loop REQUEST_ATTEMPTS].
    assert (Hattempt : cas_time_attempt env (CAS_TIME_URL cfg cas cd ct) t =
                       (Ok (Some time),
                        (t ++ [Event (FetchJson (CAS_TIME_URL cfg cas cd ct))])%list)).
    { unfold cas_time_attempt. rewrite run_call, Hreply.
      rewrite run_lift. change (dict_get (time_listing times) "available_times")
        with (Ok (JList (map JStr times))). cbv iota.
      rewrite truthy_times. destruct times as [|x times]; [discriminate Htime|].
      rewrite run_lift, join_strings_times. rewrite run_lift.
      unfold DEFAULT_DESIRED_TIME. rewrite Htime. reflexivity. }
    rewrite (try_run _ _ _ _ _ Hattempt). reflexivity.
Qed.

Lemma cas_time_is_closest_to_ten_witness :
  get_cas_time sample (play scenario) "2024-06-10" "09:00" "2024-06-08" [] =
    (Ok (Some "10:15"),
     ([] ++ [Event (FetchJson
                      (CAS_TIME_URL sample "2024-06-08" "2024-06-10" "09:00"))])%list).
Proof.
  apply (proj2 cas_time_is_closest_to_ten sample (play scenario)
           "2024-06-10" "09:00" "2024-06-08" [] ["08:00"; "10:15"] "10:15").
  - reflexivity.
  - reflexivity.
Defined.

(** ** More on [reschedule] *)

(** A run that returned went through both parts of a sequence. *)
Lemma bind_inv {A B} (m : M A) (k : A -> M B) (t t' : trace) (b : B) :
  bind m k t = (Ok b, t') ->
  exists a t1, m t = (Ok a, t1) /\ k a t1 = (Ok b, t').
Proof. unfold bind. destruct (m t) as [[a|e] t1]; intros H; [eauto | discriminate]. Qed.

Lemma call_inv {A} (env : environment) (request : eff A) (t t' : trace) (a : A) :
  call env request t = (Ok a, t') ->
  env A (length t) request = Ok a /\ t' = (t ++ [Event request])%list.
Proof. unfold call. intros H. injection H as H1 H2. auto. Qed.

Lemma then_false {A} (m : M A) (t t' : trace) :
  (m ;; ret false) t <> (Ok true, t').
Proof. unfold bind, ret. destruct (m t) as [[a|e] t1]; intros H; discriminate. Qed.

Lemma at_most_run {A} (n : nat) (test : event -> bool) (m : M A) (t t' : trace)
  (r : result A) :
  at_most n test m -> m t = (r, t') ->
  exists s, t' = (t ++ s)%list /\ (count test s <= n)%nat.
Proof.
  intros Hm Hrun. destruct (Hm t) as [s [Hs Hn]]. rewrite Hrun in Hs. simpl in Hs.
  exists s. auto.
Qed.

(** Parts of the program that add nothing that passes the test. *)
Ltac silent :=
  repeat first
    [ apply at_most_ret
    | apply at_most_lift
    | apply at_most_try
    | apply at_most_other; reflexivity
    | apply (at_most_bind 0 0); [|intros ?] ].

(** The same across the branches of a test. *)
Ltac silent_cases :=
  repeat (silent;
          match goal with
          | |- at_most _ _ (match ?x with _ => _ end) => destruct x
          end);
  silent.

Lemma handle_notification_posts (env : environment) (title : string) (msg : message) :
  at_most 0 is_post (_handle_notification env title msg).
Proof. unfold _handle_notification. silent. Qed.

Lemma get_consulate_appointment_time_posts (cfg : settings) (env : environment)
  (date_visa : string) :
  at_most 0 is_post (get_consulate_appointment_time cfg env date_visa).
Proof.
  unfold get_consulate_appointment_time.
  induction attempts_range as [|a rest IH]; [apply at_most_ret|].
  cbn [get_consulate_appointment_time_loop].
  apply (at_most_bind 0 0).
  - unfold consulate_time_attempt. silent.
  - intros [time|e]; silent. exact IH.
Qed.

Lemma get_cas_date_posts (cfg : settings) (env : environment)
  (consulate_date consulate_time : string) :
  at_most 0 is_post (get_cas_date cfg env consulate_date consulate_time).
Proof.
  unfold get_cas_date.
  induction attempts_range as [|a rest IH]; [apply at_most_ret|].
  cbn [get_cas_date_loop].
  apply (at_most_bind 0 0).
  - unfold cas_date_attempt. silent_cases.
  - intros [[cas_date|]|e]; silent; exact IH.
Qed.

Lemma get_cas_time_posts (cfg : settings) (env : environment)
  (consulate_date consulate_time cas_date : string) :
  at_most 0 is_post (get_cas_time cfg env consulate_date consulate_time cas_date).
Proof.
  unfold get_cas_time.
  induction attempts_range as [|a rest IH]; [apply at_most_ret|].
  cbn [get_cas_time_loop].
  apply (at_most_bind 0 0).
  - unfold cas_time_attempt. silent_cases.
  - intros [[cas_time|]|e]; silent; exact IH.
Qed.

Lemma reschedule_request_posts (cfg : settings) (env : environment)
  (date time cas_date cas_time : string) :
  at_most 1 is_post (reschedule_request cfg env date time cas_date cas_time).
Proof.
  unfold reschedule_request.
  repeat (cbv zeta; apply (at_most_bind 0 1); [apply at_most_other; reflexivity|]; intros ?).
  apply (at_most_bind 1 0); [apply (at_most_call env is_post (Post _ _ _))|]. intros r.
  unfold _handle_notification. silent_cases.
Qed.

(** X9. Whatever the service, the browser and the other sinks answer,
    [reschedule] only adds to the record of what was asked, and submits the
    form at most once: a failed lookup, a failed submission or a refusal is
    never followed by a second submission. *)
Theorem reschedule_posts_at_most_once :
  forall (cfg : settings) (env : environment) (date : string),
    at_most 1 is_post (reschedule cfg env date).
Proof.
  intros cfg env date. unfold reschedule.
  apply (at_most_bind 0 1); [apply at_most_other; reflexivity|]. intros _.
  apply (at_most_bind 0 1); [apply get_consulate_appointment_time_posts|].
  intros [[|c0 time']|];
    try (eapply at_most_weaken;
         [|apply (at_most_bind 0 0);
           [apply handle_notification_posts | intros; apply at_most_ret]]; lia).
  cbv zeta. apply (at_most_bind 0 1); [apply get_cas_date_posts|].
  intros [[|c1 cas_date']|];
    try (eapply at_most_weaken;
         [|apply (at_most_bind 0 0);
           [apply handle_notification_posts | intros; apply at_most_ret]]; lia).
  cbv zeta. apply (at_most_bind 0 1); [apply get_cas_time_posts|].
  intros [[|c2 cas_time']|];
    try (eapply at_most_weaken;
         [|apply (at_most_bind 0 0);
           [apply handle_notification_posts | intros; apply at_most_ret]]; lia).
  apply reschedule_request_posts.
Qed.

(** X10. [reschedule] returns [True] only at the end of a run in which the
    three lookups gave a time, a linked date and a linked time, the form
    filled with them and with the date asked for was submitted (once), the
    body of the answer carried a success phrase, both dates read as dates,
    and the success was logged, spoken and notified, in this order, each
    without raising. *)
Theorem reschedule_returns_true_only_on_success :
  forall (cfg : settings) (env : environment) (date : string) (t t' : trace),
    reschedule cfg env date t = (Ok true, t') ->
    exists (lookups : trace) (user_agent cookie : string)
           (token limit capacity : option string)
           (time cas_date cas_time : string) (reply : Z * string) (d cas_d : day),
      t' = (t ++ lookups
              ++ submission cfg user_agent cookie token limit capacity
                   date time cas_date cas_time reply
              ++ notified "SUCCESS" (Rescheduled d time cas_d cas_time))%list /\
      count is_post lookups = 0%nat /\
      env (Z * string)%type (6 + length (t ++ lookups))
        (Post (APPOINTMENT_URL cfg) (reschedule_headers cfg user_agent cookie)
           (reschedule_form cfg token limit capacity date time cas_date cas_time))
        = Ok reply /\
      has_success_pattern (snd reply) = true /\
      strptime_Ymd date = Ok d /\
      strptime_Ymd cas_date = Ok cas_d.
Proof.
  intros cfg env date t t' H. unfold reschedule in H.
  apply bind_inv in H as (u & t0 & Hget & H). apply call_inv in Hget as [Hget ->].
  apply bind_inv in H as (time & t1 & Htime & H).
  destruct (at_most_run _ _ _ _ _ _ (get_consulate_appointment_time_posts cfg env date) Htime)
    as (s1 & -> & Hs1).
  destruct time as [[|c0 time']|]; try (exfalso; exact (then_false _ _ _ H)).
  cbv beta iota zeta in H.
  apply bind_inv in H as (cas_date & t2 & Hcas_date & H).
  destruct (at_most_run _ _ _ _ _ _ (get_cas_date_posts cfg env _ _) Hcas_date)
    as (s2 & -> & Hs2).
  destruct cas_date as [[|c1 cas_date']|]; try (exfalso; exact (then_false _ _ _ H)).
  cbv beta iota zeta in H.
  apply bind_inv in H as (cas_time & t3 & Hcas_time & H).
  destruct (at_most_run _ _ _ _ _ _ (get_cas_time_posts cfg env _ _ _) Hcas_time)
    as (s3 & -> & Hs3).
  destruct cas_time as [[|c2 cas_time']|]; try (exfalso; exact (then_false _ _ _ H)).
  cbv beta iota zeta in H. unfold reschedule_request in H.
  apply bind_inv in H as (user_agent & ? & Hc & H). apply call_inv in Hc as [_ ->].
  apply bind_inv in H as (cookie & ? & Hc & H). apply call_inv in Hc as [_ ->].
  cbv beta iota zeta in H.
  apply bind_inv in H as (token & ? & Hc & H). apply call_inv in Hc as [_ ->].
  apply bind_inv in H as (limit & ? & Hc & H). apply call_inv in Hc as [_ ->].
  apply bind_inv in H as (capacity & ? & Hc & H). apply call_inv in Hc as [_ ->].
  cbv beta iota zeta in H.
  apply bind_inv in H as (? & ? & Hc & H). apply call_inv in Hc as [_ ->].
  apply bind_inv in H as (reply & ? & Hpost & H). apply call_inv in Hpost as [Hpost ->].
  apply bind_inv in H as (? & ? & Hc & H). apply call_inv in Hc as [_ ->].
  apply bind_inv in H as (d & ? & Hd & H). unfold lift in Hd. injection Hd as Hd <-.
  apply bind_inv in H as (cas_d & ? & Hcd & H). unfold lift in Hcd. injection Hcd as Hcd <-.
  destruct (has_success_pattern (snd reply)) eqn:Hsuccess;
    [|exfalso; exact (then_false _ _ _ H)].
  apply bind_inv in H as (? & tn & Hn & H). unfold ret in H. injection H as <-.
  unfold _handle_notification in Hn.
  apply bind_inv in Hn as (? & ? & Hc & Hn). apply call_inv in Hc as [_ ->].
  apply bind_inv in Hn as (? & ? & Hc & Hn). apply call_inv in Hc as [_ ->].
  apply call_inv in Hn as [_ ->].
  exists ([Event (DriverGet (APPOINTMENT_URL cfg))] ++ s1 ++ s2 ++ s3)%list,
    user_agent, cookie, token, limit, capacity,
    (String c0 time'), (String c1 cas_date'), (String c2 cas_time'), reply, d, cas_d.
  split; [|split; [|split; [|split; [|split]]]]; try assumption.
  - unfold submission, notified. repeat rewrite <- app_assoc. reflexivity.
  - rewrite !count_app. unfold count at 1. cbn [filter is_post length]. lia.
  - rewrite <- Hpost. f_equal. repeat rewrite length_app. cbn [length]. lia.
Qed.

Lemma reschedule_returns_true_only_on_success_witness :
  exists (lookups : trace) (user_agent cookie : string)
         (token limit capacity : option string)
         (time cas_date cas_time : string) (reply : Z * string) (d cas_d : day),
    snd (reschedule sample (play scenario) "2024-06-10" []) =
      ([] ++ lookups
          ++ submission sample user_agent cookie token limit capacity
               "2024-06-10" time cas_date cas_time reply
          ++ notified "SUCCESS" (Rescheduled d time cas_d cas_time))%list /\
    count is_post lookups = 0%nat /\
    play scenario (Z * string)%type (6 + length ([] ++ lookups)%list)
      (Post (APPOINTMENT_URL sample) (reschedule_headers sample user_agent cookie)
         (reschedule_form sample token limit capacity "2024-06-10" time cas_date cas_time))
      = Ok reply /\
    has_success_pattern (snd reply) = true /\
    strptime_Ymd "2024-06-10" = Ok d /\
    strptime_Ymd cas_date = Ok cas_d.
Proof.
  apply (reschedule_returns_true_only_on_success sample (play scenario) "2024-06-10" []).
  vm_compute. reflexivity.
Defined.

Lemma handle_notification_run (env : environment) (title : string) (msg : message)
  (t : trace) :
  quiet env ->
  _handle_notification env title msg t = (Ok tt, (t ++ notified title msg)%list).
Proof.
  intros Hq. unfold _handle_notification, notified.
  rewrite run_call, (quiet_log _ _ _ Hq). rewrite run_call, (quiet_voice _ _ _ Hq).
  rewrite run_last_call, (quiet_notification _ _ _ _ Hq).
  repeat rewrite <- app_assoc. reflexivity.
Qed.

Lemma give_up_run (env : environment) (msg : message) (t : trace) :
  quiet env ->
  (_handle_notification env "EXCEPTION" msg ;; ret false) t =
    (Ok false, (t ++ notified "EXCEPTION" msg)%list).
Proof. intros Hq. rewrite (bind_ok _ _ _ _ _ (handle_notification_run _ _ _ _ Hq)). reflexivity. Qed.

(** Neither the visit of the appointment page nor a notification is a
    submission. *)
Ltac no_post :=
  rewrite !count_app;
  change (count is_post (notified ?title ?msg)) with 0%nat;
  change (count is_post [Event (DriverGet ?url)]) with 0%nat;
  lia.

(** X11. When one of the three lookups comes back with nothing,
    [reschedule] gives up there: it logs, speaks and notifies, under the
    title EXCEPTION, which lookup it was, returns [False], and the later
    lookups and the submission are not made (no form has been posted). *)
Theorem reschedule_gives_up_without_posting :
  forall (cfg : settings) (env : environment) (date : string) (t : trace),
    quiet env ->
    env unit (length t) (DriverGet (APPOINTMENT_URL cfg)) = Ok tt ->
    (forall t1 : trace,
        get_consulate_appointment_time cfg env date
          (t ++ [Event (DriverGet (APPOINTMENT_URL cfg))])%list = (Ok None, t1) ->
        let t' := (t1 ++ notified "EXCEPTION"
                           (Text "Error al obtener hora para reagendar cita"))%list in
        reschedule cfg env date t = (Ok false, t') /\
        count is_post t' = count is_post t)
    /\
    (forall (time : string) (t1 t2 : trace),
        get_consulate_appointment_time cfg env date
          (t ++ [Event (DriverGet (APPOINTMENT_URL cfg))])%list = (Ok (Some time), t1) ->
        get_cas_date cfg env date time t1 = (Ok None, t2) ->
        let t' := (t2 ++ notified "EXCEPTION"
                           (Text "Error al obtener fecha CAS para reagendar cita"))%list in
        reschedule cfg env date t = (Ok false, t') /\
        count is_post t' = count is_post t)
    /\
    (forall (time cas_date : string) (t1 t2 t3 : trace),
        get_consulate_appointment_time cfg env date
          (t ++ [Event (DriverGet (APPOINTMENT_URL cfg))])%list = (Ok (Some time), t1) ->
        get_cas_date cfg env date time t1 = (Ok (Some cas_date), t2) ->
        cas_date <> "" ->
        get_cas_time cfg env date time cas_date t2 = (Ok None, t3) ->
        let t' := (t3 ++ notified "EXCEPTION"
                           (Text "Error al obtener hora CAS para reagendar cita"))%list in
        reschedule cfg env date t = (Ok false, t') /\
        count is_post t' = count is_post t).
Proof.
  intros cfg env date t Hq Hget.
  split; [|split].
  - intros t1 Htime t'. subst t'. split.
    + unfold reschedule. rewrite run_call, Hget. rewrite (bind_ok _ _ _ _ _ Htime).
      apply give_up_run, Hq.
    + destruct (at_most_run _ _ _ _ _ _
                  (get_consulate_appointment_time_posts cfg env date) Htime)
        as (s1 & -> & Hs1).
      no_post.
  - intros time t1 t2 Htime Hcas_date t'. subst t'.
    assert (Htime_ne : time <> "") by exact (consulate_time_not_empty _ _ _ _ _ _ _ Htime).
    destruct time as [|c0 time']; [congruence|]. split.
    + unfold reschedule. rewrite run_call, Hget. rewrite (bind_ok _ _ _ _ _ Htime).
      cbv beta iota zeta. rewrite (bind_ok _ _ _ _ _ Hcas_date).
      apply give_up_run, Hq.
    + destruct (at_most_run _ _ _ _ _ _
                  (get_consulate_appointment_time_posts cfg env date) Htime)
        as (s1 & -> & Hs1).
      destruct (at_most_run _ _ _ _ _ _ (get_cas_date_posts cfg env _ _) Hcas_date)
        as (s2 & -> & Hs2).
      no_post.
  - intros time cas_date t1 t2 t3 Htime Hcas_date Hcas_ne Hcas_time t'. subst t'.
    assert (Htime_ne : time <> "") by exact (consulate_time_not_empty _ _ _ _ _ _ _ Htime).
    destruct time as [|c0 time']; [congruence|].
    destruct cas_date as [|c1 cas_date']; [congruence|]. split.
    + unfold reschedule. rewrite run_call, Hget. rewrite (bind_ok _ _ _ _ _ Htime).
      cbv beta iota zeta. rewrite (bind_ok _ _ _ _ _ Hcas_date).
      cbv beta iota zeta. rewrite (bind_ok _ _ _ _ _ Hcas_time).
      apply give_up_run, Hq.
    + destruct (at_most_run _ _ _ _ _ _
                  (get_consulate_appointment_time_posts cfg env date) Htime)
        as (s1 & -> & Hs1).
      destruct (at_most_run _ _ _ _ _ _ (get_cas_date_posts cfg env _ _) Hcas_date)
        as (s2 & -> & Hs2).
      destruct (at_most_run _ _ _ _ _ _ (get_cas_time_posts cfg env _ _ _) Hcas_time)
        as (s3 & -> & Hs3).
      no_post.
Qed.

Lemma reschedule_gives_up_without_posting_witness :
  reschedule sample (play scenario_empty) "2024-06-10" [] =
    (Ok false,
     (snd (get_consulate_appointment_time sample (play scenario_empty) "2024-06-10"
             [Event (DriverGet (APPOINTMENT_URL sample))])
        ++ notified "EXCEPTION" (Text "Error al obtener hora para reagendar cita"))%list) /\
  count is_post
    (snd (get_consulate_appointment_time sample (play scenario_empty) "2024-06-10"
            [Event (DriverGet (APPOINTMENT_URL sample))])
       ++ notified "EXCEPTION" (Text "Error al obtener hora para reagendar cita"))%list
  = count is_post [].
Proof.
  refine (proj1 (reschedule_gives_up_without_posting sample (play scenario_empty)
                   "2024-06-10" [] _ _) _ _).
  - intros n. repeat split.
  - reflexivity.
  - vm_compute. reflexivity.
Defined.

(** X12. The linked date is sent and read back as the service gave it: when
    it does not read as a date ([%Y-%m-%d]), the form is submitted with it
    all the same, the answer is logged, and [reschedule] then raises while
    preparing its message; whatever the answer says, a success phrase
    included, nothing is spoken or notified and no result is returned. *)
Theorem malformed_cas_date_raises_after_posting :
  forall (cfg : settings) (env : environment) (date time cas_date cas_time : string)
    (t t1 t2 t3 : trace) (reply : Z * string) (e : exn),
    logs_ok env ->
    page_ok env ->
    env unit (length t) (DriverGet (APPOINTMENT_URL cfg)) = Ok tt ->
    get_consulate_appointment_time cfg env date
      (t ++ [Event (DriverGet (APPOINTMENT_URL cfg))])%list = (Ok (Some time), t1) ->
    get_cas_date cfg env date time t1 = (Ok (Some cas_date), t2) ->
    get_cas_time cfg env date time cas_date t2 = (Ok (Some cas_time), t3) ->
    cas_date <> "" ->
    (exists d, strptime_Ymd date = Ok d) ->
    strptime_Ymd cas_date = Raise e ->
    (forall headers data,
        env (Z * string)%type (6 + length t3) (Post (APPOINTMENT_URL cfg) headers data)
        = Ok reply) ->
    exists (user_agent cookie : string) (token limit capacity : option string),
      reschedule cfg env date t =
        (Raise e,
         (t3 ++ submission cfg user_agent cookie token limit capacity
                  date time cas_date cas_time reply)%list).
Proof.
  intros cfg env date time cas_date cas_time t t1 t2 t3 reply e
    Hlog Hpage Hget Htime Hcas_date Hcas_time Hcas_ne [d Hd] Hmalformed Hpost.
  assert (Htime_ne : time <> "") by exact (consulate_time_not_empty _ _ _ _ _ _ _ Htime).
  assert (Hcas_time_ne : cas_time <> "")
    by exact (cas_time_not_empty _ _ _ _ _ _ _ _ _ Hcas_time).
  destruct (Hpage (length t3)) as [[ua Hua] _].
  destruct (Hpage (1 + length t3)%nat) as [_ [[cookie Hcookie] _]].
  destruct (Hpage (2 + length t3)%nat) as [_ [_ Hv1]].
  destruct (Hv1 "authenticity_token") as [v1 Hv1'].
  destruct (Hpage (3 + length t3)%nat) as [_ [_ Hv2]].
  destruct (Hv2 "confirmed_limit_message") as [v2 Hv2'].
  destruct (Hpage (4 + length t3)%nat) as [_ [_ Hv3]].
  destruct (Hv3 "use_consulate_appointment_capacity") as [v3 Hv3'].
  simpl in Hcookie, Hv1', Hv2', Hv3', Hpost.
  exists ua, cookie, v1, v2, v3.
  unfold reschedule. rewrite run_call, Hget.
  rewrite (bind_ok _ _ _ _ _ Htime).
  destruct time as [|c0 time']; [congruence|].
  cbv beta iota zeta. rewrite (bind_ok _ _ _ _ _ Hcas_date).
  destruct cas_date as [|c1 cas_date']; [congruence|].
  cbv beta iota zeta. rewrite (bind_ok _ _ _ _ _ Hcas_time).
  destruct cas_time as [|c2 cas_time']; [congruence|].
  cbv beta iota zeta. unfold reschedule_request.
  step. rewrite Hua. step. rewrite Hcookie. step. rewrite Hv1'. step. rewrite Hv2'.
  step. rewrite Hv3'. cbv zeta. step. rewrite Hlog. step. rewrite Hpost. step.
  rewrite Hlog. step. rewrite Hd. step. rewrite Hmalformed.
  unfold submission, reschedule_headers, reschedule_form.
  repeat rewrite <- app_assoc. reflexivity.
Qed.

Lemma malformed_cas_date_raises_after_posting_witness :
  exists (user_agent cookie : string) (token limit capacity : option string),
    reschedule sample (play scenario_slashed) "2024-06-10" [] =
      (Raise (ValueError "time data does not match format"),
       (snd (get_cas_time sample (play scenario_slashed) "2024-06-10" "09:00" "08/06/2024"
               [ Event (DriverGet (APPOINTMENT_URL sample));
                 Event (FetchJson (TIME_URL sample "2024-06-10"));
                 Event (FetchJson (CAS_DATE_URL sample "2024-06-10" "09:00")) ])
          ++ submission sample user_agent cookie token limit capacity
               "2024-06-10" "09:00" "08/06/2024" "10:15"
               (200%Z, "<html>Successfully Scheduled</html>"))%list).
Proof.
  apply (malformed_cas_date_raises_after_posting sample (play scenario_slashed)
           "2024-06-10" "09:00" "08/06/2024" "10:15" []
           [ Event (DriverGet (APPOINTMENT_URL sample));
             Event (FetchJson (TIME_URL sample "2024-06-10")) ]
           [ Event (DriverGet (APPOINTMENT_URL sample));
             Event (FetchJson (TIME_URL sample "2024-06-10"));
             Event (FetchJson (CAS_DATE_URL sample "2024-06-10" "09:00")) ]).
  - intros n m. reflexivity.
  - intros n. split; [|split].
    + eexists. reflexivity.
    + eexists. reflexivity.
    + intros name. eexists. reflexivity.
  - reflexivity.
  - vm_compute. reflexivity.
  - vm_compute. reflexivity.
  - vm_compute. reflexivity.
  - discriminate.
  - eexists. vm_compute. reflexivity.
  - vm_compute. reflexivity.
  - intros headers data. reflexivity.
Defined.

(** ** More on the login *)



Lemma find_by_locator_none (find_by : string) :
  ~ In (lower find_by) ["id"; "name"; "class"; "xpath"] ->
  find_by_locator find_by = None.
Proof.
  intros H. unfold find_by_locator. cbv zeta.
  destruct (lower find_by =? "id") eqn:H1;
    [apply String.eqb_eq in H1; exfalso; apply H; rewrite H1; cbn [In]; auto|].
  destruct (lower find_by =? "name") eqn:H2;
    [apply String.eqb_eq in H2; exfalso; apply H; rewrite H2; cbn [In]; auto|].
  destruct (lower find_by =? "class") eqn:H3;
    [apply String.eqb_eq in H3; exfalso; apply H; rewrite H3; cbn [In]; auto|].
  destruct (lower find_by =? "xpath") eqn:H4;
    [apply String.eqb_eq in H4; exfalso; apply H; rewrite H4; cbn [In]; auto 6|].
  reflexivity.
Qed.

(** X14. What [auto_action] does not know it leaves alone: with a locator
    kind other than id, name, class and xpath it asks nothing of the browser;
    with an action other than send and click it looks the element up and
    stops, without the pause; and a pause of zero seconds is not made. *)
Theorem auto_action_leaves_the_unknown_alone :
  forall (env : environment) (label find_by element_type action value : string)
    (sleep_time : Q) (t : trace),
    (~ In (lower find_by) ["id"; "name"; "class"; "xpath"] ->
     auto_action env label find_by element_type action value sleep_time t = (Ok tt, t))
    /\
    (forall (by_ : locator) (item : element),
        find_by_locator find_by = Some by_ ->
        env element (length t) (FindElement by_ element_type) = Ok item ->
        ~ In (lower action) ["send"; "click"] ->
        auto_action env label find_by element_type action value sleep_time t =
          (Ok tt, (t ++ [Event (FindElement by_ element_type)])%list))
    /\
    (forall (by_ : locator) (item : element),
        find_by_locator find_by = Some by_ ->
        env element (length t) (FindElement by_ element_type) = Ok item ->
        lower action = "click" ->
        env unit (S (length t)) (Click item) = Ok tt ->
        (sleep_time == 0)%Q ->
        auto_action env label find_by element_type action value sleep_time t =
          (Ok tt, (t ++ [Event (FindElement by_ element_type); Event (Click item)])%list)).
Proof.
  intros env label find_by element_type action value sleep_time t.
  split; [|split].
  - intros H. unfold auto_action. rewrite (find_by_locator_none _ H). reflexivity.
  - intros by_ item Hby Hitem Haction. unfold auto_action. rewrite Hby.
    rewrite run_call, Hitem. cbv zeta.
    destruct (lower action =? "send") eqn:Hsend;
      [apply String.eqb_eq in Hsend; exfalso; apply Haction; rewrite Hsend; cbn [In]; auto|].
    destruct (lower action =? "click") eqn:Hclick;
      [apply String.eqb_eq in Hclick; exfalso; apply Haction; rewrite Hclick; cbn [In]; auto|].
    step. reflexivity.
  - intros by_ item Hby Hitem Haction Hclick Hzero. unfold auto_action. rewrite Hby.
    rewrite run_call, Hitem. cbv zeta. rewrite Haction.
    change ("click" =? "send") with false. change ("click" =? "click") with true.
    cbv iota. step. rewrite Hclick. step.
    apply Qeq_bool_iff in Hzero. rewrite Hzero. cbn [andb negb].
    flatten_trace. reflexivity.
Qed.

Lemma auto_action_leaves_the_unknown_alone_witness :
  auto_action (play scenario) "Captcha" "css" "#g-recaptcha" "click" "" STEP_TIME [] =
    (Ok tt, []).
Proof.
  refine (proj1 (auto_action_leaves_the_unknown_alone (play scenario)
                   "Captcha" "css" "#g-recaptcha" "click" "" STEP_TIME []) _).
  cbn [In]. intros [H|[H|[H|[H|H]]]]; try discriminate H. exact H.
Defined.

(** A form step of the login on a page that responds. *)
Lemma auto_action_click (env : environment) (label find_by element_type value : string)
  (by_ : locator) (t : trace) :
  sleeps_ok env ->
  browser_ok env ->
  find_by_locator find_by = Some by_ ->
  exists item,
    auto_action env label find_by element_type "click" value STEP_TIME t =
      (Ok tt, (t ++ [ Event (FindElement by_ element_type); Event (Click item);
                      Event (Sleep STEP_TIME) ])%list).
Proof.
  intros Hs Hb Hby. unfold auto_action. rewrite Hby.
  destruct (browser_find env (length t) by_ element_type Hb) as [item Hitem].
  exists item. rewrite run_call, Hitem. cbv zeta.
  change (lower "click" =? "send") with false. change (lower "click" =? "click") with true.
  cbv iota. step. rewrite (browser_click _ _ _ Hb). step.
  change (Qeq_bool STEP_TIME 0) with false. cbn [andb negb].
  rewrite run_last_call, Hs. flatten_trace. reflexivity.
Qed.

Lemma auto_action_send (env : environment) (label find_by element_type value : string)
  (by_ : locator) (t : trace) :
  sleeps_ok env ->
  browser_ok env ->
  find_by_locator find_by = Some by_ ->
  exists item,
    auto_action env label find_by element_type "send" value STEP_TIME t =
      (Ok tt, (t ++ [ Event (FindElement by_ element_type); Event (SendKeys item value);
                      Event (Sleep STEP_TIME) ])%list).
Proof.
  intros Hs Hb Hby. unfold auto_action. rewrite Hby.
  destruct (browser_find env (length t) by_ element_type Hb) as [item Hitem].
  exists item. rewrite run_call, Hitem. cbv zeta.
  change (lower "send" =? "send") with true.
  cbv iota. step. rewrite (browser_send _ _ _ _ Hb). step.
  change (Qeq_bool STEP_TIME 0) with false. cbn [andb negb].
  rewrite run_last_call, Hs. flatten_trace. reflexivity.
Qed.

(** One attempt, up to what the look for the invalid-credentials message
    finds. *)
Lemma login_attempt_run (cfg : settings) (env : environment) (t : trace) :
  sleeps_ok env ->
  browser_ok env ->
  exists bounce email password privacy commit,
    login_attempt cfg env t =
      (let t' := (t ++ sign_in cfg bounce email password privacy commit)%list in
       match env (list element) (20 + length t)
               (FindElements By_XPATH (XPATH_WRONG_CREDENTIALS cfg)) with
       | Ok (_ :: _) =>
           (_handle_notification env "EXCEPTION" WRONG_CREDENTIALS_MESSAGE ;; ret false) t'
       | Ok [] => (Ok true, t')
       | Raise e => (Raise e, t')
       end).
Proof.
  intros Hs Hb. unfold login_attempt.
  rewrite run_call, (browser_get _ _ _ Hb).
  rewrite run_call, Hs.
  rewrite run_call, (browser_wait _ _ _ _ Hb).
  destruct (auto_action_click env "Click bounce" "xpath" XPATH_BOUNCE "" By_XPATH
              (((t ++ [Event (DriverGet (SIGN_IN_LINK cfg))]) ++ [Event (Sleep STEP_TIME)])
                 ++ [Event (WaitPresence "commit" 30)])%list Hs Hb eq_refl) as [i1 H1].
  rewrite (bind_ok _ _ _ _ _ H1).
  match goal with |- context [bind (auto_action _ _ _ _ _ _ _) _ ?tr] =>
    destruct (auto_action_send env "Email" "id" "user_email" (USERNAME cfg) By_ID tr
                Hs Hb eq_refl) as [i2 H2] end.
  rewrite (bind_ok _ _ _ _ _ H2).
  match goal with |- context [bind (auto_action _ _ _ _ _ _ _) _ ?tr] =>
    destruct (auto_action_send env "Password" "id" "user_password" (PASSWORD cfg) By_ID tr
                Hs Hb eq_refl) as [i3 H3] end.
  rewrite (bind_ok _ _ _ _ _ H3).
  match goal with |- context [bind (auto_action _ _ _ _ _ _ _) _ ?tr] =>
    destruct (auto_action_click env "Privacy" "class" "icheckbox" "" By_CLASS_NAME tr
                Hs Hb eq_refl) as [i4 H4] end.
  rewrite (bind_ok _ _ _ _ _ H4).
  match goal with |- context [bind (auto_action _ _ _ _ _ _ _) _ ?tr] =>
    destruct (auto_action_click env "Enter Panel" "name" "commit" "" By_NAME tr
                Hs Hb eq_refl) as [i5 H5] end.
  rewrite (bind_ok _ _ _ _ _ H5).
  rewrite run_call, Hs.
  rewrite run_call, (browser_wait_any _ _ _ _ Hb).
  rewrite run_call.
  exists i1, i2, i3, i4, i5. cbv zeta.
  replace (length _) with (20 + length t)%nat
    by (repeat rewrite length_app; cbn [length]; lia).
  replace (_ ++ [Event (FindElements By_XPATH (XPATH_WRONG_CREDENTIALS cfg))])%list
    with (t ++ sign_in cfg i1 i2 i3 i4 i5)%list
    by (unfold sign_in; repeat rewrite <- app_assoc; reflexivity).
  destruct (env (list element) (20 + length t)
              (FindElements By_XPATH (XPATH_WRONG_CREDENTIALS cfg))) as [[|item found]|e];
    reflexivity.
Qed.

Lemma sign_in_has_one_visit (cfg : settings) (bounce email password privacy commit : element) :
  sign_in_visits cfg (sign_in cfg bounce email password privacy commit) = 1%nat.
Proof.
  unfold sign_in_visits, sign_in, count. cbn [filter is_navigation].
  rewrite String.eqb_refl. reflexivity.
Qed.

(** X15. On a sign-in page that responds and does not show the
    invalid-credentials message, [start_login_process] returns [True] after
    one attempt: it asks for the sign-in page once, clicks the arrow, types
    the user name and the password into their fields, ticks the privacy box
    and submits, pausing after each step; nothing is logged, spoken or
    notified, and whether the log directory could be made plays no part. *)
Theorem login_succeeds_on_a_clean_page :
  forall (cfg : settings) (env : environment) (t : trace),
    sleeps_ok env ->
    browser_ok env ->
    env (list element) (21 + length t)
      (FindElements By_XPATH (XPATH_WRONG_CREDENTIALS cfg)) = Ok [] ->
    exists bounce email password privacy commit,
      start_login_process cfg env t =
        (Ok true,
         (t ++ Event MakeLogDirectory
              :: sign_in cfg bounce email password privacy commit)%list).
Proof.
  intros cfg env t Hs Hb Hclean.
  destruct (login_attempt_run cfg env (t ++ [Event MakeLogDirectory])%list Hs Hb)
    as (i1 & i2 & i3 & i4 & i5 & Hattempt).
  cbv zeta in Hattempt. rewrite last_length in Hattempt.
  change (20 + S (length t))%nat with (21 + length t)%nat in Hattempt.
  rewrite Hclean in Hattempt.
  exists i1, i2, i3, i4, i5.
  rewrite start_login_process_run. cbv zeta.
  assert (Hloop := login_loop_stops cfg env 4 0 _ _ true
                      (Nat.lt_0_succ 4) Hattempt).
  change (S 4) with REQUEST_ATTEMPTS in Hloop. rewrite Hloop.
  cbn [fst snd]. rewrite <- app_assoc. reflexivity.
Qed.

Lemma login_succeeds_on_a_clean_page_witness :
  exists bounce email password privacy commit,
    start_login_process sample (play scenario) [] =
      (Ok true,
       ([] ++ Event MakeLogDirectory
           :: sign_in sample bounce email password privacy commit)%list).
Proof.
  apply (login_succeeds_on_a_clean_page sample (play scenario) []).
  - intros n seconds. reflexivity.
  - intros n. repeat split. intros by_ value. eexists. reflexivity.
  - reflexivity.
Defined.

(** An attempt that ends on the invalid-credentials message, on a machine
    that cannot speak: the message is logged, and the attempt raises. *)
Lemma login_attempt_without_voice (cfg : settings) (env : environment) (t : trace)
  (e : exn) :
  logs_ok env ->
  sleeps_ok env ->
  browser_ok env ->
  always_rejected cfg env ->
  (forall n m, env unit n (Voice m) = Raise e) ->
  exists bounce email password privacy commit,
    login_attempt cfg env t =
      (Raise e,
       (t ++ sign_in cfg bounce email password privacy commit
          ++ [ Event (InfoLogger WRONG_CREDENTIALS_MESSAGE);
               Event (Voice WRONG_CREDENTIALS_MESSAGE) ])%list).
Proof.
  intros Hl Hs Hb Hrejected Hvoice.
  destruct (login_attempt_run cfg env t Hs Hb) as (i1 & i2 & i3 & i4 & i5 & Hattempt).
  exists i1, i2, i3, i4, i5. rewrite Hattempt. cbv zeta.
  destruct (Hrejected (20 + length t)%nat) as (item & found & Hfound). rewrite Hfound.
  unfold _handle_notification. step. rewrite Hl. step. rewrite Hvoice.
  repeat rewrite <- app_assoc. reflexivity.
Qed.

Lemma login_loop_without_voice (cfg : settings) (env : environment) (e : exn) :
  logs_ok env ->
  sleeps_ok env ->
  browser_ok env ->
  always_rejected cfg env ->
  (forall n m, env unit n (Voice m) = Raise e) ->
  forall (fuel attempts : nat) (t : trace),
    (REQUEST_ATTEMPTS <= attempts + fuel)%nat ->
    (attempts <= REQUEST_ATTEMPTS)%nat ->
    exists s,
      login_loop cfg env fuel attempts t = (Ok (Some false), (t ++ s)%list) /\
      sign_in_visits cfg s = (REQUEST_ATTEMPTS - attempts)%nat /\
      count is_notification s = 0%nat.
Proof.
  intros Hl Hs Hb Hrejected Hvoice.
  induction fuel as [|fuel IH]; intros attempts t Hfuel Hle.
  - assert (attempts = REQUEST_ATTEMPTS) as -> by lia.
    exists []. rewrite app_nil_r, Nat.sub_diag. repeat split.
  - destruct (Nat.ltb_spec attempts REQUEST_ATTEMPTS) as [Hlt|Hge].
    + destruct (login_attempt_without_voice cfg env t e Hl Hs Hb Hrejected Hvoice)
        as (i1 & i2 & i3 & i4 & i5 & Hattempt).
      cbn [login_loop]. apply Nat.ltb_lt in Hlt. rewrite Hlt. apply Nat.ltb_lt in Hlt.
      rewrite (try_run _ _ _ _ _ Hattempt). step. rewrite Hl. step. rewrite Hs.
      destruct (IH (S attempts)
                  (((t ++ sign_in cfg i1 i2 i3 i4 i5
                        ++ [ Event (InfoLogger WRONG_CREDENTIALS_MESSAGE);
                             Event (Voice WRONG_CREDENTIALS_MESSAGE) ])
                      ++ [Event (InfoLogger (LoginFailed e))])
                     ++ [Event (Sleep STEP_TIME)])%list)
        as (s & Hrun & Hvisits & Hnotes); [lia | lia |].
      rewrite Hrun.
      exists (sign_in cfg i1 i2 i3 i4 i5
                ++ [ Event (InfoLogger WRONG_CREDENTIALS_MESSAGE);
                     Event (Voice WRONG_CREDENTIALS_MESSAGE);
                     Event (InfoLogger (LoginFailed e));
                     Event (Sleep STEP_TIME) ] ++ s)%list.
      split; [|split].
      * repeat rewrite <- app_assoc. reflexivity.
      * unfold sign_in_visits in *. rewrite !count_app.
        rewrite (sign_in_has_one_visit cfg i1 i2 i3 i4 i5 : count _ _ = 1%nat), Hvisits.
        unfold count at 1. cbn [filter is_navigation length]. lia.
      * rewrite !count_app, Hnotes. reflexivity.
    + assert (attempts = REQUEST_ATTEMPTS) as -> by lia.
      exists []. rewrite app_nil_r, Nat.sub_diag, login_loop_exhausted. repeat split.
Qed.

(** X16. On a machine where speaking raises, the invalid-credentials message
    does not end the login: the exception of [str_to_google_voice] is taken
    for a failed attempt, so the same credentials are submitted
    [REQUEST_ATTEMPTS] (5) times before [start_login_process] returns
    [False], and the EXCEPTION notification is never sent. *)
Theorem wrong_credentials_are_resubmitted_without_voice :
  forall (cfg : settings) (env : environment) (t : trace) (e : exn),
    logs_ok env ->
    sleeps_ok env ->
    browser_ok env ->
    always_rejected cfg env ->
    (forall n m, env unit n (Voice m) = Raise e) ->
    exists s,
      start_login_process cfg env t = (Ok false, (t ++ Event MakeLogDirectory :: s)%list) /\
      sign_in_visits cfg s = REQUEST_ATTEMPTS /\
      count is_notification s = 0%nat.
Proof.
  intros cfg env t e Hl Hs Hb Hrejected Hvoice.
  destruct (login_loop_without_voice cfg env e Hl Hs Hb Hrejected Hvoice
              REQUEST_ATTEMPTS 0 (t ++ [Event MakeLogDirectory])%list)
    as (s & Hrun & Hvisits & Hnotes); [lia | lia |].
  exists s. rewrite start_login_process_run. cbv zeta. rewrite Hrun. cbn [fst snd].
  rewrite <- app_assoc. rewrite Nat.sub_0_r in Hvisits. auto.
Qed.

Lemma wrong_credentials_are_resubmitted_without_voice_witness :
  exists s,
    start_login_process sample
      (without_voice (ExternalError "mpg123: command not found")
         (play scenario_wrong_password)) [] =
      (Ok false, ([] ++ Event MakeLogDirectory :: s)%list) /\
    sign_in_visits sample s = REQUEST_ATTEMPTS /\
    count is_notification s = 0%nat.
Proof.
  apply (wrong_credentials_are_resubmitted_without_voice sample
           (without_voice (ExternalError "mpg123: command not found")
              (play scenario_wrong_password)) []
           (ExternalError "mpg123: command not found")).
  - intros n m. reflexivity.
  - intros n seconds. reflexivity.
  - intros n. repeat split. intros by_ value. eexists. reflexivity.
  - intros n. eexists. eexists. reflexivity.
  - intros n m. reflexivity.
Defined.

(** ** More on the polling loop *)

Lemma auto_action_queries (env : environment)
  (label find_by element_type action value : string) (sleep_time : Q) :
  at_most 0 is_query (auto_action env label find_by element_type action value sleep_time).
Proof.
  unfold auto_action. destruct (find_by_locator find_by) as [by_|]; [|apply at_most_ret].
  apply (at_most_bind 0 0); [apply at_most_other; reflexivity|].
  intros item. apply (at_most_bind 0 0).
  - cbv zeta. destruct (lower action =? "send"); [silent|].
    destruct (lower action =? "click"); silent.
  - intros acted. destruct (acted && negb (Qeq_bool sleep_time 0)); silent.
Qed.

Lemma login_attempt_queries (cfg : settings) (env : environment) :
  at_most 0 is_query (login_attempt cfg env).
Proof.
  unfold login_attempt, _handle_notification.
  repeat first
    [ apply auto_action_queries
    | apply at_most_ret
    | apply at_most_other; reflexivity
    | apply (at_most_bind 0 0); [|intros ?] ].
  match goal with |- at_most _ _ (match ?x with _ => _ end) => destruct x end; silent.
Qed.

Lemma login_loop_queries (cfg : settings) (env : environment) (fuel : nat) :
  forall attempts : nat, at_most 0 is_query (login_loop cfg env fuel attempts).
Proof.
  induction fuel as [|fuel IH]; intros attempts; cbn [login_loop];
    destruct (attempts <? REQUEST_ATTEMPTS)%nat; try apply at_most_ret.
  cbv zeta. apply (at_most_bind 0 0); [apply at_most_try, login_attempt_queries|].
  intros [b|e]; [apply at_most_ret|]. silent. apply IH.
Qed.

(** The login asks nothing of the slot service. *)
Lemma start_login_process_queries (cfg : settings) (env : environment) :
  at_most 0 is_query (start_login_process cfg env).
Proof.
  unfold start_login_process, start_login_process_fuel,
    create_logging_file_path_if_does_not_exist.
  apply (at_most_bind 0 0); [|intros r; apply at_most_ret].
  apply (at_most_bind 0 0); [silent | intros _; apply login_loop_queries].
Qed.

(** X17. Without a browser, [start_visa_process] ends at once and asks for
    nothing; and when the login does not succeed it ends there, without a
    single query to the slot service, without a log entry of its own and
    without a further attempt. *)
Theorem loop_ends_without_a_login :
  forall (cfg : settings) (env : environment) (fuel : nat) (t : trace),
    (DRIVER cfg = false ->
     start_visa_process cfg env (S fuel) t = (Ok (Some tt), t))
    /\
    (forall (now : Q) (t1 : trace),
        DRIVER cfg = true ->
        env Q (length t) Now = Ok now ->
        start_login_process cfg env (t ++ [Event Now])%list = (Ok false, t1) ->
        start_visa_process cfg env (S fuel) t = (Ok (Some tt), t1) /\
        count is_query t1 = count is_query t).
Proof.
  intros cfg env fuel t. split.
  - intros Hdriver. unfold start_visa_process. cbn [visa_loop].
    unfold loop_iteration, first_loop_block. cbn [first_loop initial_state].
    rewrite Hdriver. reflexivity.
  - intros now t1 Hdriver Hnow Hlogin. split.
    + unfold start_visa_process. cbn [visa_loop].
      unfold loop_iteration, first_loop_block. cbn [first_loop initial_state].
      rewrite Hdriver. cbn [negb]. step. rewrite Hnow.
      rewrite run_bind, (bind_ok _ _ _ _ _ Hlogin). reflexivity.
    + destruct (at_most_run _ _ _ _ _ _ (start_login_process_queries cfg env) Hlogin)
        as (s & -> & Hs).
      rewrite !count_app. change (count is_query [Event Now]) with 0%nat. lia.
Qed.

Lemma loop_ends_without_a_login_witness :
  start_visa_process sample (play scenario_wrong_password) 1 [] =
    (Ok (Some tt), snd (start_login_process sample (play scenario_wrong_password) [Event Now]))
  /\
  count is_query (snd (start_login_process sample (play scenario_wrong_password) [Event Now]))
  = count is_query [].
Proof.
  refine (proj2 (loop_ends_without_a_login sample (play scenario_wrong_password) 0 [])
            0%Q _ _ _ _).
  - reflexivity.
  - reflexivity.
  - vm_compute. reflexivity.
Defined.

(** The end of a part of the program that returns a value. *)
Ltac returned H :=
  unfold ret in H; injection H as H; subst.

Lemma polling_cycle_continues (cfg : settings) (env : environment) (st st' : loop_state)
  (t t' : trace) :
  polling_cycle cfg env st t = (Ok (Continue st'), t') ->
  req_count st' = req_count st /\ t0 st' = t0 st.
Proof.
  intros H. unfold polling_cycle in H.
  apply bind_inv in H as (u & t1 & _ & H).
  apply bind_inv in H as (dates & t2 & _ & H).
  destruct (negb (truthy dates)).
  - apply bind_inv in H as (u' & t3 & _ & H). unfold ret in H.
    injection H as <- _. split; reflexivity.
  - apply bind_inv in H as (u' & t3 & _ & H).
    apply bind_inv in H as (date & t4 & _ & H).
    apply bind_inv in H as (rescheduled & t5 & _ & H).
    destruct rescheduled; [discriminate H|].
    apply bind_inv in H as (now & t6 & _ & H). cbv zeta in H.
    apply bind_inv in H as (rest & t7 & _ & H).
    destruct rest.
    + unfold ret in H. injection H as <- _. split; reflexivity.
    + apply bind_inv in H as (u'' & t8 & _ & H). unfold ret in H.
      injection H as <- _. split; reflexivity.
Qed.

(** X18. Whatever the environment answers, an iteration after which the
    loop goes on has counted exactly one request: [req_count] is one more
    than before, or 1 when the iteration began with a login; and [t0], the
    start of the working time, is the clock read just before that login, or
    is left as it was. *)
Theorem iteration_counts_one_request :
  forall (cfg : settings) (env : environment) (st st' : loop_state) (t t' : trace),
    loop_iteration cfg env st t = (Ok (Continue st'), t') ->
    req_count st' = S (if first_loop st then 0 else req_count st) /\
    (first_loop st = false -> t0 st' = t0 st) /\
    (first_loop st = true -> env Q (length t) Now = Ok (t0 st')).
Proof.
  intros cfg env st st' t t' H. unfold loop_iteration in H.
  apply bind_inv in H as (entered & t1 & Hentered & H).
  destruct entered as [st1|]; [|discriminate H].
  cbv zeta in H. rewrite run_try in H.
  destruct (polling_cycle cfg env (count_request st1) t1) as [[c|e] t2] eqn:Hcycle;
    cbn [fst snd] in H.
  - unfold ret in H. injection H as -> ->.
    apply polling_cycle_continues in Hcycle as [Hcount Hstart].
    rewrite Hcount, Hstart. cbn [req_count t0 count_request].
    unfold first_loop_block in Hentered.
    destruct (first_loop st).
    + destruct (negb (DRIVER cfg)); [discriminate Hentered|].
      apply bind_inv in Hentered as (now & t3 & Hnow & Hentered).
      apply call_inv in Hnow as [Hnow ->].
      apply bind_inv in Hentered as (logged_in & t4 & _ & Hentered).
      destruct (negb logged_in); [discriminate Hentered|].
      unfold ret in Hentered. injection Hentered as <- _.
      cbn [req_count t0]. repeat split; [discriminate | intros _; exact Hnow].
    + unfold ret in Hentered. injection Hentered as <- _.
      repeat split; [discriminate].
  - apply bind_inv in H as (u & t3 & _ & H). discriminate H.
Qed.

Lemma iteration_counts_one_request_witness :
  req_count {| first_loop := false; t0 := 0; total_time := inject_Z 3 - 0; req_count := 4 |}
    = S (if first_loop (polling 0 3) then 0 else req_count (polling 0 3)) /\
  (first_loop (polling 0 3) = false ->
   t0 {| first_loop := false; t0 := 0; total_time := inject_Z 3 - 0; req_count := 4 |}
     = t0 (polling 0 3)) /\
  (first_loop (polling 0 3) = true ->
   play scenario_out_of_period Q (length (@nil event)) Now =
     Ok (t0 {| first_loop := false; t0 := 0; total_time := inject_Z 3 - 0;
               req_count := 4 |})).
Proof.
  apply (iteration_counts_one_request sample (play scenario_out_of_period) (polling 0 3)
           {| first_loop := false; t0 := 0; total_time := inject_Z 3 - 0; req_count := 4 |}
           [] (snd (loop_iteration sample (play scenario_out_of_period) (polling 0 3) []))).
  vm_compute. reflexivity.
Defined.

Lemma log_available_dates_raises (env : environment) (dates : json) (e : exn) (t : trace) :
  logged_dates dates = Raise e ->
  log_available_dates env dates t = (Raise e, t).
Proof.
  intros H. unfold log_available_dates, logged_dates in *.
  destruct (iterate dates) as [items|e1]; simpl in H.
  - rewrite run_lift. destruct (dates_of items) as [values|e2]; simpl in H.
    + rewrite run_lift. rewrite run_lift. rewrite H. reflexivity.
    + rewrite run_lift. congruence.
  - rewrite run_lift. congruence.
Qed.

Lemma handle_exception_run (env : environment) (e : exn) (t : trace) :
  quiet env ->
  (handle_exception env e ;; ret Break) t = (Ok Break, (t ++ loop_broken e)%list).
Proof.
  intros Hq. unfold handle_exception, loop_broken. steps Hq.
  flatten_trace. reflexivity.
Qed.

(** The date of a slot that was selected is not the empty string. *)
Lemma available_date_not_empty (cfg : settings) (dates : json) (date : string) :
  get_available_date cfg dates = Ok (Some date) -> date <> "".
Proof.
  unfold get_available_date.
  destruct (strptime_Ymd (PRIOD_START cfg)) as [start|e]; [|discriminate].
  destruct (strptime_Ymd (PRIOD_END cfg)) as [end_|e]; [|discriminate].
  destruct (iterate dates) as [items|e]; [|discriminate].
  cbn [rbind]. intros H. apply first_in_period_found in H.
  destruct H as (before & entry & after & _ & _ & _ & Hin).
  intros ->. discriminate Hin.
Qed.

(** X19. A listing that cannot be read ends the program instead of being
    asked for again: when the dates of a listing cannot be joined for the
    log (an entry without a date, say), or when a date of the listing or a
    bound of the period does not read as a date, the exception is logged and
    spoken, and the loop ends, with no attempt to reschedule, no pause and
    no further query. *)
Theorem unreadable_listing_ends_the_loop :
  forall (cfg : settings) (env : environment) (st : loop_state) (t : trace)
    (dates : json) (e : exn) (fuel : nat),
    quiet env ->
    first_loop st = false ->
    env json (S (length t)) (FetchJson (DATE_URL cfg)) = Ok dates ->
    truthy dates = true ->
    (logged_dates dates = Raise e ->
     visa_loop cfg env (S fuel) st t =
       (Ok (Some tt),
        (t ++ [ Event (InfoLogger (RequestStatus (S (req_count st))));
                Event (FetchJson (DATE_URL cfg)) ] ++ loop_broken e)%list))
    /\
    (forall listed : list string,
        logged_dates dates = Ok listed ->
        get_available_date cfg dates = Raise e ->
        visa_loop cfg env (S fuel) st t =
          (Ok (Some tt),
           (t ++ scan cfg (S (req_count st)) listed ++ loop_broken e)%list)).
Proof.
  intros cfg env st t dates e fuel Hq Hpoll Hreply Htruthy.
  split.
  - intros Hlog. cbn [visa_loop].
    unfold loop_iteration, first_loop_block. rewrite Hpoll. rewrite run_bind, run_ret.
    cbv zeta.
    assert (Hcycle : polling_cycle cfg env (count_request st) t =
      (Raise e,
       (t ++ [ Event (InfoLogger (RequestStatus (S (req_count st))));
               Event (FetchJson (DATE_URL cfg)) ])%list)).
    { unfold polling_cycle, log_request_status. steps Hq.
      rewrite (bind_ok _ _ _ _ _ (get_consulate_appointment_date_run cfg env _)).
      rewrite last_length, Hreply, Htruthy. cbn [negb]. cbv iota.
      rewrite (bind_raise _ _ _ _ _ (log_available_dates_raises env dates e _ Hlog)).
      flatten_trace. reflexivity. }
    rewrite run_bind, (try_run _ _ _ _ _ Hcycle).
    rewrite (bind_ok _ _ _ _ _ (handle_exception_run env e _ Hq)).
    rewrite <- app_assoc. reflexivity.
  - intros listed Hlog Hdate. cbn [visa_loop].
    unfold loop_iteration, first_loop_block. rewrite Hpoll. rewrite run_bind, run_ret.
    cbv zeta.
    assert (Hcycle : polling_cycle cfg env (count_request st) t =
      (Raise e, (t ++ scan cfg (S (req_count st)) listed)%list)).
    { unfold polling_cycle, log_request_status. steps Hq.
      rewrite (bind_ok _ _ _ _ _ (get_consulate_appointment_date_run cfg env _)).
      rewrite last_length, Hreply, Htruthy. cbn [negb]. cbv iota.
      rewrite (bind_ok _ _ _ _ _ (log_available_dates_run env dates listed _ Hq Hlog)).
      rewrite run_lift, Hdate. unfold scan. flatten_trace. reflexivity. }
    rewrite run_bind, (try_run _ _ _ _ _ Hcycle).
    rewrite (bind_ok _ _ _ _ _ (handle_exception_run env e _ Hq)).
    rewrite <- app_assoc. reflexivity.
Qed.

Lemma unreadable_listing_ends_the_loop_witness :
  visa_loop sample (play scenario_dateless) 1 (polling 0 3) [] =
    (Ok (Some tt),
     ([] ++ [ Event (InfoLogger (RequestStatus (S (req_count (polling 0 3)))));
              Event (FetchJson (DATE_URL sample)) ]
         ++ loop_broken (TypeError "sequence item: expected str instance"))%list).
Proof.
  refine (proj1 (unreadable_listing_ends_the_loop sample (play scenario_dateless)
                   (polling 0 3) [] dateless_listing
                   (TypeError "sequence item: expected str instance") 0 _ _ _ _) _).
  - intros n. repeat split.
  - reflexivity.
  - reflexivity.
  - reflexivity.
  - vm_compute. reflexivity.
Defined.

(** X20. A successful reschedule ends the program: when the date selected
    from the listing is rescheduled, the loop ends right after [reschedule]
    returns, without reading the clock, resting or waiting. *)
Theorem success_ends_the_loop :
  forall (cfg : settings) (env : environment) (st : loop_state) (t t' : trace)
    (dates : json) (listed : list string) (date : string) (fuel : nat),
    quiet env ->
    first_loop st = false ->
    env json (S (length t)) (FetchJson (DATE_URL cfg)) = Ok dates ->
    truthy dates = true ->
    logged_dates dates = Ok listed ->
    get_available_date cfg dates = Ok (Some date) ->
    reschedule cfg env date (t ++ scan cfg (S (req_count st)) listed)%list = (Ok true, t') ->
    visa_loop cfg env (S fuel) st t = (Ok (Some tt), t').
Proof.
  intros cfg env st t t' dates listed date fuel Hq Hpoll Hreply Htruthy Hlog Hdate Hdone.
  assert (Hne : date <> "") by exact (available_date_not_empty cfg dates date Hdate).
  cbn [visa_loop].
  unfold loop_iteration, first_loop_block. rewrite Hpoll. rewrite run_bind, run_ret.
  cbv zeta.
  assert (Hcycle : polling_cycle cfg env (count_request st) t = (Ok Break, t')).
  { unfold polling_cycle, log_request_status. steps Hq.
    rewrite (bind_ok _ _ _ _ _ (get_consulate_appointment_date_run cfg env _)).
    rewrite last_length, Hreply, Htruthy. cbn [negb]. cbv iota.
    rewrite (bind_ok _ _ _ _ _ (log_available_dates_run env dates listed _ Hq Hlog)).
    rewrite run_lift, Hdate. destruct date as [|c d]; [congruence|]. cbv iota.
    unfold scan in Hdone. revert Hdone. flatten_trace. intros Hdone.
    rewrite (bind_ok _ _ _ _ _ Hdone). reflexivity. }
  rewrite run_bind, (try_run _ _ _ _ _ Hcycle). reflexivity.
Qed.

Lemma success_ends_the_loop_witness :
  visa_loop sample (play scenario) 1 (polling 0 3) [] =
    (Ok (Some tt),
     snd (reschedule sample (play scenario) "2024-06-10"
            ([] ++ scan sample (S (req_count (polling 0 3))) ["2024-06-10"])%list)).
Proof.
  apply (success_ends_the_loop sample (play scenario) (polling 0 3) []
           (snd (reschedule sample (play scenario) "2024-06-10"
                   ([] ++ scan sample (S (req_count (polling 0 3))) ["2024-06-10"])%list))
           (date_listing [ {| slot_date := "2024-06-10"; business_day := true |} ])
           ["2024-06-10"] "2024-06-10" 0).
  - intros n. repeat split.
  - reflexivity.
  - reflexivity.
  - reflexivity.
  - reflexivity.
  - reflexivity.
  - vm_compute. reflexivity.
Defined.

(** ** What is never raised *)

Lemma quiet_logs (env : environment) : quiet env -> logs_ok env.
Proof. intros Hq n m. apply (Hq n). Qed.

Lemma quiet_sleeps (env : environment) : quiet env -> sleeps_ok env.
Proof. intros Hq n seconds. apply (Hq n). Qed.

Lemma login_loop_returns (cfg : settings) (env : environment) :
  logs_ok env ->
  sleeps_ok env ->
  forall (fuel attempts : nat) (t : trace),
    exists r t', login_loop cfg env fuel attempts t = (Ok r, t').
Proof.
  intros Hl Hs. induction fuel as [|fuel IH]; intros attempts t; cbn [login_loop];
    destruct (attempts <? REQUEST_ATTEMPTS)%nat; try (eexists; eexists; reflexivity).
  cbv zeta. rewrite run_try.
  destruct (login_attempt cfg env t) as [[b|e] t1]; cbn [fst snd].
  - eexists. eexists. reflexivity.
  - rewrite run_call, Hl. rewrite run_call, Hs. apply IH.
Qed.

Lemma start_login_process_returns (cfg : settings) (env : environment) (t : trace) :
  logs_ok env ->
  sleeps_ok env ->
  exists b t', start_login_process cfg env t = (Ok b, t').
Proof.
  intros Hl Hs. rewrite start_login_process_run. cbv zeta.
  destruct (login_loop_returns cfg env Hl Hs REQUEST_ATTEMPTS 0
              (t ++ [Event MakeLogDirectory])%list) as (r & t' & Hrun).
  rewrite Hrun. cbn [fst snd]. destruct r as [b|]; eexists; eexists; reflexivity.
Qed.

(** X21. As long as the log file can be written and the pauses end,
    [start_login_process] returns a boolean and never raises: whatever the
    browser does (a page that does not load, an element that is not there, a
    wait that times out), and whatever making the log directory, speaking
    or notifying does, is taken for a failed attempt. *)
Theorem login_never_raises :
  forall (cfg : settings) (env : environment) (t : trace),
    logs_ok env ->
    sleeps_ok env ->
    exists (b : bool) (t' : trace), start_login_process cfg env t = (Ok b, t').
Proof.
  intros cfg env t Hl Hs. exact (start_login_process_returns cfg env t Hl Hs).
Qed.

Lemma login_never_raises_witness :
  exists (b : bool) (t' : trace),
    start_login_process sample (play scenario_no_sign_in) [] = (Ok b, t').
Proof.
  apply (login_never_raises sample (play scenario_no_sign_in) []).
  - intros n m. reflexivity.
  - intros n seconds. reflexivity.
Defined.

Lemma get_consulate_appointment_time_returns (cfg : settings) (env : environment)
  (date_visa : string) (attempts : list nat) :
  logs_ok env ->
  sleeps_ok env ->
  forall t : trace,
    exists r t', get_consulate_appointment_time_loop cfg env attempts date_visa t = (Ok r, t').
Proof.
  intros Hl Hs. induction attempts as [|a rest IH]; intros t;
    cbn [get_consulate_appointment_time_loop]; [eexists; eexists; reflexivity|].
  rewrite run_try.
  destruct (consulate_time_attempt cfg env date_visa t) as [[time|e] t1]; cbn [fst snd].
  - eexists. eexists. reflexivity.
  - rewrite run_call, Hl. rewrite run_call, Hs. apply IH.
Qed.

Lemma get_cas_date_returns (cfg : settings) (env : environment)
  (consulate_date consulate_time : string) (attempts : list nat) :
  logs_ok env ->
  sleeps_ok env ->
  forall t : trace,
    exists r t',
      get_cas_date_loop cfg env attempts consulate_date consulate_time t = (Ok r, t').
Proof.
  intros Hl Hs. induction attempts as [|a rest IH]; intros t;
    cbn [get_cas_date_loop]; [eexists; eexists; reflexivity|].
  rewrite run_try.
  destruct (cas_date_attempt env (CAS_DATE_URL cfg consulate_date consulate_time) t)
    as [[[cas_date|]|e] t1]; cbn [fst snd].
  - eexists. eexists. reflexivity.
  - rewrite run_call, Hs. apply IH.
  - rewrite run_call, Hl. rewrite run_call, Hs. apply IH.
Qed.

Lemma get_cas_time_returns (cfg : settings) (env : environment)
  (consulate_date consulate_time cas_date : string) (attempts : list nat) :
  logs_ok env ->
  sleeps_ok env ->
  forall t : trace,
    exists r t',
      get_cas_time_loop cfg env attempts consulate_date consulate_time cas_date t
      = (Ok r, t').
Proof.
  intros Hl Hs. induction attempts as [|a rest IH]; intros t;
    cbn [get_cas_time_loop]; [eexists; eexists; reflexivity|].
  rewrite run_try.
  destruct (cas_time_attempt env (CAS_TIME_URL cfg cas_date consulate_date consulate_time) t)
    as [[[cas_time|]|e] t1]; cbn [fst snd].
  - eexists. eexists. reflexivity.
  - rewrite run_call, Hs. apply IH.
  - rewrite run_call, Hl. rewrite run_call, Hs. apply IH.
Qed.

(** X22. The four slot queries never raise as long as the log file can be
    written and the pauses end: whatever the service answers (an exception,
    text that is no listing, entries without their fields, times that are no
    times), the date query returns the answer or [False], and the three
    others return what they selected or [False]. *)
Theorem queries_never_raise :
  forall (cfg : settings) (env : environment) (t : trace),
    logs_ok env ->
    sleeps_ok env ->
    (exists dates, get_consulate_appointment_date cfg env t =
                     (Ok dates, (t ++ [Event (FetchJson (DATE_URL cfg))])%list))
    /\ (forall date_visa, exists r t',
           get_consulate_appointment_time cfg env date_visa t = (Ok r, t'))
    /\ (forall consulate_date consulate_time, exists r t',
           get_cas_date cfg env consulate_date consulate_time t = (Ok r, t'))
    /\ (forall consulate_date consulate_time cas_date, exists r t',
           get_cas_time cfg env consulate_date consulate_time cas_date t = (Ok r, t')).
Proof.
  intros cfg env t Hl Hs. split; [|split; [|split]].
  - eexists. apply get_consulate_appointment_date_run.
  - intros date_visa. apply get_consulate_appointment_time_returns; assumption.
  - intros cd ct. apply get_cas_date_returns; assumption.
  - intros cd ct cas. apply get_cas_time_returns; assumption.
Qed.

Lemma queries_never_raise_witness :
  (exists dates, get_consulate_appointment_date sample (play scenario_offline) [] =
                   (Ok dates, ([] ++ [Event (FetchJson (DATE_URL sample))])%list))
  /\ (forall date_visa, exists r t',
         get_consulate_appointment_time sample (play scenario_offline) date_visa []
         = (Ok r, t'))
  /\ (forall consulate_date consulate_time, exists r t',
         get_cas_date sample (play scenario_offline) consulate_date consulate_time []
         = (Ok r, t'))
  /\ (forall consulate_date consulate_time cas_date, exists r t',
         get_cas_time sample (play scenario_offline) consulate_date consulate_time cas_date []
         = (Ok r, t')).
Proof.
  apply (queries_never_raise sample (play scenario_offline) []).
  - intros n m. reflexivity.
  - intros n seconds. reflexivity.
Defined.

(** X23. With sinks that work and a clock that can be read, an iteration of
    the loop never raises: an exception raised anywhere in the polling cycle
    (by the browser, by a listing, by [reschedule]) is logged and spoken, and
    ends the loop. *)
Theorem iteration_never_raises :
  forall (cfg : settings) (env : environment) (st : loop_state) (t : trace),
    quiet env ->
    (forall n, exists now, env Q n Now = Ok now) ->
    (exists (c : control) (t' : trace), loop_iteration cfg env st t = (Ok c, t'))
    /\
    (forall (e : exn) (t' : trace),
        first_loop st = false ->
        polling_cycle cfg env (count_request st) t = (Raise e, t') ->
        loop_iteration cfg env st t = (Ok Break, (t' ++ loop_broken e)%list)).
Proof.
  intros cfg env st t Hq Hclock. split.
  - unfold loop_iteration.
    assert (Hentered : exists entered t1, first_loop_block cfg env st t = (Ok entered, t1)).
    { unfold first_loop_block. destruct (first_loop st); [|eexists; eexists; reflexivity].
      destruct (negb (DRIVER cfg)); [eexists; eexists; reflexivity|].
      destruct (Hclock (length t)) as [now Hnow]. rewrite run_call, Hnow.
      destruct (start_login_process_returns cfg env (t ++ [Event Now])%list
                  (quiet_logs env Hq) (quiet_sleeps env Hq)) as (b & t1 & Hlogin).
      rewrite (bind_ok _ _ _ _ _ Hlogin).
      destruct (negb b); eexists; eexists; reflexivity. }
    destruct Hentered as (entered & t1 & Hentered).
    rewrite (bind_ok _ _ _ _ _ Hentered).
    destruct entered as [st1|]; [|eexists; eexists; reflexivity].
    cbv zeta. rewrite run_try.
    destruct (polling_cycle cfg env (count_request st1) t1) as [[c|e] t2]; cbn [fst snd].
    + eexists. eexists. reflexivity.
    + rewrite (handle_exception_run env e t2 Hq). eexists. eexists. reflexivity.
  - intros e t' Hpoll Hcycle. unfold loop_iteration, first_loop_block.
    rewrite Hpoll, run_ret. cbv zeta.
    rewrite (try_run _ _ _ _ _ Hcycle). apply (handle_exception_run env e t' Hq).
Qed.

Lemma iteration_never_raises_witness :
  (exists (c : control) (t' : trace),
      loop_iteration sample (play scenario_slashed) (polling 0 3) [] = (Ok c, t'))
  /\
  (forall (e : exn) (t' : trace),
      first_loop (polling 0 3) = false ->
      polling_cycle sample (play scenario_slashed) (count_request (polling 0 3)) []
        = (Raise e, t') ->
      loop_iteration sample (play scenario_slashed) (polling 0 3) []
        = (Ok Break, (t' ++ loop_broken e)%list)).
Proof.
  apply (iteration_never_raises sample (play scenario_slashed) (polling 0 3) []).
  - intros n. repeat split.
  - intros n. eexists. reflexivity.
Defined.
